(** * pyllama: an interactive console client for a local model server

    A shallow embedding of [pyllama.py] and the properties of its
    functions.  The file has four parts:

    - [PyData]: the Python values the program handles (text, integers,
      binary64 floats, JSON-shaped lists and dictionaries) with the
      built-in operations the program applies to them ([int], [float],
      [str], [round], [/], formatting with [.2f], [==], truthiness);
    - [PyEffects]: exceptions, the console, the file system, the HTTP
      endpoint, the chat stream, the table library and the model-creation
      tool as explicit state plus an environment of external behaviours;
    - [Pyllama]: the functions of [pyllama.py], one definition each;
    - [Props]: the vocabulary of the statements, then the lemmas and the
      theorems about the functions.

    Conventions.  Text is a [string] whose characters are code points
    below 256.  Integers are unbounded ([Z]).  Floats are IEEE binary64
    values ([spec_float] with precision 53 and maximal exponent 1024).
    Dictionaries keep insertion order, so they are association lists;
    a lookup returns the first binding of the key.  [==] compares values:
    the shortcut by which a container equals one that holds the very same
    objects (a list with the same NaN object) has no counterpart here.
    The interpreter converts between integers and decimal text up to 4300
    digits: [int_of_string] refuses longer numerals, and [py_format], the
    conversion behind the f-strings of [write_to_model_file], refuses
    longer integers; [py_str] is the text of a value whose integers are
    within that limit, which is what the catalog and the console can
    supply.  Paths follow POSIX and text files are written without newline
    translation.  Loops take a fuel argument; running out of fuel is the
    outcome [NoFuel], distinct from returning and from raising. *)

From Stdlib Require Import ZArith Ascii String List Bool Lia.
From Stdlib Require Import DecimalString.
From Stdlib Require Import Floats.SpecFloat.
From stdpp Require Import base option list strings gmap.

Local Open Scope Z_scope.

(* ===================================================================== *)
(** * Python data *)
(* ===================================================================== *)

Module PyData.

(** ** Text *)

Definition code (c : ascii) : Z := Z.of_nat (nat_of_ascii c).

Definition chr (n : Z) : ascii := ascii_of_nat (Z.to_nat n).

(** The white space [int] and [float] skip around a number (code points
    below 256). *)
Definition is_space (c : ascii) : bool :=
  let n := code c in
  ((9 <=? n) && (n <=? 13)) || (n =? 32) || (n =? 133) || (n =? 160).

Definition is_digit (c : ascii) : bool :=
  let n := code c in (48 <=? n) && (n <=? 57).

Definition digit_val (c : ascii) : Z := code c - 48.

(** [str.lower] on one character: ASCII and Latin-1 capitals. *)
Definition lower_char (c : ascii) : ascii :=
  let n := code c in
  if ((65 <=? n) && (n <=? 90))
     || ((192 <=? n) && (n <=? 222) && negb (n =? 215))
  then chr (n + 32) else c.

Fixpoint lower (s : string) : string :=
  match s with
  | EmptyString => EmptyString
  | String c r => String (lower_char c) (lower r)
  end.

Fixpoint lstrip (s : string) : string :=
  match s with
  | String c r => if is_space c then lstrip r else s
  | EmptyString => EmptyString
  end.

Fixpoint rev_string (s : string) (acc : string) : string :=
  match s with
  | EmptyString => acc
  | String c r => rev_string r (String c acc)
  end.

Definition rstrip (s : string) : string :=
  rev_string (lstrip (rev_string s EmptyString)) EmptyString.

Definition strip (s : string) : string := rstrip (lstrip s).

Fixpoint concat_strings (l : list string) : string :=
  match l with
  | [] => EmptyString
  | s :: r => s +:+ concat_strings r
  end.

Fixpoint join (sep : string) (l : list string) : string :=
  match l with
  | [] => EmptyString
  | [s] => s
  | s :: r => s +:+ sep +:+ join sep r
  end.

Fixpoint repeat_char (c : ascii) (n : nat) : string :=
  match n with
  | O => EmptyString
  | S k => String c (repeat_char c k)
  end.

Definition str_len (s : string) : Z := Z.of_nat (String.length s).

(** [s[:n]] and [s[n:]] for [0 <= n]. *)
Fixpoint take_str (n : nat) (s : string) : string :=
  match n, s with
  | S k, String c r => String c (take_str k r)
  | _, _ => EmptyString
  end.

Fixpoint drop_str (n : nat) (s : string) : string :=
  match n, s with
  | S k, String _ r => drop_str k r
  | _, _ => s
  end.

(** ** Integers as text *)

(** [str(n)] for an integer. *)
Definition str_of_Z (n : Z) : string := NilZero.string_of_int (Z.to_int n).

(** Decimal text of a natural number, at least [w] characters wide, padded
    with zeros on the left. *)
Definition zero_pad (w : nat) (n : Z) : string :=
  let s := str_of_Z n in
  repeat_char "0"%char (w - String.length s) +:+ s.

(** Underscore rule of numeric literals given as text: an underscore stands
    only between two digits.  [prev] is the character before [s]. *)
Fixpoint underscores_ok (prev : option ascii) (s : string) : bool :=
  match s with
  | EmptyString =>
      match prev with
      | Some c => negb (Ascii.eqb c "_"%char)
      | None => true
      end
  | String c r =>
      let prev_digit := match prev with Some p => is_digit p | None => false end in
      let prev_us :=
        match prev with Some p => Ascii.eqb p "_"%char | None => false end in
      (if Ascii.eqb c "_"%char then prev_digit
       else negb prev_us || is_digit c)
      && underscores_ok (Some c) r
  end.

Fixpoint remove_underscores (s : string) : string :=
  match s with
  | EmptyString => EmptyString
  | String c r =>
      if Ascii.eqb c "_"%char then remove_underscores r
      else String c (remove_underscores r)
  end.

(** Reads a run of digits: the value read so far, the number of digits read
    and the rest of the text. *)
Fixpoint read_digits (s : string) (acc : Z) (cnt : Z) : Z * Z * string :=
  match s with
  | String c r =>
      if is_digit c then read_digits r (10 * acc + digit_val c) (cnt + 1)
      else (acc, cnt, s)
  | EmptyString => (acc, cnt, s)
  end.

Definition read_sign (s : string) : bool * string :=
  match s with
  | String "-"%char r => (true, r)
  | String "+"%char r => (false, r)
  | _ => (false, s)
  end.

(** The interpreter converts between integers and decimal text up to this
    many digits (its default setting). *)
Definition int_max_str_digits : Z := 4300.

(** [int(s)] for text [s] in base ten: [None] stands for [ValueError].  A
    numeral of more than [int_max_str_digits] digits, leading zeros
    counted and underscores not, is refused. *)
Definition int_of_string (s : string) : option Z :=
  let t := strip s in
  let '(neg, body) := read_sign t in
  if underscores_ok None body then
    match read_digits (remove_underscores body) 0 0 with
    | (v, cnt, EmptyString) =>
        if (0 <? cnt) && (cnt <=? int_max_str_digits)
        then Some (if neg then - v else v) else None
    | _ => None
    end
  else None.

(** The digits and underscores at the head of a text: what [int] scans
    before it looks at the number of digits. *)
Fixpoint numeral_run (s : string) : string :=
  match s with
  | String c r =>
      if is_digit c || Ascii.eqb c "_"%char then String c (numeral_run r)
      else EmptyString
  | EmptyString => EmptyString
  end.

Fixpoint count_digits (s : string) : Z :=
  match s with
  | String c r => (if is_digit c then 1 else 0) + count_digits r
  | EmptyString => 0
  end.

(** The numeral at the head of [s] (after white space and a sign) is well
    formed and has more digits than the interpreter converts; the number of
    its digits. *)
Definition too_many_digits (s : string) : option Z :=
  let '(_, body) := read_sign (strip s) in
  let run := numeral_run body in
  let digits := count_digits run in
  if underscores_ok None run && (int_max_str_digits <? digits)
  then Some digits else None.

(** ** Binary64 floats *)

Definition prec : Z := 53.
Definition emax : Z := 1024.

Definition pow10 (k : Z) : Z := 10 ^ k.

(** The binary64 value nearest to [p / q], ties to even; an infinity when
    the quotient is beyond the largest finite value, a zero when it rounds
    to zero. *)
Definition round_ratio (neg : bool) (p q : positive) : spec_float :=
  let '(mz, ez, lz) := SFdiv_core_binary prec emax (Zpos p) 0 (Zpos q) 0 in
  binary_round_aux prec emax neg mz ez lz.

(** [round_ratio] on a non-negative numerator and a positive denominator. *)
Definition round_ratio_Z (neg : bool) (n d : Z) : spec_float :=
  match n, d with
  | Zpos p, Zpos q => round_ratio neg p q
  | _, _ => S754_zero neg
  end.

(** Conversion of an integer to a float, as in mixed arithmetic. *)
Definition float_of_Z (n : Z) : spec_float :=
  binary_normalize prec emax n 0 false.

Definition is_zero_float (x : spec_float) : bool :=
  match x with S754_zero _ => true | _ => false end.

Definition is_inf_float (x : spec_float) : bool :=
  match x with S754_infinity _ => true | _ => false end.

Definition float_eqb (x y : spec_float) : bool :=
  match x, y with
  | S754_zero a, S754_zero b => Bool.eqb a b
  | S754_infinity a, S754_infinity b => Bool.eqb a b
  | S754_nan, S754_nan => true
  | S754_finite a m e, S754_finite b n f =>
      Bool.eqb a b && Pos.eqb m n && Z.eqb e f
  | _, _ => false
  end.

(** Quotient of [n] by [d] rounded to the nearest integer, ties to even
    ([0 <= n], [0 < d]). *)
Definition div_half_even (n d : Z) : Z :=
  let q := n / d in
  let r := n mod d in
  match Z.compare (2 * r) d with
  | Lt => q
  | Gt => q + 1
  | Eq => if Z.even q then q else q + 1
  end.

(** The magnitude [m * 2^e] as a fraction. *)
Definition fraction_of (m : positive) (e : Z) : Z * Z :=
  if 0 <=? e then (Zpos m * 2 ^ e, 1) else (Zpos m, 2 ^ (- e)).

(** [|x| * 10^nd] rounded to an integer, ties to even, for a finite [x]. *)
Definition scaled_round (m : positive) (e : Z) (nd : Z) : Z :=
  let '(n, d) := fraction_of m e in
  div_half_even (n * pow10 nd) d.

Definition sign_text (neg : bool) : string := if neg then "-" else "".

(** [format(x, ".2f")]: the exact value rounded to two decimals. *)
Definition format_2f (x : spec_float) : string :=
  match x with
  | S754_nan => "nan"
  | S754_infinity s => sign_text s +:+ "inf"
  | S754_zero s => sign_text s +:+ "0.00"
  | S754_finite s m e =>
      let n := scaled_round m e 2 in
      sign_text s +:+ str_of_Z (n / 100) +:+ "." +:+ zero_pad 2 (n mod 100)
  end.

(** [round(x, 2)]: the float nearest to the two-decimal rounding of [x]. *)
Definition round_2 (x : spec_float) : spec_float :=
  match x with
  | S754_finite s m e => round_ratio_Z s (scaled_round m e 2) 100
  | _ => x
  end.

Definition num_digits (n : Z) : Z := str_len (str_of_Z n).

(** The decimal point position [k] of a positive fraction:
    [10^(k-1) <= n/d < 10^k]. *)
Definition decimal_point (n d : Z) : Z :=
  if d <=? n then num_digits (n / d)
  else 1 - num_digits ((d - 1) / n).

(** The value [c * 10^k] as a fraction. *)
Definition decimal_fraction (c k : Z) : Z * Z :=
  if 0 <=? k then (c * pow10 k, 1) else (c, pow10 (- k)).

Definition reads_back (m : positive) (e : Z) (c k : Z) : bool :=
  let '(n, d) := decimal_fraction c k in
  float_eqb (round_ratio_Z false n d) (S754_finite false m e).

(** Searches for the least number of significant digits, from [nd] up,
    with which a decimal reads back as [m * 2^e]; of two such decimals
    the nearer one is taken.  Returns the digits as an integer and the
    power of ten of its last digit. *)
Fixpoint shortest_from (fuel : nat) (m : positive) (e : Z) (k nd : Z)
  : Z * Z :=
  let '(n, d) := fraction_of m e in
  let '(sn, sd) := decimal_fraction n (nd - k) in
  let sd := sd * d in
  let lo := sn / sd in
  let hi := lo + 1 in
  let r := sn mod sd in
  let ok_lo := reads_back m e lo (k - nd) in
  let ok_hi := reads_back m e hi (k - nd) in
  let pick :=
    if r =? 0 then Some lo
    else if ok_lo && ok_hi then
      match Z.compare (2 * r) sd with
      | Lt => Some lo
      | Gt => Some hi
      | Eq => Some (if Z.even lo then lo else hi)
      end
    else if ok_lo then Some lo
    else if ok_hi then Some hi
    else None in
  match pick, fuel with
  | Some c, _ => (c, k - nd)
  | None, S f => shortest_from f m e k (nd + 1)
  | None, O => (lo, k - nd)
  end.

Fixpoint strip_zeros_rev (s : string) : string :=
  match s with
  | String "0"%char r => strip_zeros_rev r
  | _ => s
  end.

(** Drops the trailing zeros of a digit string. *)
Definition strip_trailing_zeros (s : string) : string :=
  rev_string (strip_zeros_rev (rev_string s EmptyString)) EmptyString.

(** Shortest digits of a positive finite float and the position of the
    decimal point relative to their start. *)
Definition shortest_digits (m : positive) (e : Z) : string * Z :=
  let '(n, d) := fraction_of m e in
  let k := decimal_point n d in
  let '(c, p) := shortest_from 17 m e k 1 in
  let all := str_of_Z c in
  (strip_trailing_zeros all, p + str_len all).

(** [repr(x)], which is also [str(x)], of a float. *)
Definition repr_float (x : spec_float) : string :=
  match x with
  | S754_nan => "nan"
  | S754_infinity s => sign_text s +:+ "inf"
  | S754_zero s => sign_text s +:+ "0.0"
  | S754_finite s m e =>
      let '(ds, decpt) := shortest_digits m e in
      let nd := str_len ds in
      sign_text s +:+
      (if (decpt <=? -4) || (16 <? decpt) then
         take_str 1 ds +:+
         (if 1 <? nd then "." +:+ drop_str 1 ds else "") +:+
         "e" +:+ (if decpt - 1 <? 0 then "-" else "+") +:+
         zero_pad 2 (Z.abs (decpt - 1))
       else if decpt <=? 0 then
         "0." +:+ repeat_char "0"%char (Z.to_nat (- decpt)) +:+ ds
       else if nd <=? decpt then
         ds +:+ repeat_char "0"%char (Z.to_nat (decpt - nd)) +:+ ".0"
       else
         take_str (Z.to_nat decpt) ds +:+ "." +:+ drop_str (Z.to_nat decpt) ds)
  end.

(** [float(s)] for text: [None] stands for [ValueError]. *)
Definition float_of_string (s : string) : option spec_float :=
  let t := strip s in
  if negb (underscores_ok None t) then None else
  let '(neg, body) := read_sign (remove_underscores t) in
  let low := lower body in
  if String.eqb low "inf" || String.eqb low "infinity"
  then Some (S754_infinity neg)
  else if String.eqb low "nan" then Some S754_nan
  else
    let '(iv, ic, r1) := read_digits body 0 0 in
    let '(mv, mc, r2) :=
      match r1 with
      | String "."%char r => read_digits r iv ic
      | _ => (iv, ic, r1)
      end in
    let fc := mc - ic in
    if mc =? 0 then None else
    let finish (ex : Z) : option spec_float :=
      let k := ex - fc in
      if mv =? 0 then Some (S754_zero neg)
      else if 400 <? num_digits mv + k then Some (S754_infinity neg)
      else if num_digits mv + k <? -400 then Some (S754_zero neg)
      else let '(n, d) := decimal_fraction mv k in
           Some (round_ratio_Z neg n d) in
    match r2 with
    | EmptyString => finish 0
    | String c r =>
        if Ascii.eqb c "e"%char || Ascii.eqb c "E"%char then
          let '(eneg, r3) := read_sign r in
          match read_digits r3 0 0 with
          | (ev, ec, EmptyString) =>
              if ec =? 0 then None
              else finish (if eneg then - ev else ev)
          | _ => None
          end
        else None
    end.

(** Truncation of a finite float towards zero, as [int(x)] does. *)
Definition trunc_float (s : bool) (m : positive) (e : Z) : Z :=
  let '(n, d) := fraction_of m e in
  if s then - (n / d) else n / d.

(** ** Exceptions and results *)

Inductive exn_kind :=
  | ValueError | TypeError | AttributeError | KeyError | OverflowError
  | ZeroDivisionError | EOFError | KeyboardInterrupt
  | OtherError (cls : string).

(** An exception: its class and the text [str(e)] gives. *)
Record exn := Exn { exn_kind_of : exn_kind; exn_text : string }.

(** [except Exception] catches everything but an interrupt. *)
Definition is_Exception (e : exn) : bool :=
  match exn_kind_of e with KeyboardInterrupt => false | _ => true end.

Definition is_ValueError (e : exn) : bool :=
  match exn_kind_of e with ValueError => true | _ => false end.

Definition is_ValueError_or_TypeError (e : exn) : bool :=
  match exn_kind_of e with ValueError | TypeError => true | _ => false end.

(** Result of an expression: a value or a raised exception. *)
Inductive res (A : Type) :=
  | Ok (a : A)
  | Raise (e : exn).
Arguments Ok {A} a.
Arguments Raise {A} e.

Definition res_bind {A B} (r : res A) (f : A -> res B) : res B :=
  match r with
  | Ok a => f a
  | Raise e => Raise e
  end.

Declare Scope res_scope.
Delimit Scope res_scope with res.
Notation "'let?' x := r 'in' k" := (res_bind r (fun x => k))
  (at level 10, x name, r at level 100, k at level 200) : res_scope.

(** ** Values *)

#[local] Set Warnings "-register-all".

Inductive pyval :=
  | PNone
  | PBool (b : bool)
  | PInt (n : Z)
  | PFloat (x : spec_float)
  | PStr (s : string)
  | PList (l : list pyval)
  | PDict (d : list (string * pyval)).

Definition type_name (v : pyval) : string :=
  match v with
  | PNone => "NoneType"
  | PBool _ => "bool"
  | PInt _ => "int"
  | PFloat _ => "float"
  | PStr _ => "str"
  | PList _ => "list"
  | PDict _ => "dict"
  end.

Definition hex_digit (n : Z) : ascii :=
  if n <? 10 then chr (48 + n) else chr (87 + n).

Definition is_printable (c : ascii) : bool :=
  let n := code c in
  ((32 <=? n) && (n <? 127)) || ((161 <=? n) && negb (n =? 173)).

Fixpoint contains_char (c : ascii) (s : string) : bool :=
  match s with
  | EmptyString => false
  | String d r => Ascii.eqb c d || contains_char c r
  end.

Fixpoint escape_chars (quote : ascii) (s : string) : string :=
  match s with
  | EmptyString => EmptyString
  | String c r =>
      (if Ascii.eqb c quote || Ascii.eqb c "\"%char
       then String "\"%char (String c EmptyString)
       else if code c =? 9 then "\t"
       else if code c =? 10 then "\n"
       else if code c =? 13 then "\r"
       else if is_printable c then String c EmptyString
       else String "\"%char (String "x"%char
              (String (hex_digit (code c / 16))
                 (String (hex_digit (code c mod 16)) EmptyString))))
      +:+ escape_chars quote r
  end.

(** [repr(s)] of text. *)
Definition repr_str (s : string) : string :=
  let quote :=
    if contains_char "'"%char s && negb (contains_char (chr 34) s)
    then chr 34 else "'"%char in
  String quote (escape_chars quote s) +:+ String quote EmptyString.

Fixpoint py_repr (v : pyval) : string :=
  match v with
  | PNone => "None"
  | PBool b => if b then "True" else "False"
  | PInt n => str_of_Z n
  | PFloat x => repr_float x
  | PStr s => repr_str s
  | PList l => "[" +:+ join ", " (List.map py_repr l) +:+ "]"
  | PDict d =>
      "{" +:+
      join ", "
        (List.map (fun kv => match kv with
                             | (k, w) => repr_str k +:+ ": " +:+ py_repr w
                             end) d)
      +:+ "}"
  end.

(** [str(v)], the text an f-string field or [print] shows. *)
Definition py_str (v : pyval) : string :=
  match v with
  | PStr s => s
  | _ => py_repr v
  end.

(** [str] refuses an integer of more than [int_max_str_digits] digits, also
    inside a list or a dictionary. *)
Definition int_has_text (n : Z) : bool :=
  Z.abs n <? 10 ^ int_max_str_digits.

Fixpoint has_text (v : pyval) : bool :=
  match v with
  | PInt n => int_has_text n
  | PList l => forallb has_text l
  | PDict d =>
      forallb (fun kv => match kv with (_, w) => has_text w end) d
  | _ => true
  end.

Definition digit_limit_error : exn :=
  Exn ValueError
    "Exceeds the limit (4300 digits) for integer string conversion; use sys.set_int_max_str_digits() to increase the limit".

(** A replacement field [{v}] of an f-string: [py_str v], or the
    [ValueError] of the conversion. *)
Definition py_format (v : pyval) : res string :=
  if has_text v then Ok (py_str v) else Raise digit_limit_error.

(** First binding of a key. *)
Fixpoint dict_lookup (k : string) (d : list (string * pyval)) : option pyval :=
  match d with
  | [] => None
  | (k', v) :: r => if String.eqb k k' then Some v else dict_lookup k r
  end.

(** [v.get(key, default)]. *)
Definition py_get (v : pyval) (key : string) (default : pyval) : res pyval :=
  match v with
  | PDict d =>
      Ok (match dict_lookup key d with Some w => w | None => default end)
  | _ => Raise (Exn AttributeError
                  ("'" +:+ type_name v +:+ "' object has no attribute 'get'"))
  end.

(** [v[key]] for a text key. *)
Definition py_getitem_str (v : pyval) (key : string) : res pyval :=
  match v with
  | PDict d =>
      match dict_lookup key d with
      | Some w => Ok w
      | None => Raise (Exn KeyError (repr_str key))
      end
  | PList _ =>
      Raise (Exn TypeError "list indices must be integers or slices, not str")
  | PStr _ => Raise (Exn TypeError "string indices must be integers, not 'str'")
  | _ => Raise (Exn TypeError
                  ("'" +:+ type_name v +:+ "' object is not subscriptable"))
  end.

Fixpoint chars_of (s : string) : list pyval :=
  match s with
  | EmptyString => []
  | String c r => PStr (String c EmptyString) :: chars_of r
  end.

(** The elements a [for] loop over [v] visits. *)
Definition py_iter (v : pyval) : res (list pyval) :=
  match v with
  | PList l => Ok l
  | PDict d => Ok (List.map (fun kv => PStr (fst kv)) d)
  | PStr s => Ok (chars_of s)
  | _ => Raise (Exn TypeError
                  ("'" +:+ type_name v +:+ "' object is not iterable"))
  end.

(** [len(v)]. *)
Definition py_len (v : pyval) : res Z :=
  match v with
  | PList l => Ok (Z.of_nat (length l))
  | PDict d => Ok (Z.of_nat (length d))
  | PStr s => Ok (str_len s)
  | _ => Raise (Exn TypeError
                  ("object of type '" +:+ type_name v +:+ "' has no len()"))
  end.

(** [v[i]] for an integer [i] with [0 <= i < len(v)]. *)
Definition py_getitem_int (v : pyval) (i : Z) : res pyval :=
  match v with
  | PList l =>
      match l !! Z.to_nat i with
      | Some w => Ok w
      | None => Raise (Exn (OtherError "IndexError") "list index out of range")
      end
  | PStr s =>
      match chars_of s !! Z.to_nat i with
      | Some w => Ok w
      | None => Raise (Exn (OtherError "IndexError") "string index out of range")
      end
  | PDict _ => Raise (Exn KeyError (str_of_Z i))
  | _ => Raise (Exn TypeError
                  ("'" +:+ type_name v +:+ "' object is not subscriptable"))
  end.

(** [v.items()]. *)
Definition py_items (v : pyval) : res (list (string * pyval)) :=
  match v with
  | PDict d => Ok d
  | _ => Raise (Exn AttributeError
                  ("'" +:+ type_name v +:+ "' object has no attribute 'items'"))
  end.

(** Truth value, as [if not v] tests it. *)
Definition truthy (v : pyval) : bool :=
  match v with
  | PNone => false
  | PBool b => b
  | PInt n => negb (n =? 0)
  | PFloat x => negb (is_zero_float x)
  | PStr s => negb (String.eqb s "")
  | PList l => match l with [] => false | _ => true end
  | PDict d => match d with [] => false | _ => true end
  end.

(** A float equals an integer when it denotes it exactly. *)
Definition float_eq_Z (x : spec_float) (n : Z) : bool :=
  match x with
  | S754_zero _ => n =? 0
  | S754_finite s m e =>
      let '(p, q) := fraction_of m e in
      (if s then - p else p) =? n * q
  | _ => false
  end.

Definition as_int (v : pyval) : option Z :=
  match v with
  | PInt n => Some n
  | PBool b => Some (if b then 1 else 0)
  | _ => None
  end.

(** [a == b]. *)
Fixpoint py_eq (a b : pyval) : bool :=
  match a, b with
  | PNone, PNone => true
  | PStr s, PStr t => String.eqb s t
  | PList l, PList r =>
      (fix all2 (l r : list pyval) : bool :=
         match l, r with
         | [], [] => true
         | x :: l', y :: r' => py_eq x y && all2 l' r'
         | _, _ => false
         end) l r
  | PDict d, PDict e =>
      Nat.eqb (length d) (length e)
      && (fix all_bound (d : list (string * pyval)) : bool :=
            match d with
            | [] => true
            | (k, v) :: d' =>
                match dict_lookup k e with
                | Some w => py_eq v w
                | None => false
                end && all_bound d'
            end) d
  | PFloat x, PFloat y => SFeqb x y
  | PFloat x, (PInt _ | PBool _) =>
      match as_int b with Some n => float_eq_Z x n | None => false end
  | (PInt _ | PBool _), PFloat y =>
      match as_int a with Some n => float_eq_Z y n | None => false end
  | (PInt _ | PBool _), (PInt _ | PBool _) =>
      match as_int a, as_int b with
      | Some m, Some n => m =? n
      | _, _ => false
      end
  | _, _ => false
  end.

(** The text of the [ValueError] [int(s)] raises; the message shows at
    most 200 characters of the text. *)
Definition int_error_text (s : string) : string :=
  match too_many_digits s with
  | Some digits =>
      "Exceeds the limit (4300 digits) for integer string conversion: value has "
      +:+ str_of_Z digits
      +:+ " digits; use sys.set_int_max_str_digits() to increase the limit"
  | None =>
      "invalid literal for int() with base 10: "
      +:+ take_str 200 (repr_str s)
  end.

(** [int(v)]. *)
Definition py_int (v : pyval) : res Z :=
  match v with
  | PInt n => Ok n
  | PBool b => Ok (if b then 1 else 0)
  | PStr s =>
      match int_of_string s with
      | Some n => Ok n
      | None => Raise (Exn ValueError (int_error_text s))
      end
  | PFloat S754_nan =>
      Raise (Exn ValueError "cannot convert float NaN to integer")
  | PFloat (S754_infinity _) =>
      Raise (Exn OverflowError "cannot convert float infinity to integer")
  | PFloat (S754_zero _) => Ok 0
  | PFloat (S754_finite s m e) => Ok (trunc_float s m e)
  | _ => Raise (Exn TypeError
                  ("int() argument must be a string, a bytes-like object or a real number, not '"
                   +:+ type_name v +:+ "'"))
  end.

(** [float(s)] for text. *)
Definition py_float_of_text (s : string) : res spec_float :=
  match float_of_string s with
  | Some x => Ok x
  | None => Raise (Exn ValueError
                     ("could not convert string to float: " +:+ repr_str s))
  end.

(** Integer by integer true division: the correctly rounded quotient. *)
Definition int_truediv (a b : Z) : res spec_float :=
  if b =? 0 then Raise (Exn ZeroDivisionError "division by zero")
  else
    let neg := xorb (a <? 0) (b <? 0) in
    let q := round_ratio_Z neg (Z.abs a) (Z.abs b) in
    if is_inf_float q
    then Raise (Exn OverflowError "integer division result too large for a float")
    else Ok q.

(** Integer operand of a float operation. *)
Definition to_float (n : Z) : res spec_float :=
  let x := float_of_Z n in
  if is_inf_float x
  then Raise (Exn OverflowError "int too large to convert to float")
  else Ok x.

Definition float_truediv (x y : spec_float) : res spec_float :=
  if is_zero_float y then Raise (Exn ZeroDivisionError "float division by zero")
  else Ok (SFdiv prec emax x y).

(** [a / b]. *)
Definition py_truediv (a b : pyval) : res pyval :=
  let unsupported :=
    Raise (Exn TypeError
             ("unsupported operand type(s) for /: '" +:+ type_name a
              +:+ "' and '" +:+ type_name b +:+ "'")) in
  match a, b with
  | PFloat x, PFloat y =>
      (let? q := float_truediv x y in Ok (PFloat q))%res
  | PFloat x, (PInt _ | PBool _) =>
      match as_int b with
      | Some n => (let? y := to_float n in
                   let? q := float_truediv x y in Ok (PFloat q))%res
      | None => unsupported
      end
  | (PInt _ | PBool _), PFloat y =>
      match as_int a with
      | Some n => (let? x := to_float n in
                   let? q := float_truediv x y in Ok (PFloat q))%res
      | None => unsupported
      end
  | (PInt _ | PBool _), (PInt _ | PBool _) =>
      match as_int a, as_int b with
      | Some m, Some n => (let? q := int_truediv m n in Ok (PFloat q))%res
      | _, _ => unsupported
      end
  | _, _ => unsupported
  end.

(** [round(v, 2)]. *)
Definition py_round_2 (v : pyval) : res pyval :=
  match v with
  | PFloat x => Ok (PFloat (round_2 x))
  | PInt n => Ok (PInt n)
  | PBool b => Ok (PInt (if b then 1 else 0))
  | _ => Raise (Exn TypeError
                  ("type " +:+ type_name v +:+ " doesn't define __round__ method"))
  end.

(** [format(v, ".2f")], the field [{v:.2f}] of an f-string. *)
Definition py_format_2f (v : pyval) : res string :=
  match v with
  | PFloat x => Ok (format_2f x)
  | PInt _ | PBool _ =>
      match as_int v with
      | Some n => (let? x := to_float n in Ok (format_2f x))%res
      | None => Ok ""
      end
  | PStr _ =>
      Raise (Exn ValueError "Unknown format code 'f' for object of type 'str'")
  | _ => Raise (Exn TypeError
                  ("unsupported format string passed to " +:+ type_name v
                   +:+ ".__format__"))
  end.

End PyData.

(* ===================================================================== *)
(** * Effects *)
(* ===================================================================== *)

Module PyEffects.
Import PyData.

(** The line feed, which Python source writes as a backslash and an n. *)
Definition nl : string := String (chr 10) EmptyString.

(** What one call of [input] meets on the console. *)
Inductive console_input :=
  | Line (s : string)
  | EndOfInput
  | Interrupt.

(** A response of the server: its status (an integer of three digits,
    the HTTP client accepts no other) and what [response.json()] evaluates
    to. *)
Record http_response := { status_code : Z; json : res pyval }.

(** A streamed chat: the fragments delivered and, when the stream breaks,
    the exception raised after them. *)
Record chat_reply := { chunks : list string; failure : option exn }.

(** Everything the program does to the outside, in order: text written to
    the console ([Out]), the table [print(tabulate(rows, headers, "grid"))]
    shows ([OutTable], kept as data since the rendering is the library's),
    a GET request, a chat call, a run of an external tool and the creation
    of a directory. *)
Inductive event :=
  | Out (text : string)
  | OutTable (headers : list string) (rows : list (list pyval))
  | HttpGet (url : string)
  | Chat (model : pyval) (prompt : string)
  | Spawn (argv : list string)
  | MakeDirs (path : string).

(** A text file: what has reached the disk, what is written but not yet
    flushed, and whether a handle on it is open. *)
Record file := { f_data : string; f_buf : string; f_open : bool }.

(** The behaviour of the outside world.  The console, the server and
    the chat service answer by the number of earlier calls; the system
    calls ([makedirs], [open], the clock, the creation tool) by the number
    of earlier system calls.  The table library renders a table or raises
    (it converts the cells of a column it takes for numbers); which tables
    it refuses is its own affair, a function of the headers and the rows. *)
Record env := {
  console : nat -> console_input;
  http : nat -> res http_response;
  chat : nat -> pyval -> string -> chat_reply;
  clock : nat -> string;
  makedirs_fails : nat -> string -> option exn;
  open_fails : nat -> string -> option exn;
  tool_fails : nat -> list string -> option exn;
  tabulate_fails : list string -> list (list pyval) -> option exn
}.

Record state := {
  st_in : nat;
  st_http : nat;
  st_chat : nat;
  st_sys : nat;
  st_trace : list event;
  st_fs : gmap string file
}.

Definition initial_state : state :=
  {| st_in := 0; st_http := 0; st_chat := 0; st_sys := 0;
     st_trace := []; st_fs := ∅ |}.

(** How a computation ends: it returns, it raises, or the fuel of a loop
    ran out before it did either. *)
Inductive outcome (A : Type) :=
  | Ret (a : A)
  | Exc (e : exn)
  | NoFuel.
Arguments Ret {A} a.
Arguments Exc {A} e.
Arguments NoFuel {A}.

Definition M (A : Type) : Type := env -> state -> outcome A * state.

Definition ret {A} (a : A) : M A := fun _ st => (Ret a, st).

Definition raise {A} (e : exn) : M A := fun _ st => (Exc e, st).

Definition out_of_fuel {A} : M A := fun _ st => (NoFuel, st).

Definition bind {A B} (m : M A) (k : A -> M B) : M B :=
  fun ev st =>
    match m ev st with
    | (Ret a, st') => k a ev st'
    | (Exc e, st') => (Exc e, st')
    | (NoFuel, st') => (NoFuel, st')
    end.

Definition lift {A} (r : res A) : M A :=
  match r with
  | Ok a => ret a
  | Raise e => raise e
  end.

Declare Scope py_scope.
Delimit Scope py_scope with py.
Notation "'let!' x := m 'in' k" := (bind m (fun x => k))
  (at level 10, x name, m at level 100, k at level 200) : py_scope.
Notation "m ;; k" := (bind m (fun _ => k))
  (at level 100, right associativity) : py_scope.

(** [try: body except <filter> as e: handler e]. *)
Definition catch {A} (filter : exn -> bool) (body : M A)
    (handler : exn -> M A) : M A :=
  fun ev st =>
    match body ev st with
    | (Exc e, st') =>
        if filter e then handler e ev st' else (Exc e, st')
    | r => r
    end.

(** [try: body finally: fin].  The final block runs whether the body
    returned or raised; its own exception replaces the body's. *)
Definition finally {A} (body : M A) (fin : M unit) : M A :=
  fun ev st =>
    match body ev st with
    | (NoFuel, st') => (NoFuel, st')
    | (r, st') =>
        match fin ev st' with
        | (Ret _, st'') => (r, st'')
        | (Exc e, st'') => (Exc e, st'')
        | (NoFuel, st'') => (NoFuel, st'')
        end
    end.

(** State updates. *)
Definition log_event (e : event) (st : state) : state :=
  {| st_in := st_in st; st_http := st_http st; st_chat := st_chat st;
     st_sys := st_sys st; st_trace := st_trace st ++ [e];
     st_fs := st_fs st |}.

Definition next_input (st : state) : state :=
  {| st_in := S (st_in st); st_http := st_http st; st_chat := st_chat st;
     st_sys := st_sys st; st_trace := st_trace st; st_fs := st_fs st |}.

Definition next_http (st : state) : state :=
  {| st_in := st_in st; st_http := S (st_http st); st_chat := st_chat st;
     st_sys := st_sys st; st_trace := st_trace st; st_fs := st_fs st |}.

Definition next_chat (st : state) : state :=
  {| st_in := st_in st; st_http := st_http st; st_chat := S (st_chat st);
     st_sys := st_sys st; st_trace := st_trace st; st_fs := st_fs st |}.

Definition tick (st : state) : state :=
  {| st_in := st_in st; st_http := st_http st; st_chat := st_chat st;
     st_sys := S (st_sys st); st_trace := st_trace st; st_fs := st_fs st |}.

Definition set_fs (fs : gmap string file) (st : state) : state :=
  {| st_in := st_in st; st_http := st_http st; st_chat := st_chat st;
     st_sys := st_sys st; st_trace := st_trace st; st_fs := fs |}.

Definition emit (e : event) : M unit :=
  fun _ st => (Ret tt, log_event e st).

(** [print(text)]. *)
Definition print (text : string) : M unit := emit (Out (text +:+ nl)).

(** [print(text, end="", flush=True)]. *)
Definition print_raw (text : string) : M unit := emit (Out text).

Definition read_console : M string :=
  fun ev st =>
    match console ev (st_in st) with
    | Line s => (Ret s, next_input st)
    | EndOfInput =>
        (Exc (Exn EOFError "EOF when reading a line"), next_input st)
    | Interrupt => (Exc (Exn KeyboardInterrupt ""), next_input st)
    end.

(** [input(prompt)]. *)
Definition input (prompt : string) : M string :=
  (emit (Out prompt) ;; read_console)%py.

(** [requests.get(url)]. *)
Definition requests_get (url : string) : M http_response :=
  (emit (HttpGet url) ;;
   fun ev st =>
     match http ev (st_http st) with
     | Ok r => (Ret r, next_http st)
     | Raise e => (Exc e, next_http st)
     end)%py.

(** [ollama.chat(model=..., messages=[the prompt], stream=True)]: the
    answer the service gives to this call. *)
Definition ollama_chat (model : pyval) (prompt : string) : M chat_reply :=
  (emit (Chat model prompt) ;;
   fun ev st => (Ret (chat ev (st_chat st) model prompt), next_chat st))%py.

(** A system call that either succeeds with [ok] or raises. *)
Definition sys_call (fails : env -> nat -> option exn)
    (ok : state -> state) : M unit :=
  fun ev st =>
    match fails ev (st_sys st) with
    | Some e => (Exc e, tick st)
    | None => (Ret tt, ok (tick st))
    end.

(** [os.makedirs(path, exist_ok=True)]. *)
Definition os_makedirs (path : string) : M unit :=
  (emit (MakeDirs path) ;;
   sys_call (fun ev n => makedirs_fails ev n path) (fun st => st))%py.

(** [datetime.now().strftime("%Y%m%d_%H%M%S")]. *)
Definition now_text : M string :=
  fun ev st => (Ret (clock ev (st_sys st)), tick st).

(** [subprocess.run(argv, check=True)]. *)
Definition subprocess_run (argv : list string) : M unit :=
  (emit (Spawn argv) ;;
   sys_call (fun ev n => tool_fails ev n argv) (fun st => st))%py.

(** [open(path, "w")]: the file is created or emptied. *)
Definition open_w (path : string) : M unit :=
  sys_call (fun ev n => open_fails ev n path)
    (fun st =>
       set_fs (<[path := {| f_data := ""; f_buf := ""; f_open := true |}]>
                 (st_fs st)) st).

Definition update_file (path : string) (f : file -> file) : M unit :=
  fun _ st =>
    match st_fs st !! path with
    | Some x =>
        if f_open x then (Ret tt, set_fs (<[path := f x]> (st_fs st)) st)
        else (Exc (Exn ValueError "I/O operation on closed file."), st)
    | None => (Exc (Exn ValueError "I/O operation on closed file."), st)
    end.

(** [file.write(text)]. *)
Definition file_write (path : string) (text : string) : M unit :=
  update_file path
    (fun x => {| f_data := f_data x; f_buf := f_buf x +:+ text;
                 f_open := true |}).

(** [file.flush()]. *)
Definition file_flush (path : string) : M unit :=
  update_file path
    (fun x => {| f_data := f_data x +:+ f_buf x; f_buf := "";
                 f_open := true |}).

(** Closing flushes what is pending and releases the handle. *)
Definition file_close (path : string) : M unit :=
  update_file path
    (fun x => {| f_data := f_data x +:+ f_buf x; f_buf := "";
                 f_open := false |}).

(** [with open(path, "w") as file: body].  The file is closed when the
    body returns and when it raises. *)
Definition with_open {A} (path : string) (body : M A) : M A :=
  (open_w path ;; finally body (file_close path))%py.

(** [print(tabulate(rows, headers=headers, tablefmt="grid"))]: the
    library renders the table, or raises, before anything of it is
    printed. *)
Definition print_table (headers : list string) (rows : list (list pyval))
  : M unit :=
  fun ev st =>
    match tabulate_fails ev headers rows with
    | Some e => (Exc e, st)
    | None => (Ret tt, log_event (OutTable headers rows) st)
    end.

Fixpoint for_each {A} (l : list A) (body : A -> M unit) : M unit :=
  match l with
  | [] => ret tt
  | x :: r => (body x ;; for_each r body)%py
  end.

End PyEffects.

(* ===================================================================== *)
(** * The program *)
(* ===================================================================== *)

Module Pyllama.
Import PyData PyEffects.
Local Open Scope py_scope.

Definition OLLAMA_SERVER_URL : string := "http://localhost:11434".

Definition get_installed_models : M pyval :=
  let! response := requests_get (OLLAMA_SERVER_URL +:+ "/api/tags/") in
  if status_code response =? 200 then
    let! body := lift (json response) in
    let! models := lift (py_get body "models" (PList [])) in
    ret models
  else
    print ("Failed to retrieve models: " +:+ str_of_Z (status_code response)) ;;
    ret (PList []).

Definition bytes_to_gb (byte_size : pyval) : res pyval :=
  py_truediv byte_size (PInt (1024 ^ 3)).

(** The [try] statement of [format_model_details]: the displayed parameter
    size. *)
Definition param_size_display (param_size : pyval) : res pyval :=
  let attempt :=
    (let? n := py_int param_size in
     let? param_size_gb := bytes_to_gb (PInt n) in
     let? text := py_format_2f param_size_gb in
     Ok (PStr (text +:+ " GB")))%res in
  match attempt with
  | Ok v => Ok v
  | Raise e =>
      if is_ValueError_or_TypeError e then Ok param_size else Raise e
  end.

(** The expression [round(model.get("size", "")/1024/1024/1024, 2)]. *)
Definition size_gb (model : pyval) : res pyval :=
  (let? raw := py_get model "size" (PStr "") in
   let? a := py_truediv raw (PInt 1024) in
   let? b := py_truediv a (PInt 1024) in
   let? c := py_truediv b (PInt 1024) in
   py_round_2 c)%res.

Definition format_model_details (model : pyval) : res pyval :=
  (let? details := py_get model "details" (PDict []) in
   let? family := py_get details "family" (PStr "") in
   let? param_size := py_get details "parameter_size" (PStr "") in
   let? quant_level := py_get details "quantization_level" (PStr "") in
   let? size := size_gb model in
   let? display := param_size_display param_size in
   let? name := py_get model "name" (PStr "") in
   Ok (PDict [("Name", name);
              ("Family", family);
              ("Parameter Size", display);
              ("Quantization Level", quant_level);
              ("Size", PStr (py_str size +:+ " GB"))]))%res.

(** Rows of the menu table: the index (from 1) before the formatted
    values of each model. *)
Fixpoint menu_rows (index : Z) (models : list pyval) : res (list (list pyval)) :=
  match models with
  | [] => Ok []
  | model :: rest =>
      (let? formatted_details := format_model_details model in
       let? items := py_items formatted_details in
       let? rows := menu_rows (index + 1) rest in
       Ok ((PInt index :: List.map snd items) :: rows))%res
  end.

Definition print_model_menu (models : pyval) : M unit :=
  let headers :=
    ["Index"; "Name"; "Family"; "Param. Size"; "Quant. Lvl"; "Size"] in
  let! elements := lift (py_iter models) in
  let! table_data := lift (menu_rows 1 elements) in
  print (nl +:+ "Installed Models:") ;;
  print_table headers table_data.

(** One round of the loop of [select_model]: [Some] model when the
    function returns, [None] when the loop goes round again. *)
Definition select_model_round (models : pyval) : M (option pyval) :=
  catch is_ValueError
    (let! text := input "Select a model by number: " in
     let! selection := lift (py_int (PStr text)) in
     let! in_range :=
       if 1 <=? selection then
         let! count := lift (py_len models) in ret (selection <=? count)
       else ret false in
     if in_range : bool then
       let! model := lift (py_getitem_int models (selection - 1)) in
       ret (Some model)
     else
       print "Invalid selection. Please choose a valid number." ;;
       ret None)
    (fun _ => print "Please enter a valid number." ;; ret None).

Fixpoint select_model (fuel : nat) (models : pyval) : M pyval :=
  match fuel with
  | O => out_of_fuel
  | S fuel' =>
      let! r := select_model_round models in
      match r with
      | Some model => ret model
      | None => select_model fuel' models
      end
  end.

Definition input_float (prompt : string) : M pyval :=
  let! text := input prompt in
  let! x := lift (py_float_of_text text) in
  ret (PFloat x).

Definition input_int (prompt : string) : M pyval :=
  let! text := input prompt in
  let! n := lift (py_int (PStr text)) in
  ret (PInt n).

Definition get_user_parameters : M pyval :=
  let! temperature := input_float "Enter temperature (e.g., 0.7): " in
  let! num_ctx := input_int "Enter num_ctx (e.g., 2048): " in
  let! top_k := input_int "Enter top_k (e.g., 50): " in
  let! top_p := input_float "Enter top_p (e.g., 0.9): " in
  let! min_p := input_float "Enter min_p (e.g., 0.01): " in
  ret (PDict [("temperature", temperature);
              ("num_ctx", num_ctx);
              ("top_k", top_k);
              ("top_p", top_p);
              ("min_p", min_p)]).

(** The text [f"PARAMETER {key} {value}\n"] of one entry. *)
Definition parameter_line (kv : string * pyval) : res string :=
  (let? value := py_format (snd kv) in
   Ok ("PARAMETER " +:+ fst kv +:+ " " +:+ value +:+ nl))%res.

Definition write_to_model_file (model_name original_model_name parameters : pyval)
  : M unit :=
  let! path := lift (py_format model_name) in
  with_open path
    (let! declaration := lift (py_format original_model_name) in
     file_write path ("FROM " +:+ declaration +:+ nl) ;;
     let! items := lift (py_items parameters) in
     for_each items
       (fun kv =>
          let! line := lift (parameter_line kv) in
          file_write path line)).

Definition create_ollama_model_with_config (model_name config_file : string)
  : M unit :=
  catch is_Exception
    (subprocess_run ["ollama"; "create"; model_name; "-f"; config_file] ;;
     print ("Model " +:+ model_name +:+ " created successfully."))
    (fun e => print ("Error creating model: " +:+ exn_text e)).

Definition separator : string :=
  "--------------------------------------------------------------------------------".

(** The [while] loop of [run_model]; [user_prompt] is the prompt read in
    the round before (the empty text at the start). *)
Fixpoint run_model_loop (fuel : nat) (model_name : pyval) (log : string)
    (user_prompt : string) : M unit :=
  match fuel with
  | O => out_of_fuel
  | S fuel' =>
      if negb (String.eqb (lower user_prompt) "exit") then
        let! user_prompt := input (nl +:+ nl +:+ nl +:+ "Enter a prompt > ") in
        file_write log ("User: " +:+ user_prompt +:+ nl) ;;
        file_flush log ;;
        file_write log "Assistant: " ;;
        let! reply := ollama_chat model_name user_prompt in
        for_each (chunks reply)
          (fun content =>
             print_raw content ;;
             file_write log content ;;
             file_flush log) ;;
        match failure reply with
        | Some e => raise e
        | None => ret tt
        end ;;
        file_write log (nl +:+ separator +:+ nl) ;;
        file_flush log ;;
        print (nl +:+ separator) ;;
        run_model_loop fuel' model_name log user_prompt
      else ret tt
  end.

(** The [try] statement of [run_model], lines 141 to 167. *)
Definition run_model_session (fuel : nat) (model_name : pyval)
    (log_file_path : string) : M unit :=
  finally
    (catch is_Exception
       (with_open log_file_path
          (run_model_loop fuel model_name log_file_path ""))
       (fun e => print ("An error occurred: " +:+ exn_text e)))
    (print ("Session log saved to: " +:+ log_file_path)).

Definition run_model (fuel : nat) (model_name : pyval) : M unit :=
  print ("Running model: " +:+ py_str model_name) ;;
  let log_dir := "logs" in
  os_makedirs log_dir ;;
  let! current_time := now_text in
  let log_file_path :=
    log_dir +:+ "/" +:+ "Session_" +:+ current_time +:+ ".log" in
  run_model_session fuel model_name log_file_path.

(** Body of the loop of [show_model_details] for one model. *)
Definition show_one_model (model_name model : pyval) : M unit :=
  let! name := lift (py_getitem_str model "name") in
  if py_eq name model_name then
    let! name := lift (py_getitem_str model "name") in
    print ("Model Name: " +:+ py_str name) ;;
    let! details := lift (py_get model "details" (PDict [])) in
    let! family := lift (py_get details "family" (PStr "")) in
    print ("Family: " +:+ py_str family) ;;
    let! details := lift (py_get model "details" (PDict [])) in
    let! param_size := lift (py_get details "parameter_size" (PStr "")) in
    print ("Parameter Size: " +:+ py_str param_size) ;;
    let! details := lift (py_get model "details" (PDict [])) in
    let! quant_level := lift (py_get details "quantization_level" (PStr "")) in
    print ("Quantization Level: " +:+ py_str quant_level) ;;
    let! size := lift (py_getitem_str model "size") in
    let! gb := lift (bytes_to_gb size) in
    print ("Size: " +:+ py_str gb)
  else ret tt.

Definition show_model_details (model_name : pyval) : M unit :=
  print ("Details for model: " +:+ py_str model_name) ;;
  let! models := get_installed_models in
  let! elements := lift (py_iter models) in
  for_each elements (show_one_model model_name).

(** [secondary_menu] returns [None] after "Back" and [-1] after "Exit". *)
Fixpoint secondary_menu (fuel : nat) (selected_model : pyval) : M pyval :=
  match fuel with
  | O => out_of_fuel
  | S fuel' =>
      print (nl +:+ "Secondary Menu:") ;;
      print "1. Run Model" ;;
      print "2. Show Model Details" ;;
      print "3. Copy Model" ;;
      print "4. Back to Main Menu" ;;
      print "5. Exit" ;;
      let! choice := input "Enter your choice (1/2/3/4): " in
      if String.eqb choice "1" then
        let! name := lift (py_getitem_str selected_model "name") in
        run_model fuel' name ;;
        secondary_menu fuel' selected_model
      else if String.eqb choice "2" then
        let! name := lift (py_getitem_str selected_model "name") in
        show_model_details name ;;
        secondary_menu fuel' selected_model
      else if String.eqb choice "3" then
        let! new_model_name := input "Enter the name for the new model: " in
        let! parameters := get_user_parameters in
        let config_file := new_model_name +:+ ".modelfile" in
        let! name := lift (py_getitem_str selected_model "name") in
        write_to_model_file (PStr config_file) name parameters ;;
        create_ollama_model_with_config new_model_name config_file ;;
        secondary_menu fuel' selected_model
      else if String.eqb choice "4" then ret PNone
      else if String.eqb choice "5" then ret (PInt (-1))
      else
        print "Invalid option. Please try again." ;;
        secondary_menu fuel' selected_model
  end.

(** The loop of [main]; [check] is what [secondary_menu] returned last
    ([0] at the start). *)
Fixpoint main_loop (fuel : nat) (check : pyval) : M unit :=
  match fuel with
  | O => out_of_fuel
  | S fuel' =>
      if negb (py_eq check (PInt (-1))) then
        let! models := get_installed_models in
        if negb (truthy models) then
          print "No models found."
        else
          print_model_menu models ;;
          let! selected_model := select_model fuel' models in
          let! check := secondary_menu fuel' selected_model in
          main_loop fuel' check
      else ret tt
  end.

Definition main (fuel : nat) : M unit := main_loop fuel (PInt 0).

End Pyllama.

(* ===================================================================== *)
(** * Properties *)
(* ===================================================================== *)

Module Props.
Import PyData PyEffects Pyllama.
Local Open Scope py_scope.

(** ** Vocabulary of the statements *)

(** *** Environments of the examples *)

(** A console that holds the given lines and then ends. *)
Definition typed (l : list string) : nat -> console_input :=
  fun i => match l !! i with Some s => Line s | None => EndOfInput end.

Definition connection_refused : exn :=
  Exn (OtherError "requests.exceptions.ConnectionError")
      "HTTPConnectionPool(host='localhost', port=11434): Max retries exceeded".

Definition silence : chat_reply := {| chunks := []; failure := None |}.

(** An environment in which the console holds the given lines, the server
    gives the same response to every request, the model the same answer to
    every prompt, and every system call succeeds. *)
Definition scripted (l : list string) (response : res http_response)
    (reply : chat_reply) : env :=
  {| console := typed l;
     http := fun _ => response;
     chat := fun _ _ _ => reply;
     clock := fun _ => "20240101_120000";
     makedirs_fails := fun _ _ => None;
     open_fails := fun _ _ => None;
     tool_fails := fun _ _ => None;
     tabulate_fails := fun _ _ => None |}.

(** Nobody at the console, no server. *)
Definition quiet_env : env := scripted [] (Raise connection_refused) silence.

(** *** Model dictionaries *)

(** A float written as a literal in Python source. *)
Definition float_literal (text : string) : spec_float :=
  match float_of_string text with
  | Some x => x
  | None => S754_nan
  end.

(** Values the division operator rejects: everything that is not an
    integer, a boolean or a float. *)
Definition non_numeric (v : pyval) : bool :=
  match v with
  | PNone | PStr _ | PList _ | PDict _ => true
  | PBool _ | PInt _ | PFloat _ => false
  end.

(** The "size" entry is absent or not a number. *)
Definition size_unusable (d : list (string * pyval)) : bool :=
  match dict_lookup "size" d with
  | None => true
  | Some v => non_numeric v
  end.

(** The "size" entry is a number the divisions of line 32 accept: a
    float, a boolean, or an integer whose quotient by 1024 is within the
    range of floats. *)
Definition size_divides (d : list (string * pyval)) : Prop :=
  match dict_lookup "size" d with
  | Some (PFloat _) | Some (PBool _) => True
  | Some (PInt n) => exists q, int_truediv n 1024 = Ok q
  | _ => False
  end.

(** The "details" entry is absent or a dictionary. *)
Definition details_usable (d : list (string * pyval)) : bool :=
  match dict_lookup "details" d with
  | None | Some (PDict _) => true
  | Some _ => false
  end.

(** The raw parameter size of a model dictionary, as
    [details.get("parameter_size", "")] reads it. *)
Definition raw_parameter_size (d : list (string * pyval)) : option pyval :=
  match dict_lookup "details" d with
  | None => Some (PStr "")
  | Some (PDict det) =>
      Some (match dict_lookup "parameter_size" det with
            | Some v => v
            | None => PStr ""
            end)
  | Some _ => None
  end.

(** An entry of the dictionary a function returned. *)
Definition field (key : string) (r : res pyval) : option pyval :=
  match r with
  | Ok (PDict out) => dict_lookup key out
  | _ => None
  end.

Definition raises {A} (k : exn_kind) (r : res A) : Prop :=
  exists text, r = Raise (Exn k text).

(** The example model of the specification. *)
Definition example_model : pyval :=
  PDict [("details", PDict [("family", PStr "llama");
                            ("parameter_size", PStr "7000000000");
                            ("quantization_level", PStr "Q4")]);
         ("size", PInt 4294967296);
         ("name", PStr "foo")].

(** A count of bytes written with 401 digits: a one and 400 zeros. *)
Definition huge_count : string := String "1"%char (repeat_char "0"%char 400).

(** *** Files *)

Definition closed_file (text : string) : file :=
  {| f_data := text; f_buf := ""; f_open := false |}.

(** The content of a model file as the specification words it: one
    declaration line naming the base model, then one line "PARAMETER
    <key> <value>" for each entry of the mapping, in the order of the
    entries, the base model and the values as [str] shows them. *)
Definition model_file_text (original_model_name : pyval)
    (items : list (string * pyval)) : string :=
  "FROM " +:+ py_str original_model_name +:+ nl
  +:+ concat_strings
        (List.map
           (fun entry =>
              "PARAMETER " +:+ fst entry +:+ " " +:+ py_str (snd entry) +:+ nl)
           items).

(** [str] renders every value of the mapping. *)
Definition values_have_text (items : list (string * pyval)) : Prop :=
  Forall (fun kv => has_text (snd kv) = true) items.

(** The state in which the file [name] was opened for writing from [st]
    and left closed with the given content. *)
Definition file_written (name content : string) (st : state) : state :=
  set_fs (<[name := closed_file content]> (st_fs st)) (tick st).


(** *** The catalog *)

Definition tags_url : string := OLLAMA_SERVER_URL +:+ "/api/tags/".

(** The state after the request of [get_installed_models] was sent and
    answered. *)
Definition after_request (st : state) : state :=
  next_http (log_event (HttpGet tags_url) st).

(** A server that answers every request with the given response. *)
Definition server_env (r : res http_response) : env := scripted [] r silence.

(** *** The console *)

Definition select_prompt : string := "Select a model by number: ".

(** The state after the prompt was shown and one line was read. *)
Definition after_prompt (st : state) : state :=
  next_input (log_event (Out select_prompt) st).

(** The entry is an integer between 1 and the number of models. *)
Definition in_range (ms : list pyval) (text : string) : bool :=
  match int_of_string text with
  | Some n => (1 <=? n) && (n <=? Z.of_nat (length ms))
  | None => false
  end.

(** What [select_model] prints before it asks again. *)
Definition rejection (text : string) : string :=
  match int_of_string text with
  | Some _ => "Invalid selection. Please choose a valid number."
  | None => "Please enter a valid number."
  end.

Definition after_rejection (text : string) (st : state) : state :=
  log_event (Out (rejection text +:+ nl)) (after_prompt st).

(** The console holds a line at every position from [pos] to [pos + k]. *)
Definition lines_until (ev : env) (pos k : nat) : Prop :=
  forall j, (j <= k)%nat -> exists t, console ev (pos + j) = Line t.

(** Rejected entries only: every line from [pos] on, [k] of them, is a
    line that is not a selection in range. *)
Definition rejected_lines (ev : env) (ms : list pyval) (pos k : nat) : Prop :=
  forall j, (j < k)%nat ->
    exists t, console ev (pos + j) = Line t /\ in_range ms t = false.

(** Lines at the console, no server. *)
Definition console_env (l : list string) : env :=
  scripted l (Raise connection_refused) silence.

(** A console at which "1" is typed again and again. *)
Definition insisting_env : env :=
  {| console := fun _ => Line "1";
     http := http quiet_env;
     chat := chat quiet_env;
     clock := clock quiet_env;
     makedirs_fails := makedirs_fails quiet_env;
     open_fails := open_fails quiet_env;
     tool_fails := tool_fails quiet_env;
     tabulate_fails := tabulate_fails quiet_env |}.

Definition three_models : list pyval :=
  [PDict [("name", PStr "a")]; PDict [("name", PStr "b")];
   PDict [("name", PStr "c")]].

(** The state after a prompt was shown and one line was read. *)
Definition after_read (prompt : string) (st : state) : state :=
  next_input (log_event (Out prompt) st).

(** The five prompts of [get_user_parameters], each with the type
    asked for: [true] for a float, [false] for an integer. *)
Definition parameter_prompts : list (string * bool) :=
  [("Enter temperature (e.g., 0.7): ", true);
   ("Enter num_ctx (e.g., 2048): ", false);
   ("Enter top_k (e.g., 50): ", false);
   ("Enter top_p (e.g., 0.9): ", true);
   ("Enter min_p (e.g., 0.01): ", true)].

(** The text is accepted by [float] or by [int]. *)
Definition reads_as (as_float : bool) (text : string) : bool :=
  if as_float then bool_decide (is_Some (float_of_string text))
  else bool_decide (is_Some (int_of_string text)).

(** Of the lines at [pos], [pos + 1], ... the one at [pos + i] is the
    first that its prompt's type rejects. *)
Definition rejected_parameter (ev : env) (pos i : nat) : Prop :=
  (exists prompt kind text,
      parameter_prompts !! i = Some (prompt, kind)
      /\ console ev (pos + i) = Line text
      /\ reads_as kind text = false)
  /\ forall j, (j < i)%nat ->
       exists prompt kind text,
         parameter_prompts !! j = Some (prompt, kind)
         /\ console ev (pos + j) = Line text
         /\ reads_as kind text = true.

Fixpoint after_reads (prompts : list (string * bool)) (st : state) : state :=
  match prompts with
  | [] => st
  | (prompt, _) :: rest => after_reads rest (after_read prompt st)
  end.

(** The lines of the secondary menu. *)
Definition menu_lines : list string :=
  [nl +:+ "Secondary Menu:"; "1. Run Model"; "2. Show Model Details";
   "3. Copy Model"; "4. Back to Main Menu"; "5. Exit"].

(** The state after the secondary menu was printed. *)
Definition menu_shown (st : state) : state :=
  fold_left (fun s line => log_event (Out (line +:+ nl)) s) menu_lines st.

(** The state after the choice and the name of the new model were read. *)
Definition name_asked (st : state) : state :=
  after_read "Enter the name for the new model: "
    (after_read "Enter your choice (1/2/3/4): " (menu_shown st)).

(** A session at the console: the server lists the example model, the
    user picks it, chooses "Copy Model", names the copy and answers the
    first question with text that is no number. *)
Definition copy_session : env :=
  scripted ["1"; "3"; "copy"; "abc"]
    (Ok {| status_code := 200;
           json := Ok (PDict [("models", PList [example_model])]) |})
    silence.

Definition asked_temperature : state :=
  Eval vm_compute in snd (main 10 copy_session initial_state).

(** *** The session log *)

(** A handle on the log is open. *)
Definition log_open (log : string) (st : state) : Prop :=
  exists f, st_fs st !! log = Some f /\ f_open f = true.


(** All that was written to the log, flushed or not. *)
Definition log_content (log : string) (st : state) : string :=
  match st_fs st !! log with
  | Some f => f_data f +:+ f_buf f
  | None => ""
  end.


(** The last line of a session. *)
Definition announcement (log : string) : event :=
  Out ("Session log saved to: " +:+ log +:+ nl).

Definition announced (log : string) (st : state) : Prop :=
  last (st_trace st) = Some (announcement log).


(** The state after [open] created the log. *)
Definition opened (log : string) (st : state) : state :=
  set_fs (<[log := {| f_data := ""; f_buf := ""; f_open := true |}]> (st_fs st))
    (tick st).

(** The state after the handle on the log was closed. *)
Definition closed (log : string) (st : state) : state :=
  set_fs (<[log := closed_file (log_content log st)]> (st_fs st)) st.

Definition error_report (e : exn) : event :=
  Out ("An error occurred: " +:+ exn_text e +:+ nl).

(** One stretch of a session: the log stays open and grows by [extra],
    the console shows [evs], and [din] lines and [dchat] chat answers are
    used up. *)
Definition step (log : string) (extra : string) (evs : list event)
    (din dchat : nat) (st st' : state) : Prop :=
  log_open log st'
  /\ log_content log st' = log_content log st +:+ extra
  /\ st_trace st' = st_trace st ++ evs
  /\ st_in st' = (st_in st + din)%nat
  /\ st_chat st' = (st_chat st + dchat)%nat.

(** The body of the loop over the fragments of an answer. *)
Definition echo (log : string) (content : string) : M unit :=
  (print_raw content ;; file_write log content ;; file_flush log)%py.

Definition prompt_text : string := nl +:+ nl +:+ nl +:+ "Enter a prompt > ".

(** What a round writes to the log before the answer. *)
Definition round_head (user_prompt : string) : string :=
  "User: " +:+ user_prompt +:+ nl +:+ "Assistant: ".

(** What a completed round writes to the log. *)
Definition round_text (user_prompt : string) (cs : list string) : string :=
  round_head user_prompt +:+ concat_strings cs +:+ nl +:+ separator +:+ nl.

(** What a round shows and asks of the outside before the separator. *)
Definition round_events (model_name : pyval) (user_prompt : string)
    (cs : list string) : list event :=
  Out prompt_text :: Chat model_name user_prompt :: List.map Out cs.

Definition separator_shown : event := Out (nl +:+ separator +:+ nl).






(** A session whose first and only prompt is the sentinel. *)
Definition farewell_session : env :=
  scripted ["exit"] (Raise connection_refused)
    {| chunks := ["Good"; "bye!"]; failure := None |}.

(** *** Further vocabulary: model dictionaries *)

(** The entry of a dictionary, or the empty text when it is absent. *)
Definition entry_or_empty (key : string) (d : list (string * pyval)) : pyval :=
  match dict_lookup key d with
  | Some w => w
  | None => PStr ""
  end.

(** The dictionary [model.get("details", {})] yields, when it is one. *)
Definition details_of (d : list (string * pyval))
  : option (list (string * pyval)) :=
  match dict_lookup "details" d with
  | None => Some []
  | Some (PDict det) => Some det
  | Some _ => None
  end.

(** Values [int] has no conversion for. *)
Definition not_convertible (v : pyval) : bool :=
  match v with
  | PNone | PList _ | PDict _ => true
  | _ => false
  end.

Definition menu_headers : list string :=
  ["Index"; "Name"; "Family"; "Param. Size"; "Quant. Lvl"; "Size"].

Definition menu_heading : event :=
  Out ((nl +:+ "Installed Models:") +:+ nl).

(** The state after the menu of models was printed. *)
Definition menu_printed (rows : list (list pyval)) (st : state) : state :=
  log_event (OutTable menu_headers rows) (log_event menu_heading st).

(** The table of a list of models: one row for each model, in the order
    of the list; the row of the model at position [i] holds the index
    [first + i] and then the values of its formatted details. *)
Definition table_from (first : Z) (ms : list pyval)
    (rows : list (list pyval)) : Prop :=
  length rows = length ms
  /\ forall (i : nat) (m : pyval),
       ms !! i = Some m ->
       exists out,
         format_model_details m = Ok (PDict out)
         /\ rows !! i = Some (PInt (first + Z.of_nat i) :: List.map snd out).

(** The rows of the example model listed twice. *)
Definition example_rows : list (list pyval) :=
  [[PInt 1; PStr "foo"; PStr "llama"; PStr "6.52 GB"; PStr "Q4";
    PStr "4.0 GB"];
   [PInt 2; PStr "foo"; PStr "llama"; PStr "6.52 GB"; PStr "Q4";
    PStr "4.0 GB"]].

(** An environment whose table library refuses every table. *)
Definition no_tables : env :=
  {| console := console quiet_env;
     http := http quiet_env;
     chat := chat quiet_env;
     clock := clock quiet_env;
     makedirs_fails := makedirs_fails quiet_env;
     open_fails := open_fails quiet_env;
     tool_fails := tool_fails quiet_env;
     tabulate_fails :=
       fun _ _ => Some (Exn OverflowError "int too large to convert to float") |}.

(** *** Further vocabulary: the console and the tool *)

Definition end_of_file : exn := Exn EOFError "EOF when reading a line".

Definition interrupted : exn := Exn KeyboardInterrupt "".

(** What a call of [input] raises when it finds no line. *)
Definition input_failure (c : console_input) : option exn :=
  match c with
  | Line _ => None
  | EndOfInput => Some end_of_file
  | Interrupt => Some interrupted
  end.

(** The dictionary [get_user_parameters] returns for the five values. *)
Definition parameters_of (temperature : spec_float) (num_ctx top_k : Z)
    (top_p min_p : spec_float) : pyval :=
  PDict [("temperature", PFloat temperature);
         ("num_ctx", PInt num_ctx);
         ("top_k", PInt top_k);
         ("top_p", PFloat top_p);
         ("min_p", PFloat min_p)].

(** The command line of the creation tool. *)
Definition create_command (model_name config_file : string) : list string :=
  ["ollama"; "create"; model_name; "-f"; config_file].

(** The state after the creation tool was started. *)
Definition tool_started (model_name config_file : string) (st : state)
  : state :=
  tick (log_event (Spawn (create_command model_name config_file)) st).

(** What [create_ollama_model_with_config] prints. *)
Definition creation_report (model_name : string) (failed : option exn)
  : event :=
  match failed with
  | None => Out (("Model " +:+ model_name +:+ " created successfully.") +:+ nl)
  | Some e => Out (("Error creating model: " +:+ exn_text e) +:+ nl)
  end.

(** *** Further vocabulary: the menus *)

(** The state after the secondary menu was printed and the choice read. *)
Definition menu_answered (st : state) : state :=
  after_read "Enter your choice (1/2/3/4): " (menu_shown st).

(** The choices the secondary menu acts on. *)
Definition recognised (choice : string) : bool :=
  String.eqb choice "1" || String.eqb choice "2" || String.eqb choice "3"
  || String.eqb choice "4" || String.eqb choice "5".

Definition invalid_option : event :=
  Out ("Invalid option. Please try again." +:+ nl).

(** Every line from [pos] on, [k] of them, is a line the secondary menu
    does not recognise. *)
Definition unrecognised_lines (ev : env) (pos k : nat) : Prop :=
  forall j, (j < k)%nat ->
    exists t, console ev (pos + j) = Line t /\ recognised t = false.

(** The state after [k] unrecognised choices: each time the menu, the
    question and the complaint. *)
Fixpoint after_complaints (k : nat) (st : state) : state :=
  match k with
  | O => st
  | S k' => after_complaints k' (log_event invalid_option (menu_answered st))
  end.

Definition no_models_found : event := Out ("No models found." +:+ nl).

Definition retrieval_failed (status : Z) : event :=
  Out (("Failed to retrieve models: " +:+ str_of_Z status) +:+ nl).

(** The model file of a copy: the declaration of the base model, then
    the five parameters in the order they were asked, floats as [repr]
    shows them and integers as decimal numerals. *)
Definition copied_model_file (base : string) (temperature : spec_float)
    (num_ctx top_k : Z) (top_p min_p : spec_float) : string :=
  "FROM " +:+ base +:+ nl
  +:+ "PARAMETER temperature " +:+ repr_float temperature +:+ nl
  +:+ "PARAMETER num_ctx " +:+ str_of_Z num_ctx +:+ nl
  +:+ "PARAMETER top_k " +:+ str_of_Z top_k +:+ nl
  +:+ "PARAMETER top_p " +:+ repr_float top_p +:+ nl
  +:+ "PARAMETER min_p " +:+ repr_float min_p +:+ nl.

(** The state after the "Copy Model" branch asked its seven questions,
    wrote the model file and ran the tool. *)
Definition copy_done (ev : env) (new_model_name content : string)
    (st : state) : state :=
  let config_file := new_model_name +:+ ".modelfile" in
  let asked := after_reads parameter_prompts (name_asked st) in
  let written := file_written config_file content asked in
  log_event
    (creation_report new_model_name
       (tool_fails ev (st_sys written)
          (create_command new_model_name config_file)))
    (tool_started new_model_name config_file written).
(** A session in which the user picks the model and leaves at once. *)
Definition leaving_session : env :=
  scripted ["1"; "5"]
    (Ok {| status_code := 200;
           json := Ok (PDict [("models", PList [example_model])]) |})
    silence.

Definition model_picked : state :=
  Eval vm_compute in
    snd (select_model 2 (PList [example_model]) leaving_session
           (snd (print_model_menu (PList [example_model]) leaving_session
                   (after_request initial_state)))).

(** A session in which the user copies the example model. *)
Definition copying_session : env :=
  scripted ["3"; "copy"; "0.7"; "2048"; "50"; "0.9"; "0.01"]
    (Raise connection_refused) silence.

(** *** Further vocabulary: sessions *)

(** The prompt does not end the session. *)
Definition goes_on (user_prompt : string) : bool :=
  negb (String.eqb (lower user_prompt) "exit").

(** From position [pos] the console holds the prompts [ps], and the model
    answers each of them, from chat call [c] on, without failure. *)
Fixpoint rounds_scripted (ev : env) (model_name : pyval) (pos c : nat)
    (ps : list string) : Prop :=
  match ps with
  | [] => True
  | p :: rest =>
      console ev pos = Line p
      /\ failure (chat ev c model_name p) = None
      /\ rounds_scripted ev model_name (S pos) (S c) rest
  end.

(** What the rounds for the prompts [ps] write to the log. *)
Fixpoint transcript (ev : env) (model_name : pyval) (c : nat)
    (ps : list string) : string :=
  match ps with
  | [] => ""
  | p :: rest =>
      round_text p (chunks (chat ev c model_name p))
      +:+ transcript ev model_name (S c) rest
  end.

(** Every prompt after which a further round is entered goes on: [prev]
    before the first of [ps], and each of [ps] but the last. *)
Fixpoint entered (prev : string) (ps : list string) : Prop :=
  match ps with
  | [] => True
  | p :: rest => goes_on prev = true /\ entered p rest
  end.


(** A console holding the given lines and a model that answers every
    prompt with the prompt and an exclamation mark. *)
Definition echoing (l : list string) : env :=
  {| console := typed l;
     http := fun _ => Raise connection_refused;
     chat := fun _ _ p => {| chunks := [p; "!"]; failure := None |};
     clock := fun _ => "20240101_120000";
     makedirs_fails := fun _ _ => None;
     open_fails := fun _ _ => None;
     tool_fails := fun _ _ => None;
     tabulate_fails := fun _ _ => None |}.

(** A session of two prompts and the sentinel. *)
Definition two_rounds : env := echoing ["hi"; "more"; "Exit"].


(** *** Further vocabulary: the details of a model *)

Definition details_heading (model_name : pyval) : event :=
  Out (("Details for model: " +:+ py_str model_name) +:+ nl).

(** The state in which [show_model_details] sends its request. *)
Definition details_asked (model_name : pyval) (st : state) : state :=
  log_event (details_heading model_name) st.

(** The model has a name, and it is not the one asked for. *)
Definition named_otherwise (model_name m : pyval) : Prop :=
  exists v, py_getitem_str m "name" = Ok v /\ py_eq v model_name = false.

(** The state after the given lines were printed. *)
Definition printed (lines : list string) (st : state) : state :=
  fold_left (fun s line => log_event (Out (line +:+ nl)) s) lines st.

(** The first four lines shown for a matching model. *)
Definition details_lines (v : pyval) (det : list (string * pyval))
  : list string :=
  ["Model Name: " +:+ py_str v;
   "Family: " +:+ py_str (entry_or_empty "family" det);
   "Parameter Size: " +:+ py_str (entry_or_empty "parameter_size" det);
   "Quantization Level: "
   +:+ py_str (entry_or_empty "quantization_level" det)].

(** A server whose catalog holds the example model and one more. *)
Definition two_model_server : env :=
  scripted []
    (Ok {| status_code := 200;
           json := Ok (PDict [("models",
                               PList [PDict [("name", PStr "bar");
                                             ("size", PInt 1)];
                                      example_model])]) |})
    silence.

(** A model of the catalog that has a name and nothing else. *)
Definition bare_model : pyval := PDict [("name", PStr "foo")].

(** The user asks for the details; the server lists the bare model. *)
Definition asking_details : env :=
  scripted ["2"]
    (Ok {| status_code := 200;
           json := Ok (PDict [("models", PList [bare_model])]) |})
    silence.

(** ** [format_model_details] *)

Lemma truediv_non_numeric v n :
  non_numeric v = true -> raises TypeError (py_truediv v (PInt n)).
Proof.
  destruct v; simpl; intros H; try discriminate; eexists; reflexivity.
Qed.

Lemma size_gb_unusable d :
  size_unusable d = true -> raises TypeError (size_gb (PDict d)).
Proof.
  unfold size_unusable, size_gb. simpl.
  destruct (dict_lookup "size" d) as [v|] eqn:E; intros H.
  - destruct (truediv_non_numeric v 1024 H) as [t Ht].
    unfold res_bind at 3. unfold res_bind at 2. unfold res_bind at 1.
    exists t. simpl. rewrite Ht. reflexivity.
  - eexists. reflexivity.
Qed.

(** Python counts a boolean among the integers: a boolean size divides. *)
Lemma size_gb_of_a_boolean :
  size_gb (PDict [("size", PBool true)]) = Ok (PFloat (S754_zero false)).
Proof. vm_compute. reflexivity. Qed.

(** C8, as the code has it.  A model dictionary whose "size" is absent or
    not a number makes the division of line 32 raise [TypeError], and
    [format_model_details] raises.  When the "details" entry is absent or
    a dictionary, the lines before the division pass and the exception is
    that [TypeError]: the [try] statement plays no part, it only guards
    the parameter size.  When the "details" entry is present and no
    dictionary, the [AttributeError] of line 27 comes first. *)
Theorem format_model_details_needs_numeric_size :
  forall d : list (string * pyval),
    size_unusable d = true ->
    raises TypeError (size_gb (PDict d))
    /\ (exists e, format_model_details (PDict d) = Raise e)
    /\ (details_usable d = true ->
        raises TypeError (format_model_details (PDict d)))
    /\ (details_usable d = false ->
        raises AttributeError (format_model_details (PDict d))).
Proof.
  intros d H.
  destruct (size_gb_unusable d H) as [t Ht].
  split; [exists t; exact Ht|].
  unfold format_model_details, details_usable.
  change (py_get (PDict d) "details" (PDict []))
    with (Ok (match dict_lookup "details" d with
              | Some w => w | None => PDict [] end)).
  destruct (dict_lookup "details" d) as [det|]; cbn [res_bind].
  - destruct det; cbn [py_get res_bind];
      try (split; [eexists; reflexivity
                  |split; [discriminate | intros _; eexists; reflexivity]]).
    rewrite Ht. cbn [res_bind].
    split; [eexists; reflexivity
           |split; [intros _; exists t; reflexivity | discriminate]].
  - rewrite Ht. cbn [res_bind].
    split; [eexists; reflexivity
           |split; [intros _; exists t; reflexivity | discriminate]].
Qed.

Lemma format_model_details_needs_numeric_size_witness :
  raises TypeError (size_gb (PDict [("name", PStr "foo")]))
  /\ (exists e, format_model_details (PDict [("name", PStr "foo")]) = Raise e)
  /\ (details_usable [("name", PStr "foo")] = true ->
      raises TypeError (format_model_details (PDict [("name", PStr "foo")])))
  /\ (details_usable [("name", PStr "foo")] = false ->
      raises AttributeError
        (format_model_details (PDict [("name", PStr "foo")]))).
Proof.
  apply (format_model_details_needs_numeric_size [("name", PStr "foo")]).
  reflexivity.
Defined.

(** C8 as stated fails on a model whose "details" entry is [None] (a JSON
    null): the "size" is absent, yet the exception is the
    [AttributeError] of [details.get], raised before the division is
    reached, and no [TypeError]. *)
Lemma format_model_details_needs_numeric_size_counterexample :
  size_unusable [("details", PNone)] = true
  /\ raises AttributeError (format_model_details (PDict [("details", PNone)]))
  /\ ~ raises TypeError (format_model_details (PDict [("details", PNone)])).
Proof.
  split; [reflexivity|]. split.
  - eexists. vm_compute. reflexivity.
  - intros [text H]. vm_compute in H. discriminate H.
Qed.

Lemma format_model_details_unfold d s size :
  raw_parameter_size d = Some (PStr s) ->
  size_gb (PDict d) = Ok size ->
  format_model_details (PDict d) =
  (let? display := param_size_display (PStr s) in
   Ok (PDict [("Name", match dict_lookup "name" d with
                       | Some w => w | None => PStr "" end);
              ("Family",
               match dict_lookup "details" d with
               | Some (PDict det) =>
                   match dict_lookup "family" det with
                   | Some w => w | None => PStr "" end
               | _ => PStr ""
               end);
              ("Parameter Size", display);
              ("Quantization Level",
               match dict_lookup "details" d with
               | Some (PDict det) =>
                   match dict_lookup "quantization_level" det with
                   | Some w => w | None => PStr "" end
               | _ => PStr ""
               end);
              ("Size", PStr (py_str size +:+ " GB"))]))%res.
Proof.
  unfold raw_parameter_size, format_model_details. intros Hp Hs.
  rewrite Hs. cbn [py_get res_bind].
  destruct (dict_lookup "details" d) as [det|].
  - destruct det; try discriminate. cbn [py_get res_bind].
    injection Hp as Hp. rewrite Hp. reflexivity.
  - cbn [py_get res_bind dict_lookup]. injection Hp as Hp. rewrite <- Hp.
    reflexivity.
Qed.

Lemma param_size_display_numeric s n g :
  int_of_string s = Some n ->
  int_truediv n (1024 ^ 3) = Ok g ->
  param_size_display (PStr s) = Ok (PStr (format_2f g +:+ " GB")).
Proof.
  intros Hn Hg. unfold param_size_display, bytes_to_gb.
  cbn [py_int]. rewrite Hn. cbn [res_bind py_truediv as_int].
  rewrite Hg. reflexivity.
Qed.

Lemma param_size_display_text s :
  int_of_string s = None -> param_size_display (PStr s) = Ok (PStr s).
Proof.
  intros Hn. unfold param_size_display. cbn [py_int]. rewrite Hn.
  reflexivity.
Qed.

Lemma float_by_1024 x :
  exists y, py_truediv (PFloat x) (PInt 1024) = Ok (PFloat y).
Proof.
  cbn [py_truediv as_int].
  change (to_float 1024) with (Ok (S754_finite false 4503599627370496 (-42))).
  cbn [res_bind]. eexists. reflexivity.
Qed.

(** A size the divisions accept has a size in gigabytes. *)
Lemma size_divides_gb d :
  size_divides d -> exists size, size_gb (PDict d) = Ok size.
Proof.
  unfold size_divides, size_gb. cbn [py_get res_bind].
  destruct (dict_lookup "size" d) as [v|]; [|intros []].
  assert (Hrest : forall a,
             exists size,
               (let? b := py_truediv (PFloat a) (PInt 1024) in
                let? c := py_truediv b (PInt 1024) in
                py_round_2 c)%res = Ok size).
  { intros a. destruct (float_by_1024 a) as [b ->]. cbn [res_bind].
    destruct (float_by_1024 b) as [c ->]. cbn [res_bind py_round_2].
    eexists. reflexivity. }
  destruct v as [|b|n|x|t|l|e]; intros H; try (exfalso; exact H).
  - cbn [py_truediv as_int].
    assert (Hb : exists q, int_truediv (if b then 1 else 0) 1024 = Ok q)
      by (destruct b; eexists; vm_compute; reflexivity).
    destruct Hb as [q ->]. cbn [res_bind]. apply Hrest.
  - destruct H as [q Hq]. cbn [py_truediv as_int]. rewrite Hq.
    cbn [res_bind]. apply Hrest.
  - destruct (float_by_1024 x) as [a ->]. cbn [res_bind]. apply Hrest.
Qed.

(** C6, as the code has it.  For a model dictionary whose "details" entry
    is absent or a dictionary, whose parameter size is text and whose
    "size" is a float, a boolean or an integer whose quotient by 1024 is
    within the range of floats: text that [int] reads as [n], with
    [n / 1024^3] inside the range of floats, is shown as that quotient
    with two decimals and " GB"; text that [int] rejects is shown
    unchanged; the size is shown as the rounded quotient.  The example
    model yields "6.52 GB" and "4.0 GB". *)
Theorem format_model_details_parameter_size :
  (forall (d : list (string * pyval)) (s : string),
      raw_parameter_size d = Some (PStr s) ->
      size_divides d ->
      exists size : pyval,
        size_gb (PDict d) = Ok size
        /\ (forall n g,
               int_of_string s = Some n ->
               int_truediv n (1024 ^ 3) = Ok g ->
               field "Parameter Size" (format_model_details (PDict d))
               = Some (PStr (format_2f g +:+ " GB")))
        /\ (int_of_string s = None ->
            field "Parameter Size" (format_model_details (PDict d))
            = Some (PStr s))
        /\ ((exists n g, int_of_string s = Some n
                         /\ int_truediv n (1024 ^ 3) = Ok g)
            \/ int_of_string s = None ->
            field "Size" (format_model_details (PDict d))
            = Some (PStr (py_str size +:+ " GB"))))
  /\ field "Parameter Size" (format_model_details example_model)
     = Some (PStr "6.52 GB")
  /\ field "Size" (format_model_details example_model)
     = Some (PStr "4.0 GB").
Proof.
  split; [|split; vm_compute; reflexivity].
  intros d s Hp Hd.
  destruct (size_divides_gb d Hd) as [size Hs]. exists size.
  split; [exact Hs|].
  rewrite (format_model_details_unfold d s size Hp Hs).
  split; [|split].
  - intros n g Hn Hg. rewrite (param_size_display_numeric s n g Hn Hg).
    reflexivity.
  - intros Hn. rewrite (param_size_display_text s Hn). reflexivity.
  - intros [(n & g & Hn & Hg)|Hn].
    + rewrite (param_size_display_numeric s n g Hn Hg). reflexivity.
    + rewrite (param_size_display_text s Hn). reflexivity.
Qed.

Lemma format_model_details_parameter_size_witness :
  field "Parameter Size"
    (format_model_details
       (PDict [("details", PDict [("parameter_size", PStr "1073741824")]);
               ("size", PInt 2147483648)]))
  = Some (PStr "1.00 GB")
  /\ field "Parameter Size"
       (format_model_details
          (PDict [("details", PDict [("parameter_size", PStr "7B")]);
                  ("size", PInt 2147483648)]))
     = Some (PStr "7B").
Proof.
  split.
  - destruct (proj1 format_model_details_parameter_size
                [("details", PDict [("parameter_size", PStr "1073741824")]);
                 ("size", PInt 2147483648)]
                "1073741824" eq_refl
                (ex_intro _ (S754_finite false 4503599627370496 (-31)) eq_refl))
      as (size & _ & Hnum & _ & _).
    apply (Hnum 1073741824 (float_of_Z 1)); vm_compute; reflexivity.
  - destruct (proj1 format_model_details_parameter_size
                [("details", PDict [("parameter_size", PStr "7B")]);
                 ("size", PInt 2147483648)]
                "7B" eq_refl
                (ex_intro _ (S754_finite false 4503599627370496 (-31)) eq_refl))
      as (size & _ & _ & Htext & _).
    apply Htext. vm_compute. reflexivity.
Defined.

(** C6 as stated fails on a parameter size of 401 digits: it is numeric
    text, yet the quotient is beyond the floats and the [OverflowError] of
    the division is not among the exceptions the [try] statement
    catches. *)
Lemma format_model_details_parameter_size_counterexample :
  int_of_string huge_count = Some (10 ^ 400)
  /\ raises OverflowError
       (format_model_details
          (PDict [("details", PDict [("family", PStr "llama");
                                     ("parameter_size", PStr huge_count);
                                     ("quantization_level", PStr "Q4")]);
                  ("size", PInt 4294967296);
                  ("name", PStr "foo")])).
Proof.
  split; [vm_compute; reflexivity|].
  eexists; vm_compute; reflexivity.
Qed.

(** ** [write_to_model_file] *)

Lemma append_nil_r (s : string) : s +:+ "" = s.
Proof.
  induction s as [|c s IH]; [reflexivity|].
  change (String c (s +:+ "") = String c s). now rewrite IH.
Qed.

Lemma append_assoc (a b c : string) : (a +:+ b) +:+ c = a +:+ (b +:+ c).
Proof.
  induction a as [|x a IH]; [reflexivity|].
  change (String x ((a +:+ b) +:+ c) = String x (a +:+ (b +:+ c))).
  now rewrite IH.
Qed.

Lemma set_fs_same st : set_fs (st_fs st) st = st.
Proof. destruct st; reflexivity. Qed.

Lemma file_write_open ev st path f text :
  st_fs st !! path = Some f ->
  f_open f = true ->
  file_write path text ev st
  = (Ret tt,
     set_fs (<[path := {| f_data := f_data f; f_buf := f_buf f +:+ text;
                          f_open := true |}]> (st_fs st)) st).
Proof.
  intros Hf Ho. unfold file_write, update_file. rewrite Hf, Ho. reflexivity.
Qed.

Lemma file_flush_open ev st path f :
  st_fs st !! path = Some f ->
  f_open f = true ->
  file_flush path ev st
  = (Ret tt,
     set_fs (<[path := {| f_data := f_data f +:+ f_buf f; f_buf := "";
                          f_open := true |}]> (st_fs st)) st).
Proof.
  intros Hf Ho. unfold file_flush, update_file. rewrite Hf, Ho. reflexivity.
Qed.

Lemma file_close_open ev st path f :
  st_fs st !! path = Some f ->
  f_open f = true ->
  file_close path ev st
  = (Ret tt,
     set_fs (<[path := closed_file (f_data f +:+ f_buf f)]> (st_fs st)) st).
Proof.
  intros Hf Ho. unfold file_close, update_file. rewrite Hf, Ho. reflexivity.
Qed.

Lemma py_format_text v : has_text v = true -> py_format v = Ok (py_str v).
Proof. intros H. unfold py_format. now rewrite H. Qed.

Lemma py_format_no_text v :
  has_text v = false -> py_format v = Raise digit_limit_error.
Proof. intros H. unfold py_format. now rewrite H. Qed.

Lemma parameter_line_text kv :
  has_text (snd kv) = true ->
  parameter_line kv
  = Ok ("PARAMETER " +:+ fst kv +:+ " " +:+ py_str (snd kv) +:+ nl).
Proof.
  intros H. unfold parameter_line. now rewrite (py_format_text _ H).
Qed.

(** The loop of [write_to_model_file] on entries that all have a text,
    followed by [rest]. *)
Lemma write_parameter_lines ev path items rest :
  forall st f,
    values_have_text items ->
    st_fs st !! path = Some f ->
    f_open f = true ->
    for_each (items ++ rest)
      (fun kv => let! line := lift (parameter_line kv) in
                 file_write path line)%py ev st
    = for_each rest
        (fun kv => let! line := lift (parameter_line kv) in
                   file_write path line)%py ev
        (set_fs (<[path := {| f_data := f_data f;
                              f_buf := f_buf f
                                       +:+ concat_strings
                                             (List.map
                                                (fun entry =>
                                                   "PARAMETER " +:+ fst entry
                                                   +:+ " "
                                                   +:+ py_str (snd entry)
                                                   +:+ nl) items);
                              f_open := true |}]> (st_fs st)) st).
Proof.
  induction items as [|kv items IH]; intros st f Hall Hf Ho.
  - cbn [app List.map concat_strings]. rewrite append_nil_r.
    replace {| f_data := f_data f; f_buf := f_buf f; f_open := true |} with f
      by (destruct f; simpl in *; congruence).
    rewrite insert_id by exact Hf. now rewrite set_fs_same.
  - inversion Hall as [|? ? Hkv Hitems]; subst.
    cbn [app for_each]. unfold bind at 1.
    rewrite (parameter_line_text kv Hkv). cbn [lift]. unfold bind at 1.
    unfold ret at 1.
    rewrite (file_write_open ev st path f _ Hf Ho).
    rewrite (IH _ {| f_data := f_data f;
                     f_buf := f_buf f
                              +:+ ("PARAMETER " +:+ fst kv +:+ " "
                                   +:+ py_str (snd kv) +:+ nl);
                     f_open := true |} Hitems);
      [|cbn; apply lookup_insert_eq | reflexivity].
    cbn [f_data f_buf List.map concat_strings].
    unfold set_fs at 1 2. cbn [st_in st_http st_chat st_sys st_trace st_fs].
    rewrite insert_insert_eq, append_assoc. reflexivity.
Qed.

(** [write_to_model_file] up to its loop: the file is opened, the
    declaration line is written, and the file is closed after whatever
    the rest of the body does. *)
Lemma write_to_model_file_opens ev st model_name base parameters :
  has_text model_name = true ->
  open_fails ev (st_sys st) (py_str model_name) = None ->
  has_text base = true ->
  write_to_model_file model_name base parameters ev st
  = finally
      (let! items := lift (py_items parameters) in
       for_each items
         (fun kv => let! line := lift (parameter_line kv) in
                    file_write (py_str model_name) line))%py
      (file_close (py_str model_name)) ev
      (set_fs (<[py_str model_name :=
                   {| f_data := "";
                      f_buf := "FROM " +:+ py_str base +:+ nl;
                      f_open := true |}]> (st_fs st)) (tick st)).
Proof.
  intros Hn Hopen Hb. unfold write_to_model_file.
  rewrite (py_format_text model_name Hn). cbn [lift].
  set (name := py_str model_name) in *.
  unfold bind at 1. unfold ret at 1. unfold with_open.
  unfold bind at 1. unfold open_w at 1, sys_call. rewrite Hopen.
  unfold finally. rewrite (py_format_text base Hb). cbn [lift].
  unfold bind at 1. unfold ret at 1. unfold bind at 1.
  rewrite (file_write_open ev _ name {| f_data := ""; f_buf := ""; f_open := true |});
    [|cbn; apply lookup_insert_eq | reflexivity].
  cbn [f_data f_buf String.append].
  unfold set_fs at 2 3. cbn [st_in st_http st_chat st_sys st_trace st_fs].
  rewrite insert_insert_eq. reflexivity.
Qed.

(** The file [write_to_model_file] leaves when every conversion
    succeeds. *)
Lemma write_to_model_file_writes ev st model_name base items :
  has_text model_name = true ->
  open_fails ev (st_sys st) (py_str model_name) = None ->
  has_text base = true ->
  values_have_text items ->
  write_to_model_file model_name base (PDict items) ev st
  = (Ret tt,
     file_written (py_str model_name)
       (model_file_text base items) st).
Proof.
  intros Hn Hopen Hb Hall.
  rewrite (write_to_model_file_opens ev st model_name base _ Hn Hopen Hb).
  set (name := py_str model_name) in *.
  unfold finally. cbn [py_items lift]. unfold bind at 1. unfold ret at 1.
  rewrite <- (app_nil_r items) at 1.
  rewrite (write_parameter_lines ev name items [] _
             {| f_data := ""; f_buf := "FROM " +:+ py_str base +:+ nl;
                f_open := true |} Hall);
    [|cbn; apply lookup_insert_eq | reflexivity].
  cbn [for_each]. unfold ret at 1.
  rewrite (file_close_open ev _ name
             {| f_data := "";
                f_buf := ("FROM " +:+ py_str base +:+ nl)
                         +:+ concat_strings
                               (List.map
                                  (fun entry =>
                                     "PARAMETER " +:+ fst entry +:+ " "
                                     +:+ py_str (snd entry) +:+ nl) items);
                f_open := true |});
    [|cbn; apply lookup_insert_eq | reflexivity].
  unfold file_written, set_fs, tick.
  cbn [st_in st_http st_chat st_sys st_trace st_fs f_data f_buf].
  rewrite !insert_insert_eq. unfold model_file_text.
  cbn [String.append]. rewrite !append_assoc. reflexivity.
Qed.

(** The first value without a text ends the writing: the lines before
    it are in the file. *)
Lemma write_to_model_file_stops ev st model_name base before k v after :
  has_text model_name = true ->
  open_fails ev (st_sys st) (py_str model_name) = None ->
  has_text base = true ->
  values_have_text before ->
  has_text v = false ->
  write_to_model_file model_name base (PDict (before ++ (k, v) :: after)) ev st
  = (Exc digit_limit_error,
     file_written (py_str model_name)
       (model_file_text base before) st).
Proof.
  intros Hn Hopen Hb Hall Hv.
  rewrite (write_to_model_file_opens ev st model_name base _ Hn Hopen Hb).
  set (name := py_str model_name) in *.
  unfold finally. cbn [py_items lift]. unfold bind at 1. unfold ret at 1.
  rewrite (write_parameter_lines ev name before ((k, v) :: after) _
             {| f_data := ""; f_buf := "FROM " +:+ py_str base +:+ nl;
                f_open := true |} Hall);
    [|cbn; apply lookup_insert_eq | reflexivity].
  cbn [for_each]. unfold bind at 1. unfold bind at 1.
  unfold parameter_line. cbn [snd].
  rewrite (py_format_no_text v Hv). cbn [res_bind lift]. unfold raise at 1.
  rewrite (file_close_open ev _ name
             {| f_data := "";
                f_buf := ("FROM " +:+ py_str base +:+ nl)
                         +:+ concat_strings
                               (List.map
                                  (fun entry =>
                                     "PARAMETER " +:+ fst entry +:+ " "
                                     +:+ py_str (snd entry) +:+ nl) before);
                f_open := true |});
    [|cbn; apply lookup_insert_eq | reflexivity].
  unfold file_written, set_fs, tick.
  cbn [st_in st_http st_chat st_sys st_trace st_fs f_data f_buf].
  rewrite !insert_insert_eq. unfold model_file_text.
  cbn [String.append]. rewrite !append_assoc. reflexivity.
Qed.

(** C4, as the code has it.  When [str] renders the name, the base model
    and every value of the mapping, and the file can be opened,
    [write_to_model_file] leaves at the given path a closed file holding
    the line "FROM <base>" followed by one line "PARAMETER <key> <value>"
    for each entry, in the order of the mapping, and nothing else; for the
    name "bar", the base "llama2" and the parameters temperature 0.7 and
    num_ctx 2048 the content is the three lines of the specification.  At
    the first value [str] does not render, an integer of more than 4300
    digits, it raises [ValueError] instead and the file is left with the
    lines of the entries before. *)
Theorem write_to_model_file_content :
  (forall (ev : env) (st : state) (model_name base : pyval)
          (items : list (string * pyval)),
      has_text model_name = true ->
      open_fails ev (st_sys st) (py_str model_name) = None ->
      has_text base = true ->
      values_have_text items ->
      write_to_model_file model_name base (PDict items) ev st
      = (Ret tt,
         file_written (py_str model_name)
           (model_file_text base items) st))
  /\ write_to_model_file (PStr "bar") (PStr "llama2")
       (PDict [("temperature", PFloat (float_literal "0.7"));
               ("num_ctx", PInt 2048)]) quiet_env initial_state
     = (Ret tt,
        file_written "bar"
          ("FROM llama2" +:+ nl +:+ "PARAMETER temperature 0.7" +:+ nl
           +:+ "PARAMETER num_ctx 2048" +:+ nl) initial_state)
  /\ (forall (ev : env) (st : state) (model_name base : pyval)
             (before : list (string * pyval)) (key : string) (value : pyval)
             (after : list (string * pyval)),
         has_text model_name = true ->
         open_fails ev (st_sys st) (py_str model_name) = None ->
         has_text base = true ->
         values_have_text before ->
         has_text value = false ->
         write_to_model_file model_name base
           (PDict (before ++ (key, value) :: after)) ev st
         = (Exc digit_limit_error,
            file_written (py_str model_name)
              (model_file_text base before) st)).
Proof.
  split; [|split].
  - intros ev st model_name base items Hn Hopen Hb Hall.
    now apply write_to_model_file_writes.
  - rewrite (write_to_model_file_writes quiet_env initial_state (PStr "bar")
               (PStr "llama2")
               [("temperature", PFloat (float_literal "0.7"));
                ("num_ctx", PInt 2048)]);
      [|reflexivity | reflexivity | reflexivity | repeat constructor].
    vm_compute. reflexivity.
  - intros ev st model_name base before key value after Hn Hopen Hb Hall Hv.
    now apply write_to_model_file_stops.
Qed.

Lemma write_to_model_file_content_witness :
  write_to_model_file (PStr "copy.modelfile") (PStr "foo")
    (PDict [("temperature", PFloat (float_literal "0.7"));
            ("num_ctx", PInt 2048);
            ("top_k", PInt 50);
            ("top_p", PFloat (float_literal "0.9"));
            ("min_p", PFloat (float_literal "0.01"))]) quiet_env initial_state
  = (Ret tt,
     file_written "copy.modelfile"
       ("FROM foo" +:+ nl
        +:+ "PARAMETER temperature 0.7" +:+ nl
        +:+ "PARAMETER num_ctx 2048" +:+ nl
        +:+ "PARAMETER top_k 50" +:+ nl
        +:+ "PARAMETER top_p 0.9" +:+ nl
        +:+ "PARAMETER min_p 0.01" +:+ nl) initial_state).
Proof.
  apply (proj1 write_to_model_file_content quiet_env initial_state
           (PStr "copy.modelfile") (PStr "foo")
           [("temperature", PFloat (float_literal "0.7"));
            ("num_ctx", PInt 2048);
            ("top_k", PInt 50);
            ("top_p", PFloat (float_literal "0.9"));
            ("min_p", PFloat (float_literal "0.01"))]).
  - reflexivity.
  - reflexivity.
  - reflexivity.
  - repeat constructor.
Defined.

(** C4 as stated fails on a mapping that holds an integer of 4301 digits:
    the f-string of its entry raises [ValueError], no PARAMETER line is
    written for it, and the file holds the declaration line alone. *)
Lemma write_to_model_file_content_counterexample :
  write_to_model_file (PStr "bar") (PStr "llama2")
    (PDict [("num_ctx", PInt (10 ^ 4300))]) quiet_env initial_state
  = (Exc digit_limit_error,
     file_written "bar" ("FROM llama2" +:+ nl) initial_state).
Proof. vm_compute. reflexivity. Qed.

(** ** [get_installed_models] *)

Lemma get_installed_models_ok ev st body models :
  http ev (st_http st) = Ok {| status_code := 200; json := Ok body |} ->
  py_get body "models" (PList []) = Ok models ->
  get_installed_models ev st = (Ret models, after_request st).
Proof.
  intros Hh Hg. unfold get_installed_models, requests_get, bind, emit.
  cbn [st_http log_event]. rewrite Hh. cbn [status_code json lift ret].
  rewrite Hg. reflexivity.
Qed.

Lemma get_installed_models_status ev st r :
  http ev (st_http st) = Ok r ->
  status_code r <> 200 ->
  get_installed_models ev st
  = (Ret (PList []),
     log_event (Out ("Failed to retrieve models: "
                     +:+ str_of_Z (status_code r) +:+ nl))
       (after_request st)).
Proof.
  intros Hh Hs. unfold get_installed_models, requests_get, bind, emit.
  cbn [st_http log_event]. rewrite Hh.
  destruct (Z.eqb_spec (status_code r) 200) as [E|_]; [contradiction|].
  reflexivity.
Qed.

Lemma get_installed_models_transport ev st e :
  http ev (st_http st) = Raise e ->
  get_installed_models ev st = (Exc e, after_request st).
Proof.
  intros Hh. unfold get_installed_models, requests_get, bind, emit.
  cbn [st_http log_event]. rewrite Hh. reflexivity.
Qed.

Lemma main_fetch_raises fuel ev st e st' :
  get_installed_models ev st = (Exc e, st') ->
  main (S fuel) ev st = (Exc e, st').
Proof.
  intros H. unfold main. cbn [main_loop py_eq as_int].
  change (negb (0 =? -1)) with true. cbv iota.
  unfold bind at 1. rewrite H. reflexivity.
Qed.

(** C10.  On a response with status 200 whose body is an object without
    the key "models", [get_installed_models] returns the empty list,
    raises nothing and prints nothing; the outcome and the state are those
    of a response whose body binds "models" to the empty list. *)
Theorem get_installed_models_missing_key :
  forall (ev : env) (st : state) (d : list (string * pyval)),
    http ev (st_http st) = Ok {| status_code := 200; json := Ok (PDict d) |} ->
    dict_lookup "models" d = None ->
    get_installed_models ev st = (Ret (PList []), after_request st)
    /\ forall (ev' : env) (d' : list (string * pyval)),
        http ev' (st_http st)
        = Ok {| status_code := 200; json := Ok (PDict d') |} ->
        dict_lookup "models" d' = Some (PList []) ->
        get_installed_models ev' st = get_installed_models ev st.
Proof.
  intros ev st d Hh Hd.
  assert (H1 : get_installed_models ev st = (Ret (PList []), after_request st)).
  { apply (get_installed_models_ok ev st (PDict d)); [exact Hh|].
    cbn [py_get]. now rewrite Hd. }
  split; [exact H1|].
  intros ev' d' Hh' Hd'. rewrite H1.
  apply (get_installed_models_ok ev' st (PDict d')); [exact Hh'|].
  cbn [py_get]. now rewrite Hd'.
Qed.

Lemma get_installed_models_missing_key_witness :
  get_installed_models
    (server_env (Ok {| status_code := 200;
                       json := Ok (PDict [("version", PStr "0.1")]) |}))
    initial_state
  = (Ret (PList []), after_request initial_state).
Proof.
  apply (get_installed_models_missing_key
           (server_env (Ok {| status_code := 200;
                              json := Ok (PDict [("version", PStr "0.1")]) |}))
           initial_state [("version", PStr "0.1")]);
    reflexivity.
Defined.

(** C2, as the code has it.  A response whose status is not 200 makes
    [get_installed_models] print "Failed to retrieve models: <status>" and
    return the empty list.  A transport failure is the exception
    [requests.get] raises: nothing is printed, [get_installed_models]
    raises it to its caller, and [main], which has no handler, ends with
    it. *)
Theorem get_installed_models_failures :
  forall (ev : env) (st : state),
    (forall r : http_response,
        http ev (st_http st) = Ok r ->
        status_code r <> 200 ->
        get_installed_models ev st
        = (Ret (PList []),
           log_event (Out ("Failed to retrieve models: "
                           +:+ str_of_Z (status_code r) +:+ nl))
             (after_request st)))
    /\ (forall e : exn,
           http ev (st_http st) = Raise e ->
           get_installed_models ev st = (Exc e, after_request st)
           /\ forall fuel, main (S fuel) ev st = (Exc e, after_request st)).
Proof.
  intros ev st. split.
  - intros r Hh Hs. now apply get_installed_models_status.
  - intros e Hh.
    pose proof (get_installed_models_transport ev st e Hh) as H.
    split; [exact H|]. intros fuel. now apply main_fetch_raises.
Qed.

Lemma get_installed_models_failures_witness :
  get_installed_models
    (server_env (Ok {| status_code := 503; json := Ok PNone |})) initial_state
  = (Ret (PList []),
     log_event (Out ("Failed to retrieve models: 503" +:+ nl))
       (after_request initial_state))
  /\ get_installed_models (server_env (Raise connection_refused)) initial_state
     = (Exc connection_refused, after_request initial_state).
Proof.
  split.
  - apply (proj1 (get_installed_models_failures
                    (server_env (Ok {| status_code := 503; json := Ok PNone |}))
                    initial_state)
             {| status_code := 503; json := Ok PNone |});
      [reflexivity | discriminate].
  - apply (proj2 (get_installed_models_failures
                    (server_env (Raise connection_refused)) initial_state)
             connection_refused).
    reflexivity.
Defined.

(** C2 as stated fails when the endpoint is unreachable: the fetch raises,
    no message is printed, no empty result is returned, and the program
    started from [main] ends with the exception. *)
Lemma get_installed_models_unreachable_counterexample :
  get_installed_models (server_env (Raise connection_refused)) initial_state
  = (Exc connection_refused,
     {| st_in := 0; st_http := 1; st_chat := 0; st_sys := 0;
        st_trace := [HttpGet "http://localhost:11434/api/tags/"];
        st_fs := ∅ |})
  /\ fst (main 5 (server_env (Raise connection_refused)) initial_state)
     = Exc connection_refused.
Proof. split; vm_compute; reflexivity. Qed.

(** Unfolds the plumbing of the effects, leaving the states folded. *)
Ltac run_effects :=
  cbv beta iota delta
    [bind catch ret raise lift out_of_fuel emit print print_raw input
     read_console].

(** ** [select_model] *)

Lemma select_model_round_line ev st ms text :
  console ev (st_in st) = Line text ->
  select_model_round (PList ms) ev st
  = if in_range ms text then
      match int_of_string text with
      | Some n =>
          match ms !! Z.to_nat (n - 1) with
          | Some m => (Ret (Some m), after_prompt st)
          | None => (Exc (Exn (OtherError "IndexError")
                            "list index out of range"), after_prompt st)
          end
      | None => (Ret None, after_rejection text st)
      end
    else (Ret None, after_rejection text st).
Proof.
  intros Hc.
  unfold select_model_round, in_range, after_rejection, rejection, after_prompt.
  run_effects. cbn [st_in log_event]. rewrite Hc. cbn [py_int].
  destruct (int_of_string text) as [n|]; [|reflexivity].
  destruct (1 <=? n); cbn [andb py_len]; [|reflexivity].
  destruct (n <=? Z.of_nat (length ms)); [|reflexivity].
  cbn [py_getitem_int]. destruct (ms !! Z.to_nat (n - 1)); reflexivity.
Qed.

Lemma select_model_round_no_line ev st ms :
  (forall t, console ev (st_in st) <> Line t) ->
  exists e, select_model_round (PList ms) ev st = (Exc e, after_prompt st).
Proof.
  intros Hc.
  unfold select_model_round, after_prompt. run_effects.
  cbn [st_in log_event].
  destruct (console ev (st_in st)) as [t| |];
    [exfalso; now apply (Hc t) | |]; eexists; reflexivity.
Qed.

Lemma in_range_lookup ms text :
  in_range ms text = true ->
  exists n m, int_of_string text = Some n
              /\ 1 <= n <= Z.of_nat (length ms)
              /\ ms !! Z.to_nat (n - 1) = Some m.
Proof.
  unfold in_range. destruct (int_of_string text) as [n|]; [|discriminate].
  intros H. apply andb_true_iff in H as [H1 H2].
  apply Z.leb_le in H1, H2.
  destruct (lookup_lt_is_Some_2 ms (Z.to_nat (n - 1))) as [m Hm]; [lia|].
  exists n, m. auto.
Qed.

Lemma select_model_accepts fuel ev st ms text :
  console ev (st_in st) = Line text ->
  in_range ms text = true ->
  exists n m, int_of_string text = Some n
              /\ ms !! Z.to_nat (n - 1) = Some m
              /\ select_model (S fuel) (PList ms) ev st = (Ret m, after_prompt st).
Proof.
  intros Hc Hr. destruct (in_range_lookup ms text Hr) as (n & m & Hn & _ & Hm).
  exists n, m. split; [exact Hn|]. split; [exact Hm|].
  cbn [select_model]. unfold bind.
  rewrite (select_model_round_line ev st ms text Hc), Hr, Hn, Hm. reflexivity.
Qed.

Lemma select_model_rejects fuel ev st ms text :
  console ev (st_in st) = Line text ->
  in_range ms text = false ->
  select_model (S fuel) (PList ms) ev st
  = select_model fuel (PList ms) ev (after_rejection text st).
Proof.
  intros Hc Hr. cbn [select_model]. unfold bind.
  rewrite (select_model_round_line ev st ms text Hc), Hr. reflexivity.
Qed.

Lemma select_model_result_in_list fuel ms :
  forall ev st m st',
    select_model fuel (PList ms) ev st = (Ret m, st') -> m ∈ ms.
Proof.
  induction fuel as [|fuel IH]; intros ev st m st' H; [discriminate|].
  destruct (console ev (st_in st)) as [text| |] eqn:Hc.
  - destruct (in_range ms text) eqn:Hr.
    + destruct (select_model_accepts fuel ev st ms text Hc Hr)
        as (n & m' & _ & Hm & Hs).
      rewrite Hs in H. injection H as <- _.
      apply list_elem_of_lookup. eauto.
    + rewrite (select_model_rejects fuel ev st ms text Hc Hr) in H. eauto.
  - destruct (select_model_round_no_line ev st ms) as [e He].
    { intros t. rewrite Hc. discriminate. }
    cbn [select_model] in H. unfold bind in H. rewrite He in H. discriminate.
  - destruct (select_model_round_no_line ev st ms) as [e He].
    { intros t. rewrite Hc. discriminate. }
    cbn [select_model] in H. unfold bind in H. rewrite He in H. discriminate.
Qed.

Lemma select_model_eventually ms ev text k :
  forall st,
    lines_until ev (st_in st) k ->
    console ev (st_in st + k) = Line text ->
    in_range ms text = true ->
    exists m st',
      m ∈ ms /\ forall fuel,
        select_model (S k + fuel) (PList ms) ev st = (Ret m, st').
Proof.
  induction k as [|k IH]; intros st Hl Hc Hr.
  - rewrite Nat.add_0_r in Hc.
    destruct (in_range_lookup ms text Hr) as (n & m & Hn & _ & Hm).
    exists m, (after_prompt st). split; [apply list_elem_of_lookup; eauto|].
    intros fuel. cbn [Nat.add].
    destruct (select_model_accepts fuel ev st ms text Hc Hr)
      as (n' & m' & Hn' & Hm' & Hs).
    rewrite Hs. congruence.
  - destruct (Hl 0%nat) as [t Ht]; [lia|]. rewrite Nat.add_0_r in Ht.
    destruct (in_range ms t) eqn:Hrt.
    + destruct (in_range_lookup ms t Hrt) as (n & m & Hn & _ & Hm).
      exists m, (after_prompt st). split; [apply list_elem_of_lookup; eauto|].
      intros fuel. cbn [Nat.add].
      destruct (select_model_accepts (S (k + fuel)) ev st ms t Ht Hrt)
        as (n' & m' & Hn' & Hm' & Hs).
      rewrite Hs. congruence.
    + destruct (IH (after_rejection t st)) as (m & st' & Hin & Hs).
      * intros j Hj. destruct (Hl (S j)) as [u Hu]; [lia|].
        exists u. cbn [after_rejection after_prompt log_event next_input st_in].
        rewrite <- Hu. f_equal. lia.
      * cbn [after_rejection after_prompt log_event next_input st_in].
        rewrite <- Hc. f_equal. lia.
      * exact Hr.
      * exists m, st'. split; [exact Hin|]. intros fuel.
        change (S (S k) + fuel)%nat with (S (S k + fuel)).
        rewrite (select_model_rejects (S k + fuel) ev st ms t Ht Hrt).
        apply Hs.
Qed.

Lemma select_model_retries ms ev text k :
  forall st,
    rejected_lines ev ms (st_in st) k ->
    console ev (st_in st + k) = Line text ->
    in_range ms text = true ->
    exists n m st',
      int_of_string text = Some n
      /\ ms !! Z.to_nat (n - 1) = Some m
      /\ st_in st' = (st_in st + k + 1)%nat
      /\ st_fs st' = st_fs st
      /\ forall fuel,
          select_model (S k + fuel) (PList ms) ev st = (Ret m, st').
Proof.
  induction k as [|k IH]; intros st Hl Hc Hr.
  - rewrite Nat.add_0_r in Hc.
    destruct (select_model_accepts 0 ev st ms text Hc Hr)
      as (n & m & Hn & Hm & _).
    exists n, m, (after_prompt st). repeat split; try assumption.
    + cbn. lia.
    + intros fuel. cbn [Nat.add].
      destruct (select_model_accepts fuel ev st ms text Hc Hr)
        as (n' & m' & Hn' & Hm' & Hs).
      rewrite Hs. congruence.
  - destruct (Hl 0%nat) as (t & Ht & Hrt); [lia|]. rewrite Nat.add_0_r in Ht.
    destruct (IH (after_rejection t st)) as (n & m & st' & Hn & Hm & Hi & Hf & Hs).
    + intros j Hj. destruct (Hl (S j)) as (u & Hu & Hru); [lia|].
      exists u. split; [|exact Hru].
      cbn [after_rejection after_prompt log_event next_input st_in].
      rewrite <- Hu. f_equal. lia.
    + cbn [after_rejection after_prompt log_event next_input st_in].
      rewrite <- Hc. f_equal. lia.
    + exact Hr.
    + exists n, m, st'. repeat split; try assumption.
      * rewrite Hi. cbn. lia.
      * intros fuel. change (S (S k) + fuel)%nat with (S (S k + fuel)).
        rewrite (select_model_rejects (S k + fuel) ev st ms t Ht Hrt).
        apply Hs.
Qed.

Lemma in_range_true ms text n :
  int_of_string text = Some n ->
  1 <= n <= Z.of_nat (length ms) ->
  in_range ms text = true.
Proof.
  intros Hn [H1 H2]. unfold in_range. rewrite Hn.
  apply andb_true_iff. split; now apply Z.leb_le.
Qed.

Lemma in_range_false ms text :
  int_of_string text = None
  \/ (exists n, int_of_string text = Some n
                /\ ~ 1 <= n <= Z.of_nat (length ms)) ->
  in_range ms text = false.
Proof.
  unfold in_range. intros [Hn|(n & Hn & Hr)]; rewrite Hn; [reflexivity|].
  apply andb_false_iff.
  destruct (Z.leb_spec 1 n); [|now left].
  destruct (Z.leb_spec n (Z.of_nat (length ms))); [|now right].
  exfalso. apply Hr. lia.
Qed.

Lemma in_range_empty text : in_range [] text = false.
Proof.
  unfold in_range. destruct (int_of_string text) as [n|]; [|reflexivity].
  cbn [length]. apply andb_false_iff.
  destruct (Z.leb_spec 1 n); [right; apply Z.leb_gt; lia | now left].
Qed.

Lemma select_model_empty_spins ev :
  (forall i, exists t, console ev i = Line t) ->
  forall fuel st, fst (select_model fuel (PList []) ev st) = NoFuel.
Proof.
  intros Hall. induction fuel as [|fuel IH]; intros st; [reflexivity|].
  destruct (Hall (st_in st)) as [t Ht].
  rewrite (select_model_rejects fuel ev st [] t Ht (in_range_empty t)).
  apply IH.
Qed.

(** C5.  When the line read is an integer [n] between 1 and the number of
    models, [select_model] returns the model at index [n - 1] of the list
    it was given.  When the line is not an integer, or is one outside that
    range, it prints a message and asks again with the same list; however
    many such lines come first, the first valid line after them is the
    one that selects. *)
Theorem select_model_selection :
  (forall (fuel : nat) (ev : env) (st : state) (ms : list pyval)
          (text : string) (n : Z),
      console ev (st_in st) = Line text ->
      int_of_string text = Some n ->
      1 <= n <= Z.of_nat (length ms) ->
      exists m,
        ms !! Z.to_nat (n - 1) = Some m
        /\ select_model (S fuel) (PList ms) ev st = (Ret m, after_prompt st))
  /\ (forall (fuel : nat) (ev : env) (st : state) (ms : list pyval)
             (text : string),
         console ev (st_in st) = Line text ->
         int_of_string text = None
         \/ (exists n, int_of_string text = Some n
                       /\ ~ 1 <= n <= Z.of_nat (length ms)) ->
         select_model (S fuel) (PList ms) ev st
         = select_model fuel (PList ms) ev (after_rejection text st))
  /\ (forall (ev : env) (st : state) (ms : list pyval) (text : string)
             (k : nat),
         rejected_lines ev ms (st_in st) k ->
         console ev (st_in st + k) = Line text ->
         in_range ms text = true ->
         exists n m st',
           int_of_string text = Some n
           /\ ms !! Z.to_nat (n - 1) = Some m
           /\ st_in st' = (st_in st + k + 1)%nat
           /\ st_fs st' = st_fs st
           /\ forall fuel,
               select_model (S k + fuel) (PList ms) ev st = (Ret m, st')).
Proof.
  split; [|split].
  - intros fuel ev st ms text n Hc Hn Hr.
    destruct (select_model_accepts fuel ev st ms text Hc
                (in_range_true ms text n Hn Hr)) as (n' & m & Hn' & Hm & Hs).
    exists m. split; [congruence | exact Hs].
  - intros fuel ev st ms text Hc Hbad.
    apply select_model_rejects; [exact Hc | now apply in_range_false].
  - intros ev st ms text k. apply select_model_retries.
Qed.

Lemma select_model_selection_witness :
  exists n m st',
    int_of_string "2" = Some n
    /\ three_models !! Z.to_nat (n - 1) = Some m
    /\ st_in st' = (st_in initial_state + 2 + 1)%nat
    /\ st_fs st' = st_fs initial_state
    /\ forall fuel,
        select_model (3 + fuel) (PList three_models)
          (console_env ["abc"; "7"; "2"]) initial_state = (Ret m, st').
Proof.
  apply (proj2 (proj2 select_model_selection)
           (console_env ["abc"; "7"; "2"]) initial_state three_models "2" 2%nat).
  - intros j Hj. destruct j as [|[|j]]; [| |lia].
    + exists "abc". split; vm_compute; reflexivity.
    + exists "7". split; vm_compute; reflexivity.
  - reflexivity.
  - vm_compute; reflexivity.
Defined.

(** C9.  With a list that is not empty and a console that, line after
    line, comes to an integer between 1 and the number of models,
    [select_model] returns, and what it returns is an element of the list
    (as is everything it ever returns).  With the empty list it never
    returns a model: no line is in range, and as long as the console
    supplies lines the loop goes on, whatever the fuel. *)
Theorem select_model_termination :
  (forall (ev : env) (st : state) (ms : list pyval) (text : string)
          (k : nat),
      ms <> [] ->
      lines_until ev (st_in st) k ->
      console ev (st_in st + k) = Line text ->
      in_range ms text = true ->
      exists m st',
        m ∈ ms /\ forall fuel,
          select_model (S k + fuel) (PList ms) ev st = (Ret m, st'))
  /\ (forall (fuel : nat) (ev : env) (st : state) (ms : list pyval)
             (m : pyval) (st' : state),
         select_model fuel (PList ms) ev st = (Ret m, st') -> m ∈ ms)
  /\ (forall (fuel : nat) (ev : env) (st : state) (m : pyval) (st' : state),
         select_model fuel (PList []) ev st <> (Ret m, st'))
  /\ (forall ev : env,
         (forall i, exists t, console ev i = Line t) ->
         forall fuel st, fst (select_model fuel (PList []) ev st) = NoFuel).
Proof.
  split; [|split; [|split]].
  - intros ev st ms text k _. apply select_model_eventually.
  - intros fuel ev st ms m st'. apply select_model_result_in_list.
  - intros fuel ev st m st' H.
    apply select_model_result_in_list in H. now apply not_elem_of_nil in H.
  - exact select_model_empty_spins.
Qed.

Lemma select_model_termination_witness :
  (exists m st',
      m ∈ three_models /\ forall fuel,
        select_model (3 + fuel) (PList three_models)
          (console_env ["abc"; "7"; "2"]) initial_state = (Ret m, st'))
  /\ fst (select_model 50 (PList []) insisting_env initial_state) = NoFuel.
Proof.
  split.
  - apply (proj1 select_model_termination
             (console_env ["abc"; "7"; "2"]) initial_state three_models "2" 2%nat).
    + discriminate.
    + intros j Hj. destruct j as [|[|[|j]]]; [| | |lia]; eexists; reflexivity.
    + reflexivity.
    + vm_compute; reflexivity.
  - apply (proj2 (proj2 (proj2 select_model_termination))).
    intros i. exists "1". reflexivity.
Defined.

(** ** [get_user_parameters] and its callers *)

Lemma bind_ret {A B} (m : M A) (k : A -> M B) ev st a st' :
  m ev st = (Ret a, st') -> bind m k ev st = k a ev st'.
Proof. intros H. unfold bind. now rewrite H. Qed.

Lemma bind_exc {A B} (m : M A) (k : A -> M B) ev st e st' :
  m ev st = (Exc e, st') -> bind m k ev st = (Exc e, st').
Proof. intros H. unfold bind. now rewrite H. Qed.

Lemma input_line prompt ev st text :
  console ev (st_in st) = Line text ->
  input prompt ev st = (Ret text, after_read prompt st).
Proof.
  intros Hc. unfold after_read. run_effects. cbn [st_in log_event].
  now rewrite Hc.
Qed.

Lemma input_float_reads prompt ev st text :
  console ev (st_in st) = Line text ->
  reads_as true text = true ->
  exists x, input_float prompt ev st = (Ret (PFloat x), after_read prompt st).
Proof.
  intros Hc Hr. unfold input_float.
  rewrite (bind_ret _ _ _ _ _ _ (input_line prompt ev st text Hc)).
  unfold reads_as in Hr. apply bool_decide_eq_true in Hr as [x Hx].
  exists x. unfold py_float_of_text. rewrite Hx. reflexivity.
Qed.

Lemma input_float_rejects prompt ev st text :
  console ev (st_in st) = Line text ->
  reads_as true text = false ->
  exists msg,
    input_float prompt ev st = (Exc (Exn ValueError msg), after_read prompt st).
Proof.
  intros Hc Hr. unfold input_float.
  rewrite (bind_ret _ _ _ _ _ _ (input_line prompt ev st text Hc)).
  unfold reads_as in Hr. apply bool_decide_eq_false in Hr.
  unfold py_float_of_text.
  destruct (float_of_string text) as [x|]; [exfalso; apply Hr; eauto|].
  eexists. reflexivity.
Qed.

Lemma input_int_reads prompt ev st text :
  console ev (st_in st) = Line text ->
  reads_as false text = true ->
  exists n, input_int prompt ev st = (Ret (PInt n), after_read prompt st).
Proof.
  intros Hc Hr. unfold input_int.
  rewrite (bind_ret _ _ _ _ _ _ (input_line prompt ev st text Hc)).
  unfold reads_as in Hr. apply bool_decide_eq_true in Hr as [x Hx].
  exists x. cbn [py_int]. rewrite Hx. reflexivity.
Qed.

Lemma input_int_rejects prompt ev st text :
  console ev (st_in st) = Line text ->
  reads_as false text = false ->
  exists msg,
    input_int prompt ev st = (Exc (Exn ValueError msg), after_read prompt st).
Proof.
  intros Hc Hr. unfold input_int.
  rewrite (bind_ret _ _ _ _ _ _ (input_line prompt ev st text Hc)).
  unfold reads_as in Hr. apply bool_decide_eq_false in Hr.
  cbn [py_int].
  destruct (int_of_string text) as [x|]; [exfalso; apply Hr; eauto|].
  eexists. reflexivity.
Qed.

Ltac read_accepted Hc Hr :=
  lazymatch goal with
  | |- context [bind (input_float ?p) ?k ?ev ?s] =>
      let x := fresh "x" in
      let Hx := fresh "Hx" in
      destruct (input_float_reads p ev s _ Hc Hr) as [x Hx];
      rewrite (bind_ret (input_float p) k ev s _ _ Hx); cbv beta; clear Hx
  | |- context [bind (input_int ?p) ?k ?ev ?s] =>
      let x := fresh "x" in
      let Hx := fresh "Hx" in
      destruct (input_int_reads p ev s _ Hc Hr) as [x Hx];
      rewrite (bind_ret (input_int p) k ev s _ _ Hx); cbv beta; clear Hx
  end.

Ltac read_rejected Hc Hr :=
  lazymatch goal with
  | |- context [bind (input_float ?p) ?k ?ev ?s] =>
      let msg := fresh "msg" in
      let Hx := fresh "Hx" in
      destruct (input_float_rejects p ev s _ Hc Hr) as [msg Hx];
      rewrite (bind_exc (input_float p) k ev s _ _ Hx); exists msg
  | |- context [bind (input_int ?p) ?k ?ev ?s] =>
      let msg := fresh "msg" in
      let Hx := fresh "Hx" in
      destruct (input_int_rejects p ev s _ Hc Hr) as [msg Hx];
      rewrite (bind_exc (input_int p) k ev s _ _ Hx); exists msg
  end.

Ltac earlier_line Hbefore j Hc Hr :=
  let p := fresh "p" in
  let k := fresh "k" in
  let t := fresh "t" in
  let Hp := fresh "Hp" in
  destruct (Hbefore j ltac:(lia)) as (p & k & t & Hp & Hc & Hr);
  cbn in Hp; injection Hp as <- <-;
  rewrite ?Nat.add_succ_r, ?Nat.add_0_r in Hc.

Lemma get_user_parameters_rejects ev st i :
  rejected_parameter ev (st_in st) i ->
  exists msg,
    get_user_parameters ev st
    = (Exc (Exn ValueError msg),
       after_reads (take (S i) parameter_prompts) st).
Proof.
  intros [(prompt & kind & text & Hp & Hc & Hr) Hbefore].
  rewrite ?Nat.add_succ_r, ?Nat.add_0_r in Hc.
  unfold get_user_parameters.
  destruct i as [|[|[|[|[|i]]]]]; [| | | | |discriminate Hp];
    cbn in Hp; injection Hp as <- <-;
    rewrite ?Nat.add_succ_r, ?Nat.add_0_r in Hc.
  - read_rejected Hc Hr. reflexivity.
  - earlier_line Hbefore 0%nat Hc0 Hr0.
    read_accepted Hc0 Hr0. read_rejected Hc Hr. reflexivity.
  - earlier_line Hbefore 0%nat Hc0 Hr0. earlier_line Hbefore 1%nat Hc1 Hr1.
    read_accepted Hc0 Hr0. read_accepted Hc1 Hr1.
    read_rejected Hc Hr. reflexivity.
  - earlier_line Hbefore 0%nat Hc0 Hr0. earlier_line Hbefore 1%nat Hc1 Hr1.
    earlier_line Hbefore 2%nat Hc2 Hr2.
    read_accepted Hc0 Hr0. read_accepted Hc1 Hr1. read_accepted Hc2 Hr2.
    read_rejected Hc Hr. reflexivity.
  - earlier_line Hbefore 0%nat Hc0 Hr0. earlier_line Hbefore 1%nat Hc1 Hr1.
    earlier_line Hbefore 2%nat Hc2 Hr2. earlier_line Hbefore 3%nat Hc3 Hr3.
    read_accepted Hc0 Hr0. read_accepted Hc1 Hr1. read_accepted Hc2 Hr2.
    read_accepted Hc3 Hr3. read_rejected Hc Hr. reflexivity.
Qed.

Lemma secondary_menu_copy_raises fuel sel ev st name e st' :
  console ev (st_in st) = Line "3" ->
  console ev (S (st_in st)) = Line name ->
  get_user_parameters ev (name_asked st) = (Exc e, st') ->
  secondary_menu (S fuel) sel ev st = (Exc e, st').
Proof.
  intros Hc Hn Hg. cbn [secondary_menu].
  unfold name_asked, menu_shown in Hg. cbn [fold_left menu_lines] in Hg.
  do 6 (unfold bind at 1; unfold print at 1, emit at 1).
  erewrite bind_ret; [|apply input_line; exact Hc].
  change (String.eqb "3" "1") with false.
  change (String.eqb "3" "2") with false.
  change (String.eqb "3" "3") with true. cbv iota.
  erewrite bind_ret; [|apply input_line; exact Hn].
  apply bind_exc. exact Hg.
Qed.

Lemma main_menu_raises fuel ev st models st1 st2 sel st3 e st4 :
  get_installed_models ev st = (Ret models, st1) ->
  truthy models = true ->
  print_model_menu models ev st1 = (Ret tt, st2) ->
  select_model fuel models ev st2 = (Ret sel, st3) ->
  secondary_menu fuel sel ev st3 = (Exc e, st4) ->
  main (S fuel) ev st = (Exc e, st4).
Proof.
  intros Hg Ht Hp Hs Hm. unfold main. cbn [main_loop py_eq as_int].
  change (negb (0 =? -1)) with true. cbv iota.
  rewrite (bind_ret _ _ _ _ _ _ Hg). rewrite Ht. cbn [negb].
  rewrite (bind_ret _ _ _ _ _ _ Hp).
  rewrite (bind_ret _ _ _ _ _ _ Hs).
  apply bind_exc. exact Hm.
Qed.

(** C3, as the code has it.  When one of the five lines cannot be read
    as the number its prompt asks for, [get_user_parameters] raises
    [ValueError] to its caller, having printed the prompts up to that line
    and nothing else.  Neither caller handles it: [secondary_menu], in its
    "Copy Model" branch, ends with the exception before any file is
    written or any tool is run, and [main] ends with the exception that
    [secondary_menu] raised. *)
Theorem get_user_parameters_error_propagates :
  (forall (ev : env) (st : state) (i : nat),
      rejected_parameter ev (st_in st) i ->
      exists msg,
        get_user_parameters ev st
        = (Exc (Exn ValueError msg),
           after_reads (take (S i) parameter_prompts) st))
  /\ (forall (fuel : nat) (sel : pyval) (ev : env) (st : state)
             (name : string) (e : exn) (st' : state),
         console ev (st_in st) = Line "3" ->
         console ev (S (st_in st)) = Line name ->
         get_user_parameters ev (name_asked st) = (Exc e, st') ->
         secondary_menu (S fuel) sel ev st = (Exc e, st'))
  /\ (forall (fuel : nat) (ev : env) (st : state) (models : pyval)
             (st1 st2 : state) (sel : pyval) (st3 : state) (e : exn)
             (st4 : state),
         get_installed_models ev st = (Ret models, st1) ->
         truthy models = true ->
         print_model_menu models ev st1 = (Ret tt, st2) ->
         select_model fuel models ev st2 = (Ret sel, st3) ->
         secondary_menu fuel sel ev st3 = (Exc e, st4) ->
         main (S fuel) ev st = (Exc e, st4)).
Proof.
  split; [|split].
  - exact get_user_parameters_rejects.
  - exact secondary_menu_copy_raises.
  - exact main_menu_raises.
Qed.

Lemma get_user_parameters_error_propagates_witness :
  (exists msg,
      get_user_parameters (console_env ["0.7"; "2048"; "fifty"]) initial_state
      = (Exc (Exn ValueError msg),
         after_reads (take 3 parameter_prompts) initial_state))
  /\ main 3 copy_session initial_state
     = (Exc (Exn ValueError "could not convert string to float: 'abc'"),
        asked_temperature).
Proof.
  split.
  - apply (proj1 get_user_parameters_error_propagates
             (console_env ["0.7"; "2048"; "fifty"]) initial_state 2%nat).
    split.
    + exists "Enter top_k (e.g., 50): ", false, "fifty".
      repeat split; vm_compute; reflexivity.
    + intros j Hj. destruct j as [|[|j]]; [| |lia].
      * exists "Enter temperature (e.g., 0.7): ", true, "0.7".
        repeat split; vm_compute; reflexivity.
      * exists "Enter num_ctx (e.g., 2048): ", false, "2048".
        repeat split; vm_compute; reflexivity.
  - eapply (proj2 (proj2 get_user_parameters_error_propagates)
              2%nat copy_session initial_state).
    + vm_compute; reflexivity.
    + reflexivity.
    + vm_compute; reflexivity.
    + vm_compute; reflexivity.
    + eapply (proj1 (proj2 get_user_parameters_error_propagates)
                1%nat _ copy_session _ "copy").
      * reflexivity.
      * reflexivity.
      * vm_compute; reflexivity.
Defined.

(** C3 as stated fails: in this session the [ValueError] of the first
    question leaves [secondary_menu] and [main]; the last thing on the
    console is the question itself, no message follows it, and the program
    is not back at a menu but over. *)
Lemma get_user_parameters_error_counterexample :
  fst (main 10 copy_session initial_state)
  = Exc (Exn ValueError "could not convert string to float: 'abc'")
  /\ last (st_trace (snd (main 10 copy_session initial_state)))
     = Some (Out "Enter temperature (e.g., 0.7): ")
  /\ st_in (snd (main 10 copy_session initial_state)) = 4%nat.
Proof. repeat split; vm_compute; reflexivity. Qed.

(** ** [run_model] *)

Section SessionLog.

Variable log : string.















End SessionLog.

Lemma with_open_fails {A} log (body : M A) ev st e :
  open_fails ev (st_sys st) log = Some e ->
  with_open log body ev st = (Exc e, tick st).
Proof.
  intros Ho. unfold with_open, bind, open_w, sys_call. now rewrite Ho.
Qed.

Lemma log_open_opened log st : log_open log (opened log st).
Proof.
  eexists. split; [apply lookup_insert_eq | reflexivity].
Qed.

Lemma file_close_log log ev st :
  log_open log st -> file_close log ev st = (Ret tt, closed log st).
Proof.
  intros [f [Hf Ho]]. rewrite (file_close_open ev st log f Hf Ho).
  unfold closed, log_content. now rewrite Hf.
Qed.

Lemma with_open_runs {A} log (body : M A) ev st rb s :
  open_fails ev (st_sys st) log = None ->
  body ev (opened log st) = (rb, s) ->
  log_open log s ->
  with_open log body ev st
  = match rb with
    | NoFuel => (NoFuel, s)
    | _ => (rb, closed log s)
    end.
Proof.
  intros Ho Hb Hs. unfold with_open, bind, open_w, sys_call. rewrite Ho.
  unfold finally.
  change (opened log st)
    with (set_fs (<[log := {| f_data := ""; f_buf := ""; f_open := true |}]>
                    (st_fs (tick st))) (tick st)) in Hb.
  rewrite Hb.
  destruct rb; [| |reflexivity]; now rewrite (file_close_log log ev s Hs).
Qed.

Lemma session_wrap (body : M unit) log ev st rb s :
  body ev st = (rb, s) ->
  finally
    (catch is_Exception body
       (fun e => print ("An error occurred: " +:+ exn_text e)))
    (print ("Session log saved to: " +:+ log)) ev st
  = match rb with
    | Ret a => (Ret a, log_event (announcement log) s)
    | Exc e =>
        if is_Exception e
        then (Ret tt, log_event (announcement log) (log_event (error_report e) s))
        else (Exc e, log_event (announcement log) s)
    | NoFuel => (NoFuel, s)
    end.
Proof.
  intros Hb. unfold finally, catch. rewrite Hb.
  destruct rb as [a|e|]; [reflexivity| |reflexivity].
  destruct (is_Exception e); reflexivity.
Qed.

Lemma announced_log_event log st : announced log (log_event (announcement log) st).
Proof. unfold announced. cbn [st_trace log_event]. apply last_snoc. Qed.





Lemma step_trans log a b e1 e2 i1 i2 c1 c2 st st1 st2 :
  step log a e1 i1 c1 st st1 ->
  step log b e2 i2 c2 st1 st2 ->
  step log (a +:+ b) (e1 ++ e2) (i1 + i2) (c1 + c2) st st2.
Proof.
  intros (_ & Hc1 & Ht1 & Hi1 & Hh1) (Ho2 & Hc2 & Ht2 & Hi2 & Hh2).
  split; [exact Ho2|]. split; [now rewrite Hc2, Hc1, append_assoc|].
  split; [now rewrite Ht2, Ht1, app_assoc|]. split; lia.
Qed.

Lemma step_emit log e st :
  log_open log st -> step log "" [e] 0 0 st (log_event e st).
Proof.
  intros Ho. split; [exact Ho|].
  split; [unfold log_content; cbn [st_fs log_event]; now rewrite append_nil_r|].
  split; [reflexivity|]. cbn [st_in st_chat log_event]. split; lia.
Qed.

Lemma step_update log g extra ev st :
  (forall x, f_open (g x) = true) ->
  (forall x, f_data (g x) +:+ f_buf (g x) = (f_data x +:+ f_buf x) +:+ extra) ->
  log_open log st ->
  exists st', update_file log g ev st = (Ret tt, st')
              /\ step log extra [] 0 0 st st'.
Proof.
  intros Hopen Hg [f [Hf Ho]]. unfold update_file. rewrite Hf, Ho.
  eexists. split; [reflexivity|].
  split; [exists (g f); split; [apply lookup_insert_eq | apply Hopen]|].
  split.
  { unfold log_content. cbn [st_fs set_fs].
    now rewrite lookup_insert_eq, Hf, Hg. }
  cbn [st_trace st_in st_chat set_fs]. rewrite app_nil_r. repeat split; lia.
Qed.

Lemma file_write_step log text ev st :
  log_open log st ->
  exists st', file_write log text ev st = (Ret tt, st')
              /\ step log text [] 0 0 st st'.
Proof.
  apply step_update; [reflexivity|]. intros x. cbn [f_data f_buf].
  now rewrite append_assoc.
Qed.

Lemma file_flush_step log ev st :
  log_open log st ->
  exists st', file_flush log ev st = (Ret tt, st')
              /\ step log "" [] 0 0 st st'.
Proof.
  apply step_update; [reflexivity|]. intros x. cbn [f_data f_buf].
  now rewrite !append_nil_r.
Qed.

Lemma echo_step log content ev st :
  log_open log st ->
  exists st', echo log content ev st = (Ret tt, st')
              /\ step log content [Out content] 0 0 st st'.
Proof.
  intros Ho. unfold echo.
  pose proof (step_emit log (Out content) st Ho) as S0.
  destruct (file_write_step log content ev _ (proj1 S0)) as (s1 & H1 & S1).
  destruct (file_flush_step log ev s1 (proj1 S1)) as (s2 & H2 & S2).
  exists s2. split.
  - unfold bind at 1. unfold print_raw, emit.
    rewrite (bind_ret _ _ _ _ _ _ H1). exact H2.
  - pose proof (step_trans _ _ _ _ _ _ _ _ _ _ _ _ S0
                  (step_trans _ _ _ _ _ _ _ _ _ _ _ _ S1 S2)) as S.
    cbn in S. now rewrite append_nil_r in S.
Qed.

Lemma echo_all_step log ev cs :
  forall st,
    log_open log st ->
    exists st', for_each cs (echo log) ev st = (Ret tt, st')
                /\ step log (concat_strings cs) (List.map Out cs) 0 0 st st'.
Proof.
  induction cs as [|c cs IH]; intros st Ho.
  - exists st. split; [reflexivity|]. split; [exact Ho|].
    cbn. rewrite append_nil_r, app_nil_r. repeat split; lia.
  - destruct (echo_step log c ev st Ho) as (s1 & H1 & S1).
    destruct (IH s1 (proj1 S1)) as (s2 & H2 & S2).
    exists s2. split.
    + cbn [for_each]. rewrite (bind_ret _ _ _ _ _ _ H1). exact H2.
    + exact (step_trans _ _ _ _ _ _ _ _ _ _ _ _ S1 S2).
Qed.

Lemma round_begins log model_name ev st p :
  log_open log st ->
  console ev (st_in st) = Line p ->
  exists st',
    (forall k : string -> chat_reply -> M unit,
        (let! user_prompt := input prompt_text in
         file_write log ("User: " +:+ user_prompt +:+ nl) ;;
         file_flush log ;;
         file_write log "Assistant: " ;;
         let! reply := ollama_chat model_name user_prompt in
         for_each (chunks reply) (echo log) ;;
         k user_prompt reply)%py ev st
        = k p (chat ev (st_chat st) model_name p) ev st')
    /\ step log
         (round_head p +:+ concat_strings (chunks (chat ev (st_chat st) model_name p)))
         (round_events model_name p (chunks (chat ev (st_chat st) model_name p)))
         1 1 st st'.
Proof.
  intros Ho Hc.
  assert (S0 : step log "" [Out prompt_text] 1 0 st (after_read prompt_text st)).
  { split; [exact Ho|].
    split; [unfold log_content; cbn; now rewrite append_nil_r|].
    split; [reflexivity|]. cbn. split; lia. }
  destruct (file_write_step log ("User: " +:+ p +:+ nl) ev _ (proj1 S0))
    as (s1 & H1 & S1).
  destruct (file_flush_step log ev s1 (proj1 S1)) as (s2 & H2 & S2).
  destruct (file_write_step log "Assistant: " ev s2 (proj1 S2))
    as (s3 & H3 & S3).
  set (s4 := next_chat (log_event (Chat model_name p) s3)).
  assert (S4 : step log "" [Chat model_name p] 0 1 s3 s4).
  { split; [exact (proj1 S3)|].
    split; [unfold log_content; cbn; now rewrite append_nil_r|].
    split; [reflexivity|]. cbn. split; lia. }
  pose proof (step_trans _ _ _ _ _ _ _ _ _ _ _ _ S0
                (step_trans _ _ _ _ _ _ _ _ _ _ _ _ S1
                   (step_trans _ _ _ _ _ _ _ _ _ _ _ _ S2
                      (step_trans _ _ _ _ _ _ _ _ _ _ _ _ S3 S4)))) as S04.
  assert (Hchat : st_chat s3 = st_chat st).
  { destruct S1 as (_ & _ & _ & _ & E1). destruct S2 as (_ & _ & _ & _ & E2).
    destruct S3 as (_ & _ & _ & _ & E3). rewrite E3, E2, E1. cbn. lia. }
  destruct (echo_all_step log ev (chunks (chat ev (st_chat st) model_name p))
              s4 (proj1 S4)) as (s5 & H5 & S5).
  exists s5. split.
  - intros k.
    rewrite (bind_ret _ _ _ _ _ _ (input_line prompt_text ev st p Hc)).
    rewrite (bind_ret _ _ _ _ _ _ H1).
    rewrite (bind_ret _ _ _ _ _ _ H2).
    rewrite (bind_ret _ _ _ _ _ _ H3).
    unfold bind at 1. unfold ollama_chat at 1. unfold bind at 1.
    unfold emit at 1. cbn [st_chat log_event]. rewrite Hchat.
    fold s4. rewrite (bind_ret _ _ _ _ _ _ H5). reflexivity.
  - pose proof (step_trans _ _ _ _ _ _ _ _ _ _ _ _ S04 S5) as S.
    cbn [Nat.add app] in S. unfold round_head, round_events.
    rewrite !append_nil_r in S. cbn [String.append] in S.
    rewrite <- !append_assoc. exact S.
Qed.

Lemma run_model_loop_stops fuel model_name log prev ev st :
  String.eqb (lower prev) "exit" = true ->
  run_model_loop (S fuel) model_name log prev ev st = (Ret tt, st).
Proof. intros H. cbn [run_model_loop]. now rewrite H. Qed.

Lemma run_model_loop_round model_name log prev ev st p :
  log_open log st ->
  String.eqb (lower prev) "exit" = false ->
  console ev (st_in st) = Line p ->
  failure (chat ev (st_chat st) model_name p) = None ->
  exists st',
    step log (round_text p (chunks (chat ev (st_chat st) model_name p)))
      (round_events model_name p (chunks (chat ev (st_chat st) model_name p))
       ++ [separator_shown]) 1 1 st st'
    /\ forall fuel : nat,
        run_model_loop (S fuel) model_name log prev ev st
        = run_model_loop fuel model_name log p ev st'.
Proof.
  intros Ho Hprev Hc Hf.
  destruct (round_begins log model_name ev st p Ho Hc) as (s1 & H1 & S1).
  destruct (file_write_step log (nl +:+ separator +:+ nl) ev s1 (proj1 S1))
    as (s2 & H2 & S2).
  destruct (file_flush_step log ev s2 (proj1 S2)) as (s3 & H3 & S3).
  pose proof (step_emit log separator_shown s3 (proj1 S3)) as S4.
  exists (log_event separator_shown s3). split.
  - pose proof (step_trans _ _ _ _ _ _ _ _ _ _ _ _ S1
                  (step_trans _ _ _ _ _ _ _ _ _ _ _ _ S2
                     (step_trans _ _ _ _ _ _ _ _ _ _ _ _ S3 S4))) as S.
    cbn [Nat.add app] in S. rewrite !append_nil_r in S.
    unfold round_text. rewrite <- !append_assoc.
    rewrite <- !append_assoc in S. exact S.
  - intros fuel. cbn [run_model_loop]. rewrite Hprev. cbn [negb].
    etransitivity; [exact (H1 _)|]. cbv beta. rewrite Hf.
    unfold bind at 1. unfold ret at 1.
    rewrite (bind_ret _ _ _ _ _ _ H2), (bind_ret _ _ _ _ _ _ H3).
    reflexivity.
Qed.


Lemma log_content_opened log st : log_content log (opened log st) = "".
Proof.
  unfold log_content, opened. cbn [st_fs set_fs].
  now rewrite lookup_insert_eq.
Qed.

Lemma closed_file_at log st :
  st_fs (log_event (announcement log) (closed log st)) !! log
  = Some (closed_file (log_content log st)).
Proof. cbn [st_fs log_event closed set_fs]. apply lookup_insert_eq. Qed.






(** C1, on the code.  In a session whose first prompt is "exit" the
    prompt is logged, sent to the model and answered like any other: the
    trace holds the chat call and the fragments, and the log, closed and
    announced, holds an "Assistant:" entry.  The loop is left only when its
    condition is tested at the start of the next round. *)
Theorem run_model_sends_the_sentinel_to_the_model :
  run_model 5 (PStr "llama2") farewell_session initial_state
  = (Ret tt,
     {| st_in := 1; st_http := 0; st_chat := 1; st_sys := 3;
        st_trace :=
          [Out ("Running model: llama2" +:+ nl);
           MakeDirs "logs";
           Out prompt_text;
           Chat (PStr "llama2") "exit";
           Out "Good"; Out "bye!";
           separator_shown;
           announcement "logs/Session_20240101_120000.log"];
        st_fs :=
          {["logs/Session_20240101_120000.log" :=
              closed_file ("User: exit" +:+ nl +:+ "Assistant: Goodbye!" +:+ nl
                           +:+ separator +:+ nl)]} |}).
Proof. vm_compute. reflexivity. Qed.

(** ** Further properties: the catalog and its display *)

Lemma gib_as_float :
  to_float (1024 ^ 3) = Ok (S754_finite false 4503599627370496 (-22)).
Proof. vm_compute. reflexivity. Qed.

Lemma int_truediv_gib n :
  (exists y, int_truediv n (1024 ^ 3) = Ok y)
  \/ raises OverflowError (int_truediv n (1024 ^ 3)).
Proof.
  unfold int_truediv. change (1024 ^ 3 =? 0) with false. cbv iota.
  destruct (is_inf_float _); [right; eexists | left; eexists]; reflexivity.
Qed.

Lemma float_truediv_gib x :
  exists y, py_truediv (PFloat x) (PInt (1024 ^ 3)) = Ok (PFloat y).
Proof.
  cbn [py_truediv as_int]. rewrite gib_as_float. cbn [res_bind].
  eexists. reflexivity.
Qed.

(** *** The range of the division

    The float operations are those of [SpecFloat]; what follows relates
    the rounding of a quotient by 1024^3 to the size of the integer. *)

Lemma digits2_pos_size p : digits2_pos p = Pos.size p.
Proof. induction p; cbn; congruence. Qed.

Lemma Zdigits2_log2 m : 0 < m -> Zdigits2 m = Z.log2 m + 1.
Proof.
  destruct m as [|p|p]; try lia. intros _. cbn [Zdigits2].
  rewrite digits2_pos_size. destruct p; cbn; lia.
Qed.

Lemma iter_pos_nat {A} (f : A -> A) p :
  forall x, SpecFloat.iter_pos f p x = Nat.iter (Pos.to_nat p) f x.
Proof.
  induction p as [p IH|p IH|]; intros x; cbn [SpecFloat.iter_pos].
  - rewrite !IH. rewrite Pos2Nat.inj_xI.
    replace (S (2 * Pos.to_nat p)) with (Pos.to_nat p + (Pos.to_nat p + 1))%nat by lia.
    rewrite !Nat.iter_add. reflexivity.
  - rewrite !IH. rewrite Pos2Nat.inj_xO.
    replace (2 * Pos.to_nat p)%nat with (Pos.to_nat p + Pos.to_nat p)%nat by lia.
    rewrite Nat.iter_add. reflexivity.
  - reflexivity.
Qed.

Lemma shr_1_m mrs : 0 <= shr_m mrs -> shr_m (shr_1 mrs) = Z.div2 (shr_m mrs).
Proof.
  destruct mrs as [m r s]. cbn [shr_m]. intros H.
  destruct m as [|[p|p|]|p]; try lia; reflexivity.
Qed.

Lemma shr_1_r mrs : 0 <= shr_m mrs -> shr_r (shr_1 mrs) = Z.odd (shr_m mrs).
Proof.
  destruct mrs as [m r s]. cbn [shr_m]. intros H.
  destruct m as [|[p|p|]|p]; try lia; reflexivity.
Qed.

Lemma shr_iter_m k : forall mrs,
  0 <= shr_m mrs ->
  shr_m (Nat.iter k shr_1 mrs) = Z.shiftr (shr_m mrs) (Z.of_nat k).
Proof.
  induction k as [|k IH]; intros mrs H.
  - cbn. now rewrite Z.shiftr_0_r.
  - rewrite Nat.iter_succ_r. rewrite IH.
    + rewrite shr_1_m by exact H. rewrite Z.div2_spec.
      rewrite Z.shiftr_shiftr by lia. f_equal. lia.
    + rewrite shr_1_m by exact H. apply Z.div2_nonneg. exact H.
Qed.

Lemma shr_iter_r k : forall mrs,
  0 <= shr_m mrs ->
  shr_r (Nat.iter (S k) shr_1 mrs) = Z.testbit (shr_m mrs) (Z.of_nat k).
Proof.
  intros mrs H. rewrite Nat.iter_succ.
  rewrite shr_1_r.
  - rewrite shr_iter_m by exact H. rewrite <- Z.bit0_odd.
    rewrite Z.shiftr_spec by lia. f_equal.
  - rewrite shr_iter_m by exact H. apply Z.shiftr_nonneg. exact H.
Qed.

Lemma shr_iter_pos p mrs :
  0 <= shr_m mrs ->
  shr_m (SpecFloat.iter_pos shr_1 p mrs) = Z.shiftr (shr_m mrs) (Zpos p)
  /\ shr_r (SpecFloat.iter_pos shr_1 p mrs) = Z.testbit (shr_m mrs) (Zpos p - 1).
Proof.
  intros H. rewrite iter_pos_nat. split.
  - rewrite shr_iter_m by exact H. now rewrite positive_nat_Z.
  - destruct (Pos.to_nat p) as [|k] eqn:E; [lia|].
    rewrite shr_iter_r by exact H. f_equal. lia.
Qed.

(** The mantissa after rounding to nearest even. *)
Lemma round_nearest_even_cases mrs :
  0 <= shr_m mrs ->
  round_nearest_even (shr_m mrs) (loc_of_shr_record mrs) = shr_m mrs
  \/ (round_nearest_even (shr_m mrs) (loc_of_shr_record mrs) = shr_m mrs + 1
      /\ shr_r mrs = true).
Proof.
  destruct mrs as [m [|] [|]]; cbn; intros H; auto.
  destruct (Z.even m); auto.
Qed.

Lemma round_nearest_even_odd mrs :
  Z.odd (shr_m mrs) = true ->
  round_nearest_even (shr_m mrs) (loc_of_shr_record mrs)
  = if shr_r mrs then shr_m mrs + 1 else shr_m mrs.
Proof.
  destruct mrs as [m [|] [|]]; cbn; intros H; auto.
  rewrite <- Z.negb_odd, H. reflexivity.
Qed.

Lemma shr_record_of_loc_m m l : shr_m (shr_record_of_loc m l) = m.
Proof. destruct l as [|[]]; reflexivity. Qed.

Lemma fexp_normal e : -1074 <= e - 53 -> fexp 53 1024 e = e - 53.
Proof. intros H. unfold fexp, emin. lia. Qed.

Lemma log2_53_bits m : 2 ^ 52 <= m < 2 ^ 53 -> Z.log2 m = 52.
Proof. intros H. apply Z.log2_unique; [lia | exact H]. Qed.

(** The second normalisation of [binary_round_aux]: a rounded mantissa of
    53 bits stays, the carry [2^53] moves the exponent up by one. *)
Lemma second_stage sx m e :
  2 ^ 52 <= m <= 2 ^ 53 ->
  -1074 <= e ->
  is_inf_float
    (let '(mrs, e') := shr_fexp 53 1024 m e loc_Exact in
     match shr_m mrs with
     | Z0 => S754_zero sx
     | Zpos m0 =>
         if e' <=? 1024 - 53 then S754_finite sx m0 e' else S754_infinity sx
     | Zneg _ => S754_nan
     end)
  = if m =? 2 ^ 53 then 970 <? e else 971 <? e.
Proof.
  intros Hm He. unfold shr_fexp.
  destruct (Z.eqb_spec m (2 ^ 53)) as [->|Hne].
  - change (Zdigits2 (2 ^ 53)) with 54.
    rewrite fexp_normal by lia.
    replace (54 + e - 53 - e) with 1 by lia.
    cbn [shr shr_record_of_loc SpecFloat.iter_pos]. 
    change (shr_m (shr_1 {| shr_m := 2 ^ 53; shr_r := false; shr_s := false |}))
      with (2 ^ 52).
    change (2 ^ 52) with (Zpos (2 ^ 52)%positive).
    destruct (e + 1 <=? 1024 - 53) eqn:E; cbn [is_inf_float].
    + apply Z.leb_le in E. symmetry. apply Z.ltb_ge. lia.
    + apply Z.leb_gt in E. symmetry. apply Z.ltb_lt. lia.
  - assert (H52 : 2 ^ 52 <= m < 2 ^ 53) by lia.
    rewrite Zdigits2_log2 by lia. rewrite (log2_53_bits m H52).
    rewrite fexp_normal by lia.
    replace (52 + 1 + e - 53 - e) with 0 by lia.
    cbn [shr shr_record_of_loc shr_m].
    destruct m as [|p|p]; try lia.
    destruct (e <=? 1024 - 53) eqn:E; cbn [is_inf_float].
    + apply Z.leb_le in E. symmetry. apply Z.ltb_ge. lia.
    + apply Z.leb_gt in E. symmetry. apply Z.ltb_lt. lia.
Qed.

(** When the mantissa has [n >= 1] bits more than the 53 a float keeps,
    [binary_round_aux] overflows exactly when the exponent after the shift
    is beyond the largest one, the carry of the rounding counted in. *)
Lemma binary_round_aux_inf sx mx ex lx n :
  0 < mx ->
  n = Z.log2 mx - 52 ->
  1 <= n ->
  -1074 <= ex + n ->
  is_inf_float (binary_round_aux 53 1024 sx mx ex lx)
  = if (Z.shiftr mx n =? 2 ^ 53 - 1) && Z.testbit mx (n - 1)
    then 970 <? ex + n else 971 <? ex + n.
Proof.
  intros Hmx Hn Hn1 He. unfold binary_round_aux.
  unfold shr_fexp at 1.
  rewrite Zdigits2_log2 by exact Hmx.
  rewrite fexp_normal by lia.
  replace (Z.log2 mx + 1 + ex - 53 - ex) with n by lia.
  destruct n as [|p|p]; try lia. cbn [shr].
  destruct (shr_iter_pos p (shr_record_of_loc mx lx)) as [Hm Hr];
    [rewrite shr_record_of_loc_m; lia|].
  rewrite shr_record_of_loc_m in Hm, Hr.
  set (mrs := SpecFloat.iter_pos shr_1 p (shr_record_of_loc mx lx)) in *.
  rewrite <- Hm, <- Hr.
  assert (H52 : 2 ^ 52 <= shr_m mrs < 2 ^ 53).
  { assert (Hl : Z.log2 (shr_m mrs) = 52).
    { rewrite Hm, Z.log2_shiftr by exact Hmx. lia. }
    assert (Hpos : 0 < shr_m mrs).
    { destruct (Z.lt_ge_cases 0 (shr_m mrs)) as [H|H]; [exact H|].
      rewrite Z.log2_nonpos in Hl by lia. discriminate Hl. }
    pose proof (Z.log2_spec (shr_m mrs) Hpos) as Hs. rewrite Hl in Hs.
    exact Hs. }
  destruct (Z.eqb_spec (shr_m mrs) (2 ^ 53 - 1)) as [Heq|Hne].
  - rewrite round_nearest_even_odd by (rewrite Heq; reflexivity).
    destruct (shr_r mrs); cbn [andb].
    + rewrite second_stage by lia.
      rewrite Heq. reflexivity.
    + rewrite second_stage by lia.
      rewrite Heq. reflexivity.
  - cbn [andb].
    assert (H0 : 0 <= shr_m mrs) by lia.
    destruct (round_nearest_even_cases mrs H0) as [->|[-> _]];
      rewrite second_stage by lia.
    + destruct (Z.eqb_spec (shr_m mrs) (2 ^ 53)) as [E|E];
        [lia | reflexivity].
    + destruct (Z.eqb_spec (shr_m mrs + 1) (2 ^ 53)) as [E|E];
        [lia | reflexivity].
Qed.

(** The division of a positive integer by 1024^3 before rounding: the
    quotient as a mantissa of at least 54 bits and its exponent. *)
Lemma div_core_gib p :
  exists lz,
    SFdiv_core_binary 53 1024 (Zpos p) 0 1073741824 0
    = (Z.shiftl (Zpos p) (- Z.min (Z.log2 (Zpos p) - 83) 0 - 30),
       Z.min (Z.log2 (Zpos p) - 83) 0, lz).
Proof.
  unfold SFdiv_core_binary.
  rewrite (Zdigits2_log2 (Zpos p)) by lia.
  change (Zdigits2 1073741824) with 31.
  pose proof (Z.log2_nonneg (Zpos p)) as Hl.
  rewrite fexp_normal by lia.
  replace (Z.log2 (Z.pos p) + 1 + 0 - (31 + 0) - 53)
    with (Z.log2 (Zpos p) - 83) by lia.
  change (0 - 0) with 0.
  set (e' := Z.min (Z.log2 (Zpos p) - 83) 0).
  assert (He : e' <= 0) by (unfold e'; lia).
  set (m' := match 0 - e' with
             | 0 => Z.pos p
             | Z.pos _ => Z.shiftl (Z.pos p) (0 - e')
             | Z.neg _ => 0
             end).
  assert (Hm : m' = Z.shiftl (Zpos p) (- e')).
  { unfold m'. replace (0 - e') with (- e') by lia.
    destruct (- e') as [|s|s] eqn:E;
      [now rewrite Z.shiftl_0_r | reflexivity | lia]. }
  assert (Hq : m' / 1073741824 = Z.shiftl (Zpos p) (- e' - 30)).
  { rewrite Hm. change 1073741824 with (2 ^ 30).
    rewrite <- Z.shiftr_div_pow2 by lia.
    rewrite Z.shiftr_shiftl_l by lia. reflexivity. }
  unfold Z.div in Hq.
  destruct (Z.div_eucl m' 1073741824) as [q r]. cbn [fst] in Hq. subst q.
  eexists. reflexivity.
Qed.

(** An integer of 54 bits has all its bits set exactly when its upper
    53 bits are set and it is odd. *)
Lemma top_bits a :
  0 <= a < 2 ^ 54 ->
  (Z.shiftr a 1 =? 2 ^ 53 - 1) && Z.odd a = (2 ^ 54 - 1 <=? a).
Proof.
  intros Ha. rewrite Z.shiftr_div_pow2 by lia. change (2 ^ 1) with 2.
  pose proof (Z.div_mod a 2 ltac:(lia)) as Hd.
  pose proof (Z.mod_pos_bound a 2 ltac:(lia)) as Hb.
  pose proof (Z.bit0_mod a) as Ho. rewrite Z.bit0_odd in Ho.
  destruct (Z.eqb_spec (a / 2) (2 ^ 53 - 1)) as [E|E];
    destruct (Z.odd a); cbn [andb Z.b2z] in *; symmetry;
    (apply Z.leb_le; lia) || (apply Z.leb_gt; lia).
Qed.

(** The quotient of a positive integer by 1024^3 rounds to an infinity
    exactly from [2^1054 - 2^1000] on: the quotient [2^1024 - 2^970],
    halfway between the largest float and [2^1024]. *)
Lemma round_ratio_gib_inf neg p :
  is_inf_float (round_ratio neg p 1073741824)
  = (2 ^ 1054 - 2 ^ 1000 <=? Zpos p).
Proof.
  unfold round_ratio. change prec with 53. change emax with 1024.
  destruct (div_core_gib p) as [lz ->].
  pose proof (Z.log2_nonneg (Zpos p)) as Hl.
  pose proof (Z.log2_spec (Zpos p) ltac:(lia)) as Hs.
  set (l := Z.log2 (Zpos p)) in *.
  set (e' := Z.min (l - 83) 0).
  set (q := Z.shiftl (Zpos p) (- e' - 30)).
  assert (Hlq : Z.log2 q = l - e' - 30).
  { unfold q. destruct (Z.le_gt_cases 0 (- e' - 30)) as [H|H].
    - rewrite Z.log2_shiftl by lia. fold l. lia.
    - replace (- e' - 30) with (- (e' + 30)) by lia.
      rewrite Z.shiftl_opp_r, Z.log2_shiftr by lia. fold l.
      unfold e'. lia. }
  assert (Hq : 0 < q).
  { destruct (Z.lt_ge_cases 0 q) as [H|H]; [exact H|].
    rewrite Z.log2_nonpos in Hlq by lia. unfold e' in Hlq. lia. }
  rewrite (binary_round_aux_inf neg q e' lz (l - e' - 82));
    [|exact Hq | lia | unfold e'; lia | unfold e'; lia].
  replace (e' + (l - e' - 82)) with (l - 82) by lia.
  destruct (Z.lt_ge_cases l 1053) as [Hlow|Hhigh].
  - replace (970 <? l - 82) with false by (symmetry; apply Z.ltb_ge; lia).
    replace (971 <? l - 82) with false by (symmetry; apply Z.ltb_ge; lia).
    rewrite Tauto.if_same. symmetry. apply Z.leb_gt.
    apply Z.lt_le_trans with (2 ^ 1053); [|vm_compute; discriminate].
    apply Z.lt_le_trans with (2 ^ Z.succ l); [lia|].
    apply Z.pow_le_mono_r; lia.
  - destruct (Z.eq_dec l 1053) as [E|E].
    + assert (He' : e' = 0) by (unfold e'; lia).
      unfold q. rewrite He', E.
      change (- 0 - 30) with (- (30)). rewrite Z.shiftl_opp_r.
      change (1053 - 0 - 82) with 971. change (971 - 1) with 970.
      change (1053 - 82) with 971.
      change (970 <? 971) with true. change (971 <? 971) with false.
      rewrite Z.shiftr_shiftr by lia. change (30 + 971) with (1000 + 1).
      rewrite <- Z.shiftr_shiftr by lia.
      rewrite Z.shiftr_spec by lia. change (970 + 30) with 1000.
      rewrite Z.testbit_odd.
      set (a := Z.shiftr (Zpos p) 1000).
      assert (Ha : a = Zpos p / 2 ^ 1000)
        by (unfold a; apply Z.shiftr_div_pow2; lia).
      assert (HB : 0 < 2 ^ 1000) by (apply Z.pow_pos_nonneg; lia).
      rewrite E in Hs. change (Z.succ 1053) with 1054 in Hs.
      assert (H54 : 2 ^ 1054 = 2 ^ 1000 * 2 ^ 54)
        by (rewrite <- Z.pow_add_r by lia; reflexivity).
      assert (Hrange : 0 <= a < 2 ^ 54).
      { rewrite Ha. split; [apply Z.div_pos; lia|].
        apply Z.div_lt_upper_bound; [exact HB|]. rewrite <- H54. lia. }
      transitivity (2 ^ 54 - 1 <=? a).
      { destruct ((Z.shiftr a 1 =? 2 ^ 53 - 1) && Z.odd a) eqn:T;
          rewrite <- (top_bits a Hrange), T; reflexivity. }
      assert (Hthr : 2 ^ 1054 - 2 ^ 1000 = 2 ^ 1000 * (2 ^ 54 - 1))
        by (rewrite H54; ring).
      rewrite Hthr.
      destruct (Z.leb_spec (2 ^ 54 - 1) a) as [L|L]; symmetry.
      * apply Z.leb_le. rewrite Ha in L.
        apply Z.le_trans with (2 ^ 1000 * (Zpos p / 2 ^ 1000)).
        -- apply Z.mul_le_mono_nonneg_l; lia.
        -- apply Z.mul_div_le. exact HB.
      * apply Z.leb_gt. rewrite Ha in L.
        apply Z.lt_le_trans with (2 ^ 1000 * Z.succ (Zpos p / 2 ^ 1000)).
        -- apply Z.mul_succ_div_gt. exact HB.
        -- apply Z.mul_le_mono_nonneg_l; lia.
    + replace (970 <? l - 82) with true by (symmetry; apply Z.ltb_lt; lia).
      replace (971 <? l - 82) with true by (symmetry; apply Z.ltb_lt; lia).
      rewrite Tauto.if_same. symmetry. apply Z.leb_le.
      apply Z.le_trans with (2 ^ 1054); [vm_compute; discriminate|].
      apply Z.le_trans with (2 ^ l); [|lia].
      apply Z.pow_le_mono_r; lia.
Qed.

Lemma int_truediv_gib_range n :
  int_truediv n (1024 ^ 3)
  = if 2 ^ 1054 - 2 ^ 1000 <=? Z.abs n
    then Raise (Exn OverflowError "integer division result too large for a float")
    else Ok (round_ratio_Z (n <? 0) (Z.abs n) (1024 ^ 3)).
Proof.
  unfold int_truediv. change (1024 ^ 3 =? 0) with false.
  change (1024 ^ 3 <? 0) with false. change (Z.abs (1024 ^ 3)) with (1024 ^ 3).
  rewrite xorb_false_r. cbv iota.
  change (1024 ^ 3) with 1073741824.
  destruct n as [|p|p].
  - reflexivity.
  - change (Z.abs (Z.pos p)) with (Z.pos p). unfold round_ratio_Z.
    now rewrite round_ratio_gib_inf.
  - change (Z.abs (Z.neg p)) with (Z.pos p). unfold round_ratio_Z.
    now rewrite round_ratio_gib_inf.
Qed.

(** X1.  [bytes_to_gb] raises [TypeError] on every value that is not a
    number, and on a float it always yields a float.  On an integer or a
    boolean [n] it is the true division of integers: below
    [2^1054 - 2^1000] in absolute value it yields the binary64 value
    nearest to the quotient by 1024^3, and from there on, where the
    quotient is beyond the floats, it raises [OverflowError].  It never
    divides by zero. *)
Theorem bytes_to_gb_outcomes :
  (forall v, non_numeric v = true -> raises TypeError (bytes_to_gb v))
  /\ (forall x, exists y, bytes_to_gb (PFloat x) = Ok (PFloat y))
  /\ (forall v n,
         as_int v = Some n ->
         (Z.abs n < 2 ^ 1054 - 2 ^ 1000 ->
          bytes_to_gb v
          = Ok (PFloat (round_ratio_Z (n <? 0) (Z.abs n) (1024 ^ 3))))
         /\ (2 ^ 1054 - 2 ^ 1000 <= Z.abs n ->
             raises OverflowError (bytes_to_gb v))).
Proof.
  split; [|split].
  - intros v H. now apply truediv_non_numeric.
  - intros x. apply float_truediv_gib.
  - intros v n Hn. unfold bytes_to_gb.
    assert (Hdiv : py_truediv v (PInt (1024 ^ 3))
                   = (let? g := int_truediv n (1024 ^ 3) in Ok (PFloat g))%res).
    { destruct v as [|b|k|x|s|l|d]; try discriminate Hn;
        cbn [py_truediv as_int] in *; now injection Hn as <-. }
    rewrite Hdiv, int_truediv_gib_range.
    split; intros Hq.
    + apply Z.leb_gt in Hq. rewrite Hq. reflexivity.
    + apply Z.leb_le in Hq. rewrite Hq. eexists. reflexivity.
Qed.

Lemma bytes_to_gb_outcomes_witness :
  raises TypeError (bytes_to_gb (PStr "4294967296"))
  /\ bytes_to_gb (PInt 4294967296) = Ok (PFloat (float_of_Z 4))
  /\ bytes_to_gb (PInt (2 ^ 1054 - 2 ^ 1000 - 1))
     = Ok (PFloat (S754_finite false 9007199254740991 971))
  /\ raises OverflowError (bytes_to_gb (PInt (2 ^ 1054 - 2 ^ 1000))).
Proof.
  split; [|split; [|split]].
  - apply (proj1 bytes_to_gb_outcomes (PStr "4294967296")). reflexivity.
  - apply (proj1 (proj2 (proj2 bytes_to_gb_outcomes) (PInt 4294967296)
                    4294967296 eq_refl)).
    vm_compute. reflexivity.
  - apply (proj1 (proj2 (proj2 bytes_to_gb_outcomes)
                    (PInt (2 ^ 1054 - 2 ^ 1000 - 1))
                    (2 ^ 1054 - 2 ^ 1000 - 1) eq_refl)).
    vm_compute. reflexivity.
  - apply (proj2 (proj2 (proj2 bytes_to_gb_outcomes)
                    (PInt (2 ^ 1054 - 2 ^ 1000))
                    (2 ^ 1054 - 2 ^ 1000) eq_refl)).
    vm_compute. discriminate.
Defined.

Lemma display_of_int p n :
  py_int p = Ok n ->
  (exists text, param_size_display p = Ok (PStr (text +:+ " GB")))
  \/ raises OverflowError (param_size_display p).
Proof.
  intros Hn. unfold param_size_display, bytes_to_gb. rewrite Hn.
  cbn [res_bind py_truediv as_int].
  destruct (int_truediv_gib n) as [[y Hy]|[t Ht]].
  - rewrite Hy. left. eexists. reflexivity.
  - rewrite Ht. right. eexists. reflexivity.
Qed.

Lemma display_of_rejected p e :
  py_int p = Raise e ->
  is_ValueError_or_TypeError e = true ->
  param_size_display p = Ok p.
Proof.
  intros Hn He. unfold param_size_display. rewrite Hn. cbn [res_bind].
  now rewrite He.
Qed.

(** X2.  Of the [try] statement of [format_model_details] only an
    [OverflowError] ever escapes: every other failure of the conversion
    ends in the raw value being shown.  A raw value that is [None], a list
    or a dictionary is shown as it is, and whatever is rendered ends in
    " GB". *)
Theorem param_size_display_outcomes :
  (forall p e, param_size_display p = Raise e -> exn_kind_of e = OverflowError)
  /\ (forall p, not_convertible p = true -> param_size_display p = Ok p)
  /\ (forall p out,
         param_size_display p = Ok out ->
         out = p \/ exists text, out = PStr (text +:+ " GB")).
Proof.
  assert (Hcases : forall p,
             param_size_display p = Ok p
             \/ (exists text, param_size_display p = Ok (PStr (text +:+ " GB")))
             \/ raises OverflowError (param_size_display p)).
  { intros p. destruct (py_int p) as [n|e] eqn:Hn.
    - right. now apply (display_of_int p n).
    - destruct (is_ValueError_or_TypeError e) eqn:He.
      + left. now apply (display_of_rejected p e).
      + right. right. unfold param_size_display. rewrite Hn. cbn [res_bind].
        rewrite He.
        destruct p as [|b|k|x|s|l|d]; cbn [py_int] in Hn;
          try discriminate Hn; try (injection Hn as <-; discriminate He).
        * destruct x; try discriminate Hn; injection Hn as <-;
            try discriminate He. eexists. reflexivity.
        * destruct (int_of_string s); [discriminate Hn|].
          injection Hn as <-. discriminate He. }
  split; [|split].
  - intros p e H. destruct (Hcases p) as [H1|[[t H1]|[t H1]]];
      rewrite H1 in H; try discriminate H. now injection H as <-.
  - intros p Hp. destruct p; try discriminate Hp;
      (eapply display_of_rejected; [cbn [py_int]; reflexivity | reflexivity]).
  - intros p out H. destruct (Hcases p) as [H1|[[t H1]|[t H1]]];
      rewrite H1 in H; try discriminate H; injection H as <-; eauto.
Qed.

Lemma param_size_display_outcomes_witness :
  param_size_display (PList [PInt 7]) = Ok (PList [PInt 7])
  /\ exn_kind_of (Exn OverflowError "integer division result too large for a float")
     = OverflowError.
Proof.
  split.
  - apply (proj1 (proj2 param_size_display_outcomes) (PList [PInt 7])).
    reflexivity.
  - apply (proj1 param_size_display_outcomes (PStr huge_count)).
    vm_compute. reflexivity.
Defined.

Lemma format_model_details_of_dict d out :
  format_model_details (PDict d) = Ok out ->
  exists det display size,
    details_of d = Some det
    /\ size_gb (PDict d) = Ok size
    /\ param_size_display (entry_or_empty "parameter_size" det) = Ok display
    /\ out = PDict [("Name", entry_or_empty "name" d);
                    ("Family", entry_or_empty "family" det);
                    ("Parameter Size", display);
                    ("Quantization Level",
                     entry_or_empty "quantization_level" det);
                    ("Size", PStr (py_str size +:+ " GB"))].
Proof.
  unfold format_model_details, details_of, entry_or_empty.
  cbn [py_get res_bind].
  destruct (dict_lookup "details" d) as [v|].
  - destruct v as [| | | | | |det]; cbn [py_get res_bind]; try discriminate.
    destruct (size_gb (PDict d)) as [size|e]; cbn [res_bind]; [|discriminate].
    destruct (param_size_display _) as [display|e] eqn:Hd; cbn [res_bind];
      [|discriminate].
    intros H. injection H as <-. exists det, display, size. auto.
  - cbn [py_get res_bind dict_lookup].
    destruct (size_gb (PDict d)) as [size|e]; cbn [res_bind]; [|discriminate].
    destruct (param_size_display _) as [display|e] eqn:Hd; cbn [res_bind];
      [|discriminate].
    intros H. injection H as <-. exists [], display, size. auto.
Qed.

Lemma format_model_details_not_dict model :
  (forall d, model <> PDict d) ->
  raises AttributeError (format_model_details model).
Proof.
  intros H. destruct model; try (eexists; reflexivity).
  exfalso. now apply (H d).
Qed.

(** X3.  When [format_model_details] succeeds on a model dictionary, the
    result holds exactly the five entries Name, Family, Parameter Size,
    Quantization Level and Size, in this order; Name, Family and
    Quantization Level are the raw entries, or the empty text where one is
    absent, and Size is text that ends in " GB".  A model that is no
    dictionary, or whose "details" entry is present and no dictionary,
    makes it raise [AttributeError]. *)
Theorem format_model_details_shape :
  (forall d out,
      format_model_details (PDict d) = Ok out ->
      exists det display size,
        details_of d = Some det
        /\ size_gb (PDict d) = Ok size
        /\ param_size_display (entry_or_empty "parameter_size" det) = Ok display
        /\ out = PDict [("Name", entry_or_empty "name" d);
                        ("Family", entry_or_empty "family" det);
                        ("Parameter Size", display);
                        ("Quantization Level",
                         entry_or_empty "quantization_level" det);
                        ("Size", PStr (py_str size +:+ " GB"))])
  /\ (forall model,
         (forall d, model <> PDict d) ->
         raises AttributeError (format_model_details model))
  /\ (forall d,
         details_of d = None ->
         raises AttributeError (format_model_details (PDict d))).
Proof.
  split; [exact format_model_details_of_dict|].
  split; [exact format_model_details_not_dict|].
  intros d. unfold details_of, format_model_details. cbn [py_get res_bind].
  destruct (dict_lookup "details" d) as [v|]; [|discriminate].
  destruct v; try discriminate; intros _; eexists; reflexivity.
Qed.

Lemma format_model_details_shape_witness :
  (exists det display size,
      details_of [("name", PStr "foo"); ("size", PInt 1073741824)] = Some det
      /\ size_gb (PDict [("name", PStr "foo"); ("size", PInt 1073741824)])
         = Ok size
      /\ param_size_display (entry_or_empty "parameter_size" det) = Ok display
      /\ PDict [("Name", PStr "foo"); ("Family", PStr "");
                ("Parameter Size", PStr ""); ("Quantization Level", PStr "");
                ("Size", PStr "1.0 GB")]
         = PDict [("Name", entry_or_empty "name"
                             [("name", PStr "foo"); ("size", PInt 1073741824)]);
                  ("Family", entry_or_empty "family" det);
                  ("Parameter Size", display);
                  ("Quantization Level",
                   entry_or_empty "quantization_level" det);
                  ("Size", PStr (py_str size +:+ " GB"))])
  /\ raises AttributeError (format_model_details (PStr "foo"))
  /\ raises AttributeError
       (format_model_details (PDict [("details", PNone); ("size", PInt 1)])).
Proof.
  split; [|split].
  - apply (proj1 format_model_details_shape
             [("name", PStr "foo"); ("size", PInt 1073741824)]).
    vm_compute. reflexivity.
  - apply (proj1 (proj2 format_model_details_shape) (PStr "foo")).
    discriminate.
  - apply (proj2 (proj2 format_model_details_shape)
             [("details", PNone); ("size", PInt 1)]).
    reflexivity.
Defined.

Lemma formatted_is_dict m out :
  format_model_details m = Ok out -> exists items, out = PDict items.
Proof.
  intros H. destruct m; try discriminate H.
  destruct (format_model_details_of_dict _ _ H)
    as (det & display & size & _ & _ & _ & ->).
  eexists. reflexivity.
Qed.

Lemma menu_rows_table ms :
  forall index rows,
    table_from index ms rows -> menu_rows index ms = Ok rows.
Proof.
  induction ms as [|m ms IH]; intros index rows [Hlen Hrows].
  - destruct rows; [reflexivity | discriminate Hlen].
  - destruct rows as [|row rows]; [discriminate Hlen|].
    destruct (Hrows 0%nat m eq_refl) as (out & Hout & Hrow).
    replace (index + Z.of_nat 0) with index in Hrow by lia.
    injection Hrow as ->.
    cbn [menu_rows]. rewrite Hout. cbn [res_bind py_items].
    rewrite (IH (index + 1) rows); [reflexivity|].
    split; [now injection Hlen|].
    intros i m' Hi. destruct (Hrows (S i) m' Hi) as (out' & Hout' & Hrow').
    exists out'. split; [exact Hout'|].
    replace (index + 1 + Z.of_nat i) with (index + Z.of_nat (S i)) by lia.
    exact Hrow'.
Qed.

Lemma table_exists ms :
  forall index,
    (forall m, m ∈ ms -> exists out, format_model_details m = Ok out) ->
    exists rows, table_from index ms rows.
Proof.
  induction ms as [|m ms IH]; intros index Hall.
  - exists []. split; [reflexivity|]. intros i m Hi. discriminate Hi.
  - destruct (Hall m) as [fd Hfd]; [apply list_elem_of_here|].
    destruct (formatted_is_dict m fd Hfd) as [items ->].
    destruct (IH (index + 1)) as (rest & Hlen & Hrest).
    { intros m' Hm'. apply Hall. now apply list_elem_of_further. }
    exists ((PInt index :: List.map snd items) :: rest).
    split; [cbn [length]; now rewrite Hlen|].
    intros i m' Hi. destruct i as [|i].
    + injection Hi as <-. exists items. split; [exact Hfd|].
      replace (index + Z.of_nat 0) with index by lia. reflexivity.
    + destruct (Hrest i m' Hi) as (out & Hout & Hrow).
      exists out. split; [exact Hout|].
      replace (index + Z.of_nat (S i)) with (index + 1 + Z.of_nat i) by lia.
      exact Hrow.
Qed.

Lemma menu_rows_first_failure good :
  forall index m rest e,
    Forall (fun g => exists out, format_model_details g = Ok out) good ->
    format_model_details m = Raise e ->
    menu_rows index (good ++ m :: rest) = Raise e.
Proof.
  induction good as [|g good IH]; intros index m rest e Hall Hm.
  - cbn [app menu_rows]. now rewrite Hm.
  - inversion Hall as [|? ? [fd Hfd] Hgood]; subst.
    destruct (formatted_is_dict g fd Hfd) as [items ->].
    cbn [app menu_rows]. rewrite Hfd. cbn [res_bind py_items].
    now rewrite (IH (index + 1) m rest e Hgood Hm).
Qed.

Lemma print_model_menu_rows ev st ms rows :
  menu_rows 1 ms = Ok rows ->
  print_model_menu (PList ms) ev st
  = print_table menu_headers rows ev (log_event menu_heading st).
Proof.
  intros H. unfold print_model_menu. cbn [py_iter lift]. unfold bind at 1.
  unfold ret at 1. unfold bind at 1. rewrite H. reflexivity.
Qed.

Lemma print_model_menu_raises ev st ms e :
  menu_rows 1 ms = Raise e ->
  print_model_menu (PList ms) ev st = (Exc e, st).
Proof.
  intros H. unfold print_model_menu. cbn [py_iter lift]. unfold bind at 1.
  unfold ret at 1. unfold bind at 1. rewrite H. reflexivity.
Qed.

(** X4.  [print_model_menu] formats every model before it prints
    anything.  When all can be formatted, it prints the heading and hands
    the table library the six headers and one row for each model, in the
    order of the list: the row of the [i]-th model holds the index [i],
    counted from 1, and then the values of its formatted details.  The
    table is printed when the library renders it; when the library raises,
    the exception leaves [print_model_menu] with the heading already
    printed.  When a model cannot be formatted, the exception of the first
    such model is raised and nothing was printed, not even the heading. *)
Theorem print_model_menu_outcomes :
  forall (ev : env) (st : state) (ms : list pyval),
    (forall rows,
        table_from 1 ms rows ->
        (tabulate_fails ev menu_headers rows = None ->
         print_model_menu (PList ms) ev st = (Ret tt, menu_printed rows st))
        /\ (forall e,
               tabulate_fails ev menu_headers rows = Some e ->
               print_model_menu (PList ms) ev st
               = (Exc e, log_event menu_heading st)))
    /\ ((forall m, m ∈ ms -> exists out, format_model_details m = Ok out) ->
        exists rows, table_from 1 ms rows)
    /\ (forall good m rest e,
           ms = good ++ m :: rest ->
           Forall (fun g => exists out, format_model_details g = Ok out) good ->
           format_model_details m = Raise e ->
           print_model_menu (PList ms) ev st = (Exc e, st)).
Proof.
  intros ev st ms. split; [|split].
  - intros rows Htable.
    rewrite (print_model_menu_rows ev st ms rows (menu_rows_table ms 1 rows Htable)).
    unfold print_table. split.
    + intros Hok. now rewrite Hok.
    + intros e He. now rewrite He.
  - apply table_exists.
  - intros good m rest e -> Hgood Hm.
    apply print_model_menu_raises.
    now apply menu_rows_first_failure.
Qed.

Lemma print_model_menu_outcomes_witness :
  print_model_menu (PList [example_model; example_model]) quiet_env
    initial_state
  = (Ret tt, menu_printed example_rows initial_state)
  /\ print_model_menu (PList [example_model; example_model]) no_tables
       initial_state
     = (Exc (Exn OverflowError "int too large to convert to float"),
        log_event menu_heading initial_state)
  /\ print_model_menu (PList [example_model; PDict [("name", PStr "bare")]])
       quiet_env initial_state
     = (Exc (Exn TypeError "unsupported operand type(s) for /: 'str' and 'int'"),
        initial_state).
Proof.
  assert (Htable : table_from 1 [example_model; example_model] example_rows).
  { split; [reflexivity|]. intros i m Hi.
    destruct i as [|[|i]]; [| |discriminate Hi];
      injection Hi as <-; eexists; split; vm_compute; reflexivity. }
  split; [|split].
  - apply (proj1 (proj1 (print_model_menu_outcomes quiet_env initial_state
                           [example_model; example_model])
                    example_rows Htable)).
    reflexivity.
  - apply (proj2 (proj1 (print_model_menu_outcomes no_tables initial_state
                           [example_model; example_model])
                    example_rows Htable)).
    reflexivity.
  - apply (proj2 (proj2 (print_model_menu_outcomes quiet_env initial_state
                           [example_model; PDict [("name", PStr "bare")]]))
             [example_model] (PDict [("name", PStr "bare")]) []).
    + reflexivity.
    + repeat constructor. eexists. vm_compute. reflexivity.
    + vm_compute. reflexivity.
Defined.

(** ** Further properties: reading the console *)

Lemma select_model_no_line fuel models ev st e :
  input_failure (console ev (st_in st)) = Some e ->
  select_model (S fuel) models ev st = (Exc e, after_prompt st).
Proof.
  intros H. cbn [select_model]. unfold bind at 1.
  unfold select_model_round, after_prompt. run_effects.
  cbn [st_in log_event].
  destruct (console ev (st_in st)); [discriminate H| |];
    injection H as <-; reflexivity.
Qed.

(** X5.  [select_model] asks again only after a line it rejects.  When
    the console has no further line, the [EOFError] of [input] (or the
    interrupt) is not caught by [except ValueError]: it leaves
    [select_model], whatever the list of models and however many rejected
    lines came before. *)
Theorem select_model_console_ends :
  (forall (fuel : nat) (models : pyval) (ev : env) (st : state) (e : exn),
      input_failure (console ev (st_in st)) = Some e ->
      select_model (S fuel) models ev st = (Exc e, after_prompt st))
  /\ (forall (ev : env) (ms : list pyval) (k : nat) (st : state) (e : exn),
         rejected_lines ev ms (st_in st) k ->
         input_failure (console ev (st_in st + k)) = Some e ->
         exists st',
           st_in st' = (st_in st + k + 1)%nat
           /\ forall fuel,
               select_model (S k + fuel) (PList ms) ev st = (Exc e, st')).
Proof.
  split; [exact select_model_no_line|].
  intros ev ms k. induction k as [|k IH]; intros st e Hl He.
  - rewrite Nat.add_0_r in He. exists (after_prompt st).
    split; [cbn; lia|]. intros fuel. now apply select_model_no_line.
  - destruct (Hl 0%nat) as (t & Ht & Hrt); [lia|]. rewrite Nat.add_0_r in Ht.
    destruct (IH (after_rejection t st) e) as (st' & Hi & Hs).
    + intros j Hj. destruct (Hl (S j)) as (u & Hu & Hru); [lia|].
      exists u. split; [|exact Hru].
      cbn [after_rejection after_prompt log_event next_input st_in].
      rewrite <- Hu. f_equal. lia.
    + cbn [after_rejection after_prompt log_event next_input st_in].
      rewrite <- He. do 2 f_equal. lia.
    + exists st'. split; [rewrite Hi; cbn; lia|].
      intros fuel. change (S (S k) + fuel)%nat with (S (S k + fuel)).
      rewrite (select_model_rejects (S k + fuel) ev st ms t Ht Hrt).
      apply Hs.
Qed.

Lemma select_model_console_ends_witness :
  exists st',
    st_in st' = (st_in initial_state + 2 + 1)%nat
    /\ forall fuel,
        select_model (3 + fuel) (PList three_models)
          (console_env ["abc"; "7"]) initial_state
        = (Exc end_of_file, st').
Proof.
  apply (proj2 select_model_console_ends
           (console_env ["abc"; "7"]) three_models 2%nat initial_state).
  - intros j Hj. destruct j as [|[|j]]; [| |lia].
    + exists "abc". split; vm_compute; reflexivity.
    + exists "7". split; vm_compute; reflexivity.
  - reflexivity.
Defined.

(** X6.  When the five lines read as a float, an integer, an integer, a
    float and a float, [get_user_parameters] returns the dictionary of the
    five values under the keys temperature, num_ctx, top_k, top_p and
    min_p, in this order, having shown its five prompts and consumed
    exactly these five lines.  No range is checked. *)
Theorem get_user_parameters_reads_five :
  forall (ev : env) (st : state) (l0 l1 l2 l3 l4 : string)
         (temperature top_p min_p : spec_float) (num_ctx top_k : Z),
    console ev (st_in st) = Line l0 ->
    console ev (st_in st + 1) = Line l1 ->
    console ev (st_in st + 2) = Line l2 ->
    console ev (st_in st + 3) = Line l3 ->
    console ev (st_in st + 4) = Line l4 ->
    float_of_string l0 = Some temperature ->
    int_of_string l1 = Some num_ctx ->
    int_of_string l2 = Some top_k ->
    float_of_string l3 = Some top_p ->
    float_of_string l4 = Some min_p ->
    get_user_parameters ev st
    = (Ret (parameters_of temperature num_ctx top_k top_p min_p),
       after_reads parameter_prompts st).
Proof.
  intros ev st l0 l1 l2 l3 l4 t p m n k H0 H1 H2 H3 H4 P0 P1 P2 P3 P4.
  repeat rewrite Nat.add_succ_r in H1. repeat rewrite Nat.add_succ_r in H2.
  repeat rewrite Nat.add_succ_r in H3. repeat rewrite Nat.add_succ_r in H4.
  rewrite Nat.add_0_r in H1, H2, H3, H4.
  unfold get_user_parameters, input_float, input_int.
  erewrite bind_ret; [|erewrite bind_ret; [|apply input_line; exact H0];
                       unfold py_float_of_text; rewrite P0; reflexivity].
  erewrite bind_ret; [|erewrite bind_ret; [|apply input_line; exact H1];
                       cbn [py_int]; rewrite P1; reflexivity].
  erewrite bind_ret; [|erewrite bind_ret; [|apply input_line; exact H2];
                       cbn [py_int]; rewrite P2; reflexivity].
  erewrite bind_ret; [|erewrite bind_ret; [|apply input_line; exact H3];
                       unfold py_float_of_text; rewrite P3; reflexivity].
  erewrite bind_ret; [|erewrite bind_ret; [|apply input_line; exact H4];
                       unfold py_float_of_text; rewrite P4; reflexivity].
  reflexivity.
Qed.

Lemma get_user_parameters_reads_five_witness :
  get_user_parameters (console_env ["-0.7"; "2048"; " 50 "; "9e-1"; ".01"])
    initial_state
  = (Ret (parameters_of (float_literal "-0.7") 2048 50 (float_literal "0.9")
            (float_literal "0.01")),
     after_reads parameter_prompts initial_state).
Proof.
  apply (get_user_parameters_reads_five
           (console_env ["-0.7"; "2048"; " 50 "; "9e-1"; ".01"]) initial_state
           "-0.7" "2048" " 50 " "9e-1" ".01");
    vm_compute; reflexivity.
Defined.

(** ** Further properties: the model file and the creation tool *)

(** X7.  The ways [write_to_model_file] fails.  When the file cannot be
    opened, the exception of [open] leaves the function and no file is
    changed.  When the parameters are no dictionary, the declaration line
    is written first, then [AttributeError] leaves the function, and the
    file is left closed, holding that one line.  A name or a base model
    [str] does not render (an integer of more than 4300 digits) raises
    [ValueError]: for the name before anything is opened, for the base
    model with the file left closed and empty. *)
Theorem write_to_model_file_failures :
  (forall (ev : env) (st : state) (name : string) (base parameters : pyval)
          (e : exn),
      open_fails ev (st_sys st) name = Some e ->
      write_to_model_file (PStr name) base parameters ev st = (Exc e, tick st))
  /\ (forall (ev : env) (st : state) (name : string) (base parameters : pyval),
         open_fails ev (st_sys st) name = None ->
         has_text base = true ->
         (forall d, parameters <> PDict d) ->
         exists text,
           write_to_model_file (PStr name) base parameters ev st
           = (Exc (Exn AttributeError text),
              set_fs (<[name := closed_file (model_file_text base [])]>
                        (st_fs st)) (tick st)))
  /\ (forall (ev : env) (st : state) (name : string) (base parameters : pyval),
         open_fails ev (st_sys st) name = None ->
         has_text base = false ->
         write_to_model_file (PStr name) base parameters ev st
         = (Exc digit_limit_error,
            set_fs (<[name := closed_file ""]> (st_fs st)) (tick st)))
  /\ (forall (ev : env) (st : state) (model_name base parameters : pyval),
         has_text model_name = false ->
         write_to_model_file model_name base parameters ev st
         = (Exc digit_limit_error, st)).
Proof.
  split; [|split; [|split]].
  - intros ev st name base parameters e Hopen.
    unfold write_to_model_file.
    change (py_format (PStr name)) with (Ok name). cbn [lift].
    unfold bind at 1. unfold ret at 1.
    now apply with_open_fails.
  - intros ev st name base parameters Hopen Hb Hnd.
    rewrite (write_to_model_file_opens ev st (PStr name) base _ eq_refl
               Hopen Hb).
    cbn [py_str].
    assert (Hitems : exists text,
               py_items parameters = Raise (Exn AttributeError text)).
    { destruct parameters; try (eexists; reflexivity).
      exfalso. now apply (Hnd d). }
    destruct Hitems as [text Htext]. exists text.
    unfold finally. unfold bind at 1. rewrite Htext. cbn [lift raise].
    rewrite (file_close_open ev _ name
               {| f_data := "";
                  f_buf := "FROM " +:+ py_str base +:+ nl;
                  f_open := true |});
      [|cbn; apply lookup_insert_eq | reflexivity].
    unfold set_fs, tick.
    cbn [st_in st_http st_chat st_sys st_trace st_fs f_data f_buf].
    rewrite !insert_insert_eq. unfold model_file_text.
    cbn [List.map concat_strings String.append]. now rewrite append_nil_r.
  - intros ev st name base parameters Hopen Hb.
    unfold write_to_model_file.
    change (py_format (PStr name)) with (Ok name). cbn [lift].
    unfold bind at 1. unfold ret at 1. unfold with_open.
    unfold bind at 1. unfold open_w at 1, sys_call. rewrite Hopen.
    unfold finally. rewrite (py_format_no_text base Hb). cbn [lift].
    unfold bind at 1. unfold raise at 1.
    rewrite (file_close_open ev _ name
               {| f_data := ""; f_buf := ""; f_open := true |});
      [|cbn; apply lookup_insert_eq | reflexivity].
    unfold set_fs, tick.
    cbn [st_in st_http st_chat st_sys st_trace st_fs f_data f_buf].
    rewrite !insert_insert_eq. reflexivity.
  - intros ev st model_name base parameters Hn.
    unfold write_to_model_file. rewrite (py_format_no_text _ Hn).
    reflexivity.
Qed.

Lemma write_to_model_file_failures_witness :
  (exists text,
      write_to_model_file (PStr "bar") (PStr "llama2") PNone quiet_env
        initial_state
      = (Exc (Exn AttributeError text),
         set_fs (<["bar" := closed_file (model_file_text (PStr "llama2") [])]>
                   (st_fs initial_state)) (tick initial_state)))
  /\ write_to_model_file (PStr "bar") (PInt (10 ^ 4300)) PNone quiet_env
       initial_state
     = (Exc digit_limit_error,
        set_fs (<["bar" := closed_file ""]> (st_fs initial_state))
          (tick initial_state))
  /\ write_to_model_file (PInt (- 10 ^ 4300)) (PStr "llama2") PNone quiet_env
       initial_state
     = (Exc digit_limit_error, initial_state).
Proof.
  split; [|split].
  - apply (proj1 (proj2 write_to_model_file_failures) quiet_env initial_state
             "bar" (PStr "llama2")).
    + reflexivity.
    + reflexivity.
    + discriminate.
  - apply (proj1 (proj2 (proj2 write_to_model_file_failures)) quiet_env
             initial_state "bar").
    + reflexivity.
    + vm_compute. reflexivity.
  - apply (proj2 (proj2 (proj2 write_to_model_file_failures))).
    vm_compute. reflexivity.
Defined.

Lemma create_model_outcome ev st model_name config_file :
  create_ollama_model_with_config model_name config_file ev st
  = match tool_fails ev (st_sys st) (create_command model_name config_file) with
    | Some e =>
        if is_Exception e
        then (Ret tt,
              log_event (creation_report model_name (Some e))
                (tool_started model_name config_file st))
        else (Exc e, tool_started model_name config_file st)
    | None =>
        (Ret tt,
         log_event (creation_report model_name None)
           (tool_started model_name config_file st))
    end.
Proof.
  unfold create_ollama_model_with_config, catch, subprocess_run.
  unfold bind at 1. unfold bind at 1. unfold emit at 1. unfold sys_call.
  cbn [st_sys log_event]. fold (create_command model_name config_file).
  destruct (tool_fails ev (st_sys st) (create_command model_name config_file))
    as [e|]; [|reflexivity].
  destruct (is_Exception e); reflexivity.
Qed.

(** X8.  [create_ollama_model_with_config] runs "ollama create <name> -f
    <file>" once and prints one line: the success message when the tool
    succeeds, "Error creating model: <error>" when the run raises an
    exception.  In both cases it returns: no exception of the tool reaches
    the menu (only an interrupt passes), and no file is touched. *)
Theorem create_ollama_model_with_config_reports :
  forall (ev : env) (st : state) (model_name config_file : string),
    (tool_fails ev (st_sys st) (create_command model_name config_file) = None ->
     create_ollama_model_with_config model_name config_file ev st
     = (Ret tt,
        log_event (creation_report model_name None)
          (tool_started model_name config_file st)))
    /\ (forall e,
           tool_fails ev (st_sys st) (create_command model_name config_file)
           = Some e ->
           is_Exception e = true ->
           create_ollama_model_with_config model_name config_file ev st
           = (Ret tt,
              log_event (creation_report model_name (Some e))
                (tool_started model_name config_file st)))
    /\ (forall r st',
           create_ollama_model_with_config model_name config_file ev st
           = (r, st') ->
           st_fs st' = st_fs st
           /\ (r = Ret tt \/ exists e, r = Exc e /\ is_Exception e = false)).
Proof.
  intros ev st model_name config_file.
  rewrite (create_model_outcome ev st model_name config_file).
  split; [|split].
  - intros H. now rewrite H.
  - intros e H He. now rewrite H, He.
  - intros r st'.
    destruct (tool_fails ev (st_sys st) (create_command model_name config_file))
      as [e|].
    + destruct (is_Exception e) eqn:He; intros H; injection H as <- <-;
        (split; [reflexivity|]); [now left | right; eauto].
    + intros H. injection H as <- <-. split; [reflexivity | now left].
Qed.

Lemma create_ollama_model_with_config_reports_witness :
  create_ollama_model_with_config "copy" "copy.modelfile" quiet_env
    initial_state
  = (Ret tt,
     log_event (creation_report "copy" None)
       (tool_started "copy" "copy.modelfile" initial_state)).
Proof.
  apply (proj1 (create_ollama_model_with_config_reports quiet_env initial_state
                  "copy" "copy.modelfile")).
  reflexivity.
Defined.

(** ** Further properties: the menus *)

Lemma secondary_menu_asks {A} ev st choice (k : string -> M A) :
  console ev (st_in st) = Line choice ->
  (print (nl +:+ "Secondary Menu:") ;;
   print "1. Run Model" ;;
   print "2. Show Model Details" ;;
   print "3. Copy Model" ;;
   print "4. Back to Main Menu" ;;
   print "5. Exit" ;;
   let! choice := input "Enter your choice (1/2/3/4): " in k choice)%py ev st
  = k choice ev (menu_answered st).
Proof.
  intros Hc.
  do 6 (unfold bind at 1; unfold print at 1, emit at 1).
  erewrite bind_ret; [|apply input_line; exact Hc]. reflexivity.
Qed.

Lemma secondary_menu_back fuel sel ev st :
  console ev (st_in st) = Line "4" ->
  secondary_menu (S fuel) sel ev st = (Ret PNone, menu_answered st).
Proof.
  intros Hc. cbn [secondary_menu].
  now rewrite (secondary_menu_asks ev st "4" _ Hc).
Qed.

Lemma secondary_menu_exit fuel sel ev st :
  console ev (st_in st) = Line "5" ->
  secondary_menu (S fuel) sel ev st = (Ret (PInt (-1)), menu_answered st).
Proof.
  intros Hc. cbn [secondary_menu].
  now rewrite (secondary_menu_asks ev st "5" _ Hc).
Qed.

Lemma secondary_menu_complains fuel sel ev st choice :
  console ev (st_in st) = Line choice ->
  recognised choice = false ->
  secondary_menu (S fuel) sel ev st
  = secondary_menu fuel sel ev (log_event invalid_option (menu_answered st)).
Proof.
  intros Hc Hr. cbn [secondary_menu].
  rewrite (secondary_menu_asks ev st choice _ Hc).
  unfold recognised in Hr.
  repeat (apply orb_false_elim in Hr as [Hr ?]).
  repeat match goal with H : String.eqb choice _ = false |- _ =>
                   rewrite H; clear H end.
  reflexivity.
Qed.

Lemma main_loop_enters fuel check ev st :
  py_eq check (PInt (-1)) = false ->
  main_loop (S fuel) check ev st = main (S fuel) ev st.
Proof.
  intros H. unfold main. cbn [main_loop]. rewrite H. reflexivity.
Qed.

Lemma main_reaches_menu fuel ev st models st1 st2 sel st3 :
  get_installed_models ev st = (Ret models, st1) ->
  truthy models = true ->
  print_model_menu models ev st1 = (Ret tt, st2) ->
  select_model fuel models ev st2 = (Ret sel, st3) ->
  main (S fuel) ev st
  = (let! check := secondary_menu fuel sel in main_loop fuel check)%py ev st3.
Proof.
  intros Hg Ht Hp Hs. unfold main. cbn [main_loop py_eq as_int].
  change (negb (0 =? -1)) with true. cbv iota.
  rewrite (bind_ret _ _ _ _ _ _ Hg). rewrite Ht. cbn [negb].
  rewrite (bind_ret _ _ _ _ _ _ Hp).
  now rewrite (bind_ret _ _ _ _ _ _ Hs).
Qed.

(** X9.  Once a model is selected, the choice "5" ends the program:
    [secondary_menu] returns -1 and [main] returns without another request
    or question.  The choice "4" returns [None], and [main] starts over:
    what follows is what [main] does from that state, beginning with a new
    request for the catalog. *)
Theorem main_exit_and_back :
  forall (fuel : nat) (ev : env) (st : state) (models : pyval)
         (st1 st2 : state) (sel : pyval) (st3 : state),
    get_installed_models ev st = (Ret models, st1) ->
    truthy models = true ->
    print_model_menu models ev st1 = (Ret tt, st2) ->
    select_model (S fuel) models ev st2 = (Ret sel, st3) ->
    (console ev (st_in st3) = Line "5" ->
     secondary_menu (S fuel) sel ev st3 = (Ret (PInt (-1)), menu_answered st3)
     /\ main (S (S fuel)) ev st = (Ret tt, menu_answered st3))
    /\ (console ev (st_in st3) = Line "4" ->
        secondary_menu (S fuel) sel ev st3 = (Ret PNone, menu_answered st3)
        /\ main (S (S fuel)) ev st = main (S fuel) ev (menu_answered st3)).
Proof.
  intros fuel ev st models st1 st2 sel st3 Hg Ht Hp Hs.
  rewrite (main_reaches_menu (S fuel) ev st models st1 st2 sel st3 Hg Ht Hp Hs).
  split; intros Hc.
  - pose proof (secondary_menu_exit fuel sel ev st3 Hc) as Hm.
    split; [exact Hm|]. now rewrite (bind_ret _ _ _ _ _ _ Hm).
  - pose proof (secondary_menu_back fuel sel ev st3 Hc) as Hm.
    split; [exact Hm|]. rewrite (bind_ret _ _ _ _ _ _ Hm).
    now apply main_loop_enters.
Qed.

Lemma main_exit_and_back_witness :
  secondary_menu 2 example_model leaving_session model_picked
  = (Ret (PInt (-1)), menu_answered model_picked)
  /\ main 3 leaving_session initial_state = (Ret tt, menu_answered model_picked).
Proof.
  apply (proj1 (main_exit_and_back 1%nat leaving_session initial_state
                  (PList [example_model]) (after_request initial_state)
                  (snd (print_model_menu (PList [example_model]) leaving_session
                          (after_request initial_state)))
                  example_model model_picked
                  ltac:(vm_compute; reflexivity) ltac:(reflexivity)
                  ltac:(vm_compute; reflexivity)
                  ltac:(vm_compute; reflexivity))).
  reflexivity.
Defined.

(** X10.  A choice other than "1", "2", "3", "4" and "5" (the empty line
    and " 1" among them: the comparison is exact) makes [secondary_menu]
    print "Invalid option. Please try again." and show the menu again for
    the same model; it changes no file, and however many such choices come
    first, the first recognised one is acted on. *)
Theorem secondary_menu_repeats_on_invalid_option :
  (forall (fuel : nat) (sel : pyval) (ev : env) (st : state) (choice : string),
      console ev (st_in st) = Line choice ->
      recognised choice = false ->
      secondary_menu (S fuel) sel ev st
      = secondary_menu fuel sel ev
          (log_event invalid_option (menu_answered st)))
  /\ (forall (k fuel : nat) (sel : pyval) (ev : env) (st : state),
         unrecognised_lines ev (st_in st) k ->
         secondary_menu (k + fuel) sel ev st
         = secondary_menu fuel sel ev (after_complaints k st)
         /\ st_in (after_complaints k st) = (st_in st + k)%nat
         /\ st_fs (after_complaints k st) = st_fs st)
  /\ recognised "" = false /\ recognised " 1" = false
  /\ recognised "exit" = false.
Proof.
  split; [exact secondary_menu_complains|].
  split; [|repeat split; reflexivity].
  induction k as [|k IH]; intros fuel sel ev st Hl.
  - cbn [Nat.add after_complaints]. split; [reflexivity|].
    split; [lia | reflexivity].
  - destruct (Hl 0%nat) as (t & Ht & Hrt); [lia|]. rewrite Nat.add_0_r in Ht.
    destruct (IH fuel sel ev (log_event invalid_option (menu_answered st)))
      as (Hs & Hi & Hf).
    { intros j Hj. destruct (Hl (S j)) as (u & Hu & Hru); [lia|].
      exists u. split; [|exact Hru]. rewrite <- Hu. cbn. f_equal. lia. }
    cbn [Nat.add after_complaints].
    rewrite (secondary_menu_complains (k + fuel) sel ev st t Ht Hrt).
    split; [exact Hs|]. split; [rewrite Hi; cbn; lia | rewrite Hf; reflexivity].
Qed.

Lemma secondary_menu_repeats_on_invalid_option_witness :
  secondary_menu (2 + 1) example_model (console_env [""; "run"; "5"])
    initial_state
  = secondary_menu 1 example_model (console_env [""; "run"; "5"])
      (after_complaints 2 initial_state)
  /\ st_in (after_complaints 2 initial_state) = (st_in initial_state + 2)%nat
  /\ st_fs (after_complaints 2 initial_state) = st_fs initial_state.
Proof.
  apply (proj1 (proj2 secondary_menu_repeats_on_invalid_option) 2%nat 1%nat
           example_model (console_env [""; "run"; "5"]) initial_state).
  intros j Hj. destruct j as [|[|j]]; [| |lia].
  - exists "". split; reflexivity.
  - exists "run". split; reflexivity.
Defined.

Lemma digit_val_range c : is_digit c = true -> 0 <= digit_val c <= 9.
Proof.
  unfold is_digit, digit_val. intros H.
  apply andb_true_iff in H as [H1 H2]. apply Z.leb_le in H1, H2. lia.
Qed.

Lemma read_digits_bound s :
  forall acc cnt v c r,
    0 <= cnt ->
    0 <= acc < 10 ^ cnt ->
    read_digits s acc cnt = (v, c, r) ->
    cnt <= c /\ 0 <= v < 10 ^ c.
Proof.
  induction s as [|ch s IH]; intros acc cnt v c r Hc Ha H;
    cbn [read_digits] in H.
  - injection H as <- <- <-. lia.
  - destruct (is_digit ch) eqn:Hd.
    + apply IH in H; [lia | lia |].
      pose proof (digit_val_range ch Hd) as Hv.
      rewrite Z.pow_add_r, Z.pow_1_r by lia.
      set (P := 10 ^ cnt) in *. lia.
    + injection H as <- <- <-. lia.
Qed.

(** What [int] reads, [str] renders. *)
Lemma int_of_string_has_text s n :
  int_of_string s = Some n -> int_has_text n = true.
Proof.
  unfold int_of_string, int_has_text.
  destruct (read_sign (strip s)) as [neg body].
  destruct (underscores_ok None body); [|discriminate].
  destruct (read_digits (remove_underscores body) 0 0) as [[v cnt] r] eqn:Hr.
  destruct r; [|discriminate].
  destruct ((0 <? cnt) && (cnt <=? int_max_str_digits)) eqn:Hc; [|discriminate].
  intros H. injection H as <-.
  apply andb_true_iff in Hc as [_ Hc]. apply Z.leb_le in Hc.
  apply read_digits_bound in Hr as [_ Hv];
    [|lia | change (10 ^ 0) with 1; lia].
  apply Z.ltb_lt.
  apply Z.lt_le_trans with (10 ^ cnt);
    [destruct neg; lia | apply Z.pow_le_mono_r; lia].
Qed.

Lemma copied_model_file_text base t n k p m :
  model_file_text base
    [("temperature", PFloat t); ("num_ctx", PInt n); ("top_k", PInt k);
     ("top_p", PFloat p); ("min_p", PFloat m)]
  = copied_model_file (py_str base) t n k p m.
Proof.
  unfold model_file_text, copied_model_file.
  cbn [List.map concat_strings fst snd py_str py_repr].
  rewrite append_nil_r, !append_assoc. reflexivity.
Qed.

(** X11.  In the "Copy Model" branch, when the name and five readable
    values were typed, the selected model has a name [str] renders and the
    file can be opened, [secondary_menu] leaves in "<new name>.modelfile"
    the declaration of the selected model and the five parameters in the
    order asked, each with the value read from the line typed for it, runs
    the creation tool on that file, prints the tool's outcome and shows the
    menu again.  A failure of the tool that is an [Exception] (anything
    but an interrupt) does not end the menu. *)
Theorem secondary_menu_copies_the_model :
  forall (fuel : nat) (sel : pyval) (ev : env) (st : state)
         (new_model_name l0 l1 l2 l3 l4 : string) (base : pyval)
         (temperature top_p min_p : spec_float) (num_ctx top_k : Z),
    console ev (st_in st) = Line "3" ->
    console ev (st_in st + 1) = Line new_model_name ->
    console ev (st_in st + 2) = Line l0 ->
    console ev (st_in st + 3) = Line l1 ->
    console ev (st_in st + 4) = Line l2 ->
    console ev (st_in st + 5) = Line l3 ->
    console ev (st_in st + 6) = Line l4 ->
    float_of_string l0 = Some temperature ->
    int_of_string l1 = Some num_ctx ->
    int_of_string l2 = Some top_k ->
    float_of_string l3 = Some top_p ->
    float_of_string l4 = Some min_p ->
    py_getitem_str sel "name" = Ok base ->
    has_text base = true ->
    open_fails ev (st_sys st) (new_model_name +:+ ".modelfile") = None ->
    (forall e,
        tool_fails ev (S (st_sys st))
          (create_command new_model_name (new_model_name +:+ ".modelfile"))
        = Some e -> is_Exception e = true) ->
    secondary_menu (S fuel) sel ev st
    = secondary_menu fuel sel ev
        (copy_done ev new_model_name
           (copied_model_file (py_str base) temperature num_ctx top_k top_p
              min_p) st).
Proof.
  intros fuel sel ev st name l0 l1 l2 l3 l4 base t p m n k
         Hc Hn H0 H1 H2 H3 H4 P0 P1 P2 P3 P4 Hbase Hb Hopen Htool.
  repeat rewrite Nat.add_succ_r in Hn. repeat rewrite Nat.add_succ_r in H0.
  repeat rewrite Nat.add_succ_r in H1. repeat rewrite Nat.add_succ_r in H2.
  repeat rewrite Nat.add_succ_r in H3. repeat rewrite Nat.add_succ_r in H4.
  rewrite Nat.add_0_r in Hn, H0, H1, H2, H3, H4.
  cbn [secondary_menu].
  rewrite (secondary_menu_asks ev st "3" _ Hc).
  change (String.eqb "3" "1") with false.
  change (String.eqb "3" "2") with false.
  change (String.eqb "3" "3") with true. cbv iota.
  erewrite bind_ret; [|apply input_line; exact Hn].
  erewrite bind_ret;
    [|apply (get_user_parameters_reads_five ev _ l0 l1 l2 l3 l4 t p m n k);
      cbn [st_in menu_answered after_read next_input log_event menu_shown
           fold_left menu_lines];
      repeat rewrite Nat.add_succ_r; rewrite ?Nat.add_0_r; eassumption].
  rewrite Hbase. cbn [lift]. unfold bind at 1. unfold ret at 1.
  unfold parameters_of.
  erewrite bind_ret;
    [|apply (write_to_model_file_writes ev _ (PStr (name +:+ ".modelfile")));
      [reflexivity | exact Hopen | exact Hb
      |repeat constructor; cbn [snd has_text];
       eauto using int_of_string_has_text]].
  cbn [py_str].
  rewrite copied_model_file_text.
  unfold bind at 1.
  rewrite (create_model_outcome ev _ name (name +:+ ".modelfile")).
  unfold copy_done, file_written.
  cbn [st_sys set_fs tick after_reads parameter_prompts name_asked after_read
       menu_answered next_input log_event menu_shown fold_left menu_lines].
  destruct (tool_fails ev (S (st_sys st))
              (create_command name (name +:+ ".modelfile"))) as [e|] eqn:Ht;
    [rewrite (Htool e eq_refl)|]; reflexivity.
Qed.

Lemma secondary_menu_copies_the_model_witness :
  secondary_menu 2 example_model copying_session initial_state
  = secondary_menu 1 example_model copying_session
      (copy_done copying_session "copy"
         ("FROM foo" +:+ nl
          +:+ "PARAMETER temperature 0.7" +:+ nl
          +:+ "PARAMETER num_ctx 2048" +:+ nl
          +:+ "PARAMETER top_k 50" +:+ nl
          +:+ "PARAMETER top_p 0.9" +:+ nl
          +:+ "PARAMETER min_p 0.01" +:+ nl) initial_state).
Proof.
  apply (secondary_menu_copies_the_model 1%nat example_model copying_session
           initial_state "copy" "0.7" "2048" "50" "0.9" "0.01" (PStr "foo")
           (float_literal "0.7") (float_literal "0.9") (float_literal "0.01")
           2048 50);
    try (vm_compute; reflexivity).
  intros e H. discriminate H.
Defined.

Lemma main_says_no_models fuel ev st models st1 :
  get_installed_models ev st = (Ret models, st1) ->
  truthy models = false ->
  main (S fuel) ev st = (Ret tt, log_event no_models_found st1).
Proof.
  intros Hg Ht. unfold main. cbn [main_loop py_eq as_int].
  change (negb (0 =? -1)) with true. cbv iota.
  rewrite (bind_ret _ _ _ _ _ _ Hg). rewrite Ht. reflexivity.
Qed.

(** X12.  When the catalog is empty, [main] prints "No models found." and
    returns without asking anything at the console.  This is what happens
    when the fetch returns any value Python takes for false, when the
    server answers with a status other than 200 (after the failure
    message), and when a response with status 200 has no "models" entry. *)
Theorem main_without_models :
  (forall (fuel : nat) (ev : env) (st : state) (models : pyval) (st1 : state),
      get_installed_models ev st = (Ret models, st1) ->
      truthy models = false ->
      main (S fuel) ev st = (Ret tt, log_event no_models_found st1))
  /\ (forall (fuel : nat) (ev : env) (st : state) (r : http_response),
         http ev (st_http st) = Ok r ->
         status_code r <> 200 ->
         main (S fuel) ev st
         = (Ret tt,
            log_event no_models_found
              (log_event (retrieval_failed (status_code r)) (after_request st))))
  /\ (forall (fuel : nat) (ev : env) (st : state) (d : list (string * pyval)),
         http ev (st_http st)
         = Ok {| status_code := 200; json := Ok (PDict d) |} ->
         dict_lookup "models" d = None ->
         main (S fuel) ev st
         = (Ret tt, log_event no_models_found (after_request st))).
Proof.
  split; [exact main_says_no_models|]. split.
  - intros fuel ev st r Hh Hs.
    apply (main_says_no_models fuel ev st (PList []));
      [now apply get_installed_models_status | reflexivity].
  - intros fuel ev st d Hh Hd.
    apply (main_says_no_models fuel ev st (PList [])); [|reflexivity].
    apply (get_installed_models_ok ev st (PDict d)); [exact Hh|].
    cbn [py_get]. now rewrite Hd.
Qed.

Lemma main_without_models_witness :
  main 1 (server_env (Ok {| status_code := 404; json := Ok PNone |}))
    initial_state
  = (Ret tt,
     log_event no_models_found
       (log_event (retrieval_failed 404) (after_request initial_state))).
Proof.
  apply (proj1 (proj2 main_without_models) 0%nat
           (server_env (Ok {| status_code := 404; json := Ok PNone |}))
           initial_state {| status_code := 404; json := Ok PNone |});
    [reflexivity | discriminate].
Defined.

(** X13.  On a response with status 200, [get_installed_models] returns
    whatever the body binds to "models", a list or not; when the body
    cannot be decoded it raises the decoder's exception, and when the body
    is no object it raises [AttributeError].  Nothing is printed in these
    cases, and [main] ends with the exception. *)
Theorem get_installed_models_on_success_status :
  (forall (ev : env) (st : state) (d : list (string * pyval)) (v : pyval),
      http ev (st_http st) = Ok {| status_code := 200; json := Ok (PDict d) |} ->
      dict_lookup "models" d = Some v ->
      get_installed_models ev st = (Ret v, after_request st))
  /\ (forall (ev : env) (st : state) (e : exn),
         http ev (st_http st) = Ok {| status_code := 200; json := Raise e |} ->
         get_installed_models ev st = (Exc e, after_request st)
         /\ forall fuel, main (S fuel) ev st = (Exc e, after_request st))
  /\ (forall (ev : env) (st : state) (body : pyval),
         http ev (st_http st) = Ok {| status_code := 200; json := Ok body |} ->
         (forall d, body <> PDict d) ->
         exists text,
           get_installed_models ev st
           = (Exc (Exn AttributeError text), after_request st)
           /\ forall fuel,
               main (S fuel) ev st
               = (Exc (Exn AttributeError text), after_request st)).
Proof.
  split; [|split].
  - intros ev st d v Hh Hd.
    apply (get_installed_models_ok ev st (PDict d)); [exact Hh|].
    cbn [py_get]. now rewrite Hd.
  - intros ev st e Hh.
    assert (H : get_installed_models ev st = (Exc e, after_request st)).
    { unfold get_installed_models, requests_get, bind, emit.
      cbn [st_http log_event]. rewrite Hh. reflexivity. }
    split; [exact H|]. intros fuel. now apply main_fetch_raises.
  - intros ev st body Hh Hb.
    assert (Hget : exists text,
               py_get body "models" (PList [])
               = Raise (Exn AttributeError text)).
    { destruct body; try (eexists; reflexivity). exfalso. now apply (Hb d). }
    destruct Hget as [text Htext]. exists text.
    assert (H : get_installed_models ev st
                = (Exc (Exn AttributeError text), after_request st)).
    { unfold get_installed_models, requests_get, bind, emit.
      cbn [st_http log_event]. rewrite Hh. cbn [status_code json lift ret].
      rewrite Htext. reflexivity. }
    split; [exact H|]. intros fuel. now apply main_fetch_raises.
Qed.

Lemma get_installed_models_on_success_status_witness :
  get_installed_models
    (server_env (Ok {| status_code := 200;
                       json := Ok (PDict [("models", PStr "none")]) |}))
    initial_state
  = (Ret (PStr "none"), after_request initial_state)
  /\ exists text,
      get_installed_models
        (server_env (Ok {| status_code := 200; json := Ok (PList []) |}))
        initial_state
      = (Exc (Exn AttributeError text), after_request initial_state)
      /\ forall fuel,
          main (S fuel)
            (server_env (Ok {| status_code := 200; json := Ok (PList []) |}))
            initial_state
          = (Exc (Exn AttributeError text), after_request initial_state).
Proof.
  split.
  - apply (proj1 get_installed_models_on_success_status
             (server_env (Ok {| status_code := 200;
                                json := Ok (PDict [("models", PStr "none")]) |}))
             initial_state [("models", PStr "none")]);
      reflexivity.
  - apply (proj2 (proj2 get_installed_models_on_success_status)
             (server_env (Ok {| status_code := 200; json := Ok (PList []) |}))
             initial_state (PList []));
      [reflexivity | discriminate].
Defined.

(** ** Further properties: chat sessions *)

Lemma step_refl log st : log_open log st -> step log "" [] 0 0 st st.
Proof.
  intros Ho. split; [exact Ho|].
  split; [now rewrite append_nil_r|]. split; [now rewrite app_nil_r|].
  split; lia.
Qed.

Lemma last_of_cons (l : list string) :
  forall a d d', List.last (a :: l) d = List.last (a :: l) d'.
Proof.
  induction l as [|b l IH]; intros a d d'; [reflexivity|].
  change (List.last (b :: l) d = List.last (b :: l) d'). apply IH.
Qed.

Lemma run_model_loop_rounds log model_name ev ps :
  forall st prev,
    log_open log st ->
    entered prev ps ->
    rounds_scripted ev model_name (st_in st) (st_chat st) ps ->
    exists evs st',
      step log (transcript ev model_name (st_chat st) ps) evs
        (length ps) (length ps) st st'
      /\ forall fuel,
          run_model_loop (length ps + fuel) model_name log prev ev st
          = run_model_loop fuel model_name log (List.last ps prev) ev st'.
Proof.
  induction ps as [|p ps IH]; intros st prev Ho He Hr.
  - exists [], st. split; [now apply step_refl | reflexivity].
  - destruct He as [Hprev He]. destruct Hr as (Hc & Hf & Hr).
    unfold goes_on in Hprev. apply negb_true_iff in Hprev.
    destruct (run_model_loop_round model_name log prev ev st p Ho Hprev Hc Hf)
      as (s1 & S1 & Hround).
    destruct (IH s1 p (proj1 S1) He) as (evs & s2 & S2 & Hrest).
    { destruct S1 as (_ & _ & _ & Hi & Hh). rewrite Hi, Hh.
      now rewrite !Nat.add_1_r. }
    eexists. exists s2. split.
    + pose proof (step_trans _ _ _ _ _ _ _ _ _ _ _ _ S1 S2) as S.
      destruct S1 as (_ & _ & _ & _ & Hh). rewrite Hh, Nat.add_1_r in S.
      exact S.
    + intros fuel. cbn [length Nat.add]. rewrite Hround, Hrest.
      destruct ps as [|p' ps]; [reflexivity|].
      f_equal. change (List.last (p :: p' :: ps) prev)
        with (List.last (p' :: ps) prev).
      apply last_of_cons.
Qed.

Lemma entered_all prev ps q :
  goes_on prev = true ->
  Forall (fun p => goes_on p = true) ps ->
  entered prev (ps ++ [q]).
Proof.
  revert prev. induction ps as [|p ps IH]; intros prev Hprev Hall.
  - now split.
  - inversion Hall as [|? ? Hp Hps]; subst. split; [exact Hprev|].
    now apply IH.
Qed.

Lemma entered_all_go_on prev ps :
  goes_on prev = true ->
  Forall (fun p => goes_on p = true) ps ->
  entered prev ps /\ goes_on (List.last ps prev) = true.
Proof.
  revert prev. induction ps as [|p ps IH]; intros prev Hprev Hall.
  - now split.
  - inversion Hall as [|? ? Hp Hps]; subst.
    destruct (IH p Hp Hps) as [He Hl]. split; [now split|].
    destruct ps as [|p' ps]; [exact Hp|].
    change (List.last (p :: p' :: ps) prev) with (List.last (p' :: ps) prev).
    now rewrite (last_of_cons ps p' prev p).
Qed.

Lemma run_model_loop_no_line fuel model_name log prev ev st e :
  goes_on prev = true ->
  input_failure (console ev (st_in st)) = Some e ->
  run_model_loop (S fuel) model_name log prev ev st
  = (Exc e, after_read prompt_text st).
Proof.
  intros Hprev He. cbn [run_model_loop]. unfold goes_on in Hprev.
  rewrite Hprev. unfold bind at 1. unfold input at 1. unfold bind at 1.
  unfold emit at 1. unfold read_console.
  cbn [st_in log_event].
  destruct (console ev (st_in st)); [discriminate He| |];
    injection He as <-; reflexivity.
Qed.

(** X14.  A session of any number of prompts, none of them the sentinel,
    each answered by the model, and then the sentinel (in any case of
    letters): [run_model]'s [try] statement returns, having read exactly
    these lines, and the log it leaves closed is the transcript of all
    rounds, one after the other, the round of the sentinel included. *)
Theorem session_log_is_the_transcript :
  forall (model_name : pyval) (log : string) (ev : env) (st : state)
         (ps : list string) (q : string),
    open_fails ev (st_sys st) log = None ->
    Forall (fun p => goes_on p = true) ps ->
    goes_on q = false ->
    rounds_scripted ev model_name (st_in st) (st_chat st) (ps ++ [q]) ->
    exists st',
      (forall fuel,
          run_model_session (S (S (length ps)) + fuel) model_name log ev st
          = (Ret tt, st'))
      /\ st_fs st' !! log
         = Some (closed_file (transcript ev model_name (st_chat st) (ps ++ [q])))
      /\ st_in st' = (st_in st + length ps + 1)%nat
      /\ announced log st'.
Proof.
  intros model_name log ev st ps q Hopen Hall Hq Hr.
  destruct (run_model_loop_rounds log model_name ev (ps ++ [q])
              (opened log st) "" (log_open_opened log st)
              (entered_all "" ps q eq_refl Hall) Hr)
    as (evs & s1 & S1 & Hloop).
  destruct S1 as (Ho1 & Hc1 & _ & Hi1 & _).
  exists (log_event (announcement log) (closed log s1)).
  split; [|split; [|split]].
  - intros fuel. unfold run_model_session.
    assert (Hrun : run_model_loop (S (S (length ps)) + fuel) model_name log ""
                     ev (opened log st) = (Ret tt, s1)).
    { replace (S (S (length ps)) + fuel)%nat
        with (length (ps ++ [q]) + S fuel)%nat
        by (rewrite length_app; cbn; lia).
      rewrite Hloop. apply run_model_loop_stops.
      rewrite last_last. unfold goes_on in Hq.
      now apply negb_false_iff in Hq. }
    rewrite (session_wrap _ log ev st _ _
               (with_open_runs log _ ev st (Ret tt) s1 Hopen Hrun Ho1)).
    reflexivity.
  - rewrite closed_file_at, Hc1, log_content_opened. reflexivity.
  - cbn [st_in log_event closed set_fs]. rewrite Hi1, length_app. cbn. lia.
  - apply announced_log_event.
Qed.

Lemma session_log_is_the_transcript_witness :
  exists st',
    (forall fuel,
        run_model_session (S (S (length ["hi"; "more"])) + fuel) (PStr "llama2")
          "logs/s.log" two_rounds initial_state
        = (Ret tt, st'))
    /\ st_fs st' !! "logs/s.log"
       = Some (closed_file
                 (transcript two_rounds (PStr "llama2") (st_chat initial_state)
                    (["hi"; "more"] ++ ["Exit"])))
    /\ st_in st' = (st_in initial_state + length ["hi"; "more"] + 1)%nat
    /\ announced "logs/s.log" st'.
Proof.
  apply (session_log_is_the_transcript (PStr "llama2") "logs/s.log" two_rounds
           initial_state ["hi"; "more"] "Exit").
  - reflexivity.
  - repeat constructor.
  - reflexivity.
  - cbn. repeat split; reflexivity.
Defined.

(** X15.  When the console ends while a session waits for a prompt,
    after any number of answered prompts, the [EOFError] of [input] is
    reported as "An error occurred: EOF when reading a line" and the
    session returns; an interrupt is not reported and leaves the [try]
    statement.  Either way the log is closed on the transcript of the
    rounds before, and the path is announced. *)
Theorem session_console_ends :
  forall (model_name : pyval) (log : string) (ev : env) (st : state)
         (ps : list string) (e : exn),
    open_fails ev (st_sys st) log = None ->
    Forall (fun p => goes_on p = true) ps ->
    rounds_scripted ev model_name (st_in st) (st_chat st) ps ->
    input_failure (console ev (st_in st + length ps)) = Some e ->
    exists st',
      (forall fuel,
          run_model_session (S (length ps) + fuel) model_name log ev st
          = (if is_Exception e then Ret tt else Exc e, st'))
      /\ st_fs st' !! log
         = Some (closed_file (transcript ev model_name (st_chat st) ps))
      /\ (is_Exception e = true ->
          exists before,
            st_trace st' = before ++ [error_report e; announcement log])
      /\ announced log st'.
Proof.
  intros model_name log ev st ps e Hopen Hall Hr He.
  destruct (entered_all_go_on "" ps eq_refl Hall) as [Hent Hlast].
  destruct (run_model_loop_rounds log model_name ev ps
              (opened log st) "" (log_open_opened log st) Hent Hr)
    as (evs & s1 & S1 & Hloop).
  destruct S1 as (Ho1 & Hc1 & _ & Hi1 & _).
  assert (Hrun : forall fuel,
             run_model_loop (S (length ps) + fuel) model_name log "" ev
               (opened log st) = (Exc e, after_read prompt_text s1)).
  { intros fuel.
    replace (S (length ps) + fuel)%nat with (length ps + S fuel)%nat by lia.
    rewrite Hloop. apply run_model_loop_no_line; [exact Hlast|].
    now rewrite Hi1. }
  assert (Ho2 : log_open log (after_read prompt_text s1)) by exact Ho1.
  pose proof (fun fuel =>
                with_open_runs log _ ev st (Exc e) _ Hopen (Hrun fuel) Ho2)
    as Hw.
  assert (Hcontent : log_content log (after_read prompt_text s1)
                     = transcript ev model_name (st_chat st) ps).
  { change (log_content log (after_read prompt_text s1))
      with (log_content log s1).
    now rewrite Hc1, log_content_opened. }
  destruct (is_Exception e) eqn:Hex.
  - exists (log_event (announcement log)
              (log_event (error_report e)
                 (closed log (after_read prompt_text s1)))).
    split; [|split; [|split]].
    + intros fuel. unfold run_model_session.
      rewrite (session_wrap _ log ev st _ _ (Hw fuel)), Hex. reflexivity.
    + cbn [st_fs log_event closed set_fs]. rewrite lookup_insert_eq.
      now rewrite Hcontent.
    + intros _. eexists. cbn [st_trace log_event].
      rewrite <- app_assoc. reflexivity.
    + apply announced_log_event.
  - exists (log_event (announcement log)
              (closed log (after_read prompt_text s1))).
    split; [|split; [|split]].
    + intros fuel. unfold run_model_session.
      rewrite (session_wrap _ log ev st _ _ (Hw fuel)), Hex. reflexivity.
    + rewrite closed_file_at. now rewrite Hcontent.
    + discriminate.
    + apply announced_log_event.
Qed.

Lemma session_console_ends_witness :
  exists st',
    (forall fuel,
        run_model_session (S (length ["hi"; "more"]) + fuel) (PStr "llama2")
          "logs/s.log"
          (echoing ["hi"; "more"]) initial_state
        = (if is_Exception end_of_file then Ret tt else Exc end_of_file, st'))
    /\ st_fs st' !! "logs/s.log"
       = Some (closed_file
                 (transcript
                    (echoing ["hi"; "more"])
                    (PStr "llama2") (st_chat initial_state) ["hi"; "more"]))
    /\ (is_Exception end_of_file = true ->
        exists before,
          st_trace st'
          = before ++ [error_report end_of_file; announcement "logs/s.log"])
    /\ announced "logs/s.log" st'.
Proof.
  apply session_console_ends.
  - reflexivity.
  - repeat constructor.
  - cbn. repeat split; reflexivity.
  - reflexivity.
Defined.




(** ** Further properties: the details of a model *)

Lemma show_one_model_other model_name m ev st :
  named_otherwise model_name m ->
  show_one_model model_name m ev st = (Ret tt, st).
Proof.
  intros (v & Hv & Hne). unfold show_one_model. rewrite Hv. cbn [lift].
  unfold bind at 1. unfold ret at 1. now rewrite Hne.
Qed.

Lemma show_skips_others model_name ev good :
  forall st m rest,
    Forall (named_otherwise model_name) good ->
    for_each (good ++ m :: rest) (show_one_model model_name) ev st
    = (show_one_model model_name m ;;
       for_each rest (show_one_model model_name))%py ev st.
Proof.
  induction good as [|g good IH]; intros st m rest Hall; [reflexivity|].
  inversion Hall as [|? ? Hg Hgood]; subst.
  cbn [app for_each].
  rewrite (bind_ret _ _ _ _ _ _ (show_one_model_other model_name g ev st Hg)).
  now apply IH.
Qed.

Lemma show_all_others model_name ev ms :
  forall st,
    Forall (named_otherwise model_name) ms ->
    for_each ms (show_one_model model_name) ev st = (Ret tt, st).
Proof.
  induction ms as [|m ms IH]; intros st Hall; [reflexivity|].
  inversion Hall as [|? ? Hm Hms]; subst. cbn [for_each].
  rewrite (bind_ret _ _ _ _ _ _ (show_one_model_other model_name m ev st Hm)).
  now apply IH.
Qed.

Lemma show_model_details_fetched model_name ev st ms st1 :
  get_installed_models ev (details_asked model_name st) = (Ret (PList ms), st1) ->
  show_model_details model_name ev st
  = for_each ms (show_one_model model_name) ev st1.
Proof.
  intros Hg. unfold show_model_details.
  unfold bind at 1. unfold print at 1, emit at 1.
  change (log_event (Out ("Details for model: " +:+ py_str model_name +:+ nl)) st)
    with (details_asked model_name st).
  rewrite (bind_ret _ _ _ _ _ _ Hg). cbn [py_iter lift].
  unfold bind at 1. unfold ret at 1. reflexivity.
Qed.



Lemma show_one_model_match model_name d v det ev st :
  dict_lookup "name" d = Some v ->
  py_eq v model_name = true ->
  details_of d = Some det ->
  show_one_model model_name (PDict d) ev st
  = (let! size := lift (py_getitem_str (PDict d) "size") in
     let! gb := lift (bytes_to_gb size) in
     print ("Size: " +:+ py_str gb))%py ev (printed (details_lines v det) st).
Proof.
  intros Hv Heq Hdet. unfold show_one_model. cbn [py_getitem_str].
  rewrite Hv. cbn [lift]. unfold bind at 1. unfold ret at 1. rewrite Heq.
  unfold bind at 1. unfold ret at 1.
  unfold bind at 1. unfold print at 1, emit at 1.
  unfold details_of in Hdet. unfold entry_or_empty.
  cbn [py_get lift].
  destruct (dict_lookup "details" d) as [w|].
  - destruct w; try discriminate Hdet. injection Hdet as ->.
    cbn [py_get lift]. run_effects. reflexivity.
  - injection Hdet as <-. cbn [py_get lift dict_lookup]. run_effects.
    reflexivity.
Qed.

(** X18.  For the one model of the catalog that bears the name asked for,
    [show_model_details] prints the name, the family, the parameter size
    and the quantization level as the catalog has them (the parameter size
    is not converted), and then the size as [bytes_to_gb] gives it, not
    rounded.  When that model has no "size" entry, the first four lines
    are printed and [KeyError] is raised. *)
Theorem show_model_details_of_a_match :
  forall (model_name : pyval) (ev : env) (st : state)
         (good : list pyval) (d : list (string * pyval)) (rest : list pyval)
         (st1 : state) (v : pyval) (det : list (string * pyval)),
    get_installed_models ev (details_asked model_name st)
    = (Ret (PList (good ++ PDict d :: rest)), st1) ->
    Forall (named_otherwise model_name) good ->
    Forall (named_otherwise model_name) rest ->
    dict_lookup "name" d = Some v ->
    py_eq v model_name = true ->
    details_of d = Some det ->
    (forall size gb,
        dict_lookup "size" d = Some size ->
        bytes_to_gb size = Ok gb ->
        show_model_details model_name ev st
        = (Ret tt,
           printed (details_lines v det ++ ["Size: " +:+ py_str gb]) st1))
    /\ (dict_lookup "size" d = None ->
        show_model_details model_name ev st
        = (Exc (Exn KeyError (repr_str "size")),
           printed (details_lines v det) st1)).
Proof.
  intros model_name ev st good d rest st1 v det Hg Hgood Hrest Hv Heq Hdet.
  rewrite (show_model_details_fetched model_name ev st _ st1 Hg).
  rewrite (show_skips_others model_name ev good st1 (PDict d) rest Hgood).
  split.
  - intros size gb Hs Hgb. unfold bind at 1.
    rewrite (show_one_model_match model_name d v det ev st1 Hv Heq Hdet).
    cbn [py_getitem_str]. rewrite Hs. cbn [lift]. unfold bind at 1.
    unfold ret at 1. rewrite Hgb. cbn [lift]. unfold bind at 1.
    unfold ret at 1. unfold print, emit.
    rewrite (show_all_others model_name ev rest _ Hrest).
    unfold printed. rewrite fold_left_app. reflexivity.
  - intros Hs. unfold bind at 1.
    rewrite (show_one_model_match model_name d v det ev st1 Hv Heq Hdet).
    cbn [py_getitem_str]. rewrite Hs. reflexivity.
Qed.

Lemma show_model_details_of_a_match_witness :
  show_model_details (PStr "foo") two_model_server initial_state
  = (Ret tt,
     printed (details_lines (PStr "foo")
                [("family", PStr "llama");
                 ("parameter_size", PStr "7000000000");
                 ("quantization_level", PStr "Q4")]
              ++ ["Size: " +:+ py_str (PFloat (float_of_Z 4))])
       (after_request (details_asked (PStr "foo") initial_state))).
Proof.
  apply (proj1 (show_model_details_of_a_match (PStr "foo") two_model_server
                  initial_state
                  [PDict [("name", PStr "bar"); ("size", PInt 1)]]
                  [("details", PDict [("family", PStr "llama");
                                      ("parameter_size", PStr "7000000000");
                                      ("quantization_level", PStr "Q4")]);
                   ("size", PInt 4294967296);
                   ("name", PStr "foo")]
                  [] (after_request (details_asked (PStr "foo") initial_state))
                  (PStr "foo")
                  [("family", PStr "llama");
                   ("parameter_size", PStr "7000000000");
                   ("quantization_level", PStr "Q4")]
                  ltac:(reflexivity)
                  ltac:(repeat constructor; eexists; split; reflexivity)
                  ltac:(constructor)
                  ltac:(reflexivity) ltac:(reflexivity) ltac:(reflexivity))
           (PInt 4294967296) (PFloat (float_of_Z 4)));
    vm_compute; reflexivity.
Defined.

(** X19.  Option "2" of the secondary menu shows the details of the
    selected model's name and shows the menu again.  The loop has no
    handler: an exception raised while the details are shown (a failed
    request, a model of the catalog without "name" or "size") leaves the
    menu with it, and a selected model without a "name" entry raises before
    anything is requested. *)
Theorem secondary_menu_shows_details :
  forall (fuel : nat) (selected_model : pyval) (ev : env) (st : state),
    console ev (st_in st) = Line "2" ->
    (forall name st1,
        py_getitem_str selected_model "name" = Ok name ->
        show_model_details name ev (menu_answered st) = (Ret tt, st1) ->
        secondary_menu (S fuel) selected_model ev st
        = secondary_menu fuel selected_model ev st1)
    /\ (forall name e st1,
           py_getitem_str selected_model "name" = Ok name ->
           show_model_details name ev (menu_answered st) = (Exc e, st1) ->
           secondary_menu (S fuel) selected_model ev st = (Exc e, st1))
    /\ (forall e,
           py_getitem_str selected_model "name" = Raise e ->
           secondary_menu (S fuel) selected_model ev st
           = (Exc e, menu_answered st)).
Proof.
  intros fuel sel ev st Hc. cbn [secondary_menu].
  rewrite (secondary_menu_asks ev st "2" _ Hc).
  change (String.eqb "2" "1") with false.
  change (String.eqb "2" "2") with true. cbv iota.
  split; [|split].
  - intros name st1 Hn Hs. rewrite Hn. cbn [lift]. unfold bind at 1.
    unfold ret at 1. now rewrite (bind_ret _ _ _ _ _ _ Hs).
  - intros name e st1 Hn Hs. rewrite Hn. cbn [lift]. unfold bind at 1.
    unfold ret at 1. now apply bind_exc.
  - intros e Hn. rewrite Hn. reflexivity.
Qed.

Lemma secondary_menu_shows_details_witness :
  secondary_menu 1 bare_model asking_details initial_state
  = (Exc (Exn KeyError (repr_str "size")),
     printed (details_lines (PStr "foo") [])
       (after_request
          (details_asked (PStr "foo") (menu_answered initial_state)))).
Proof.
  apply (proj1 (proj2 (secondary_menu_shows_details 0 bare_model
                         asking_details initial_state ltac:(reflexivity)))
           (PStr "foo")); vm_compute; reflexivity.
Defined.

End Props.
